(** * SmartBookQA: the retrieval-and-answering pipeline, embedded in Rocq

    A shallow embedding of [modules/rag_pipeline.py], [modules/llm_handler.py],
    [modules/embeddings.py], [modules/vectorstore.py], [modules/text_chunker.py]
    and [modules/pdf_processor.py], with the properties of the pipeline
    stated and proved over it.

    Conventions of the embedding.
    - A Python [str] is a [string]; its characters are the code points
      below 256. The one character beyond them, the check mark of three UI
      messages, is kept as its UTF-8 bytes.
    - A Python [float] on which the code computes (a distance, a
      similarity) is an IEEE 754 binary64 number, a [spec_float] of the
      Standard Library with its operations at precision 53: [1 - d] is the
      subtraction of the format, and [round(x, 3)] rounds the number [x]
      denotes half-to-even to a multiple of 1/1000 and returns the float
      nearest to that decimal, as CPython does. A float that the code only
      passes on (the components of an embedding, a float in a metadata
      mapping) is the rational number it denotes.
    - A Python [int] is a [Z] ([nat] for lengths and counts).
    - A [dict] read with [.get(key, default)] is a record of optional
      fields: [None] for an absent key.
    - An exception is one that [except Exception] catches; [str(e)] is all
      the code reads of it.
    - Code that calls the Streamlit UI or an external service is a
      computation in a state-and-exception monad over a world. The world
      carries a log, to which the UI calls are appended. The collaborators
      of the pipeline and the backends of the providers are arbitrary
      computations over the world, so that "is not invoked" reads: the
      world is left as it was found, whatever the collaborator is. The
      examples use collaborators that log their calls. *)

From stdpp Require Import gmap strings list pretty.
From Stdlib Require Import ZArith QArith Qround Qabs Lqa Lia Floats.

Set Default Proof Using "Type".

(** ** Python built-ins used by the modules *)

Module Py.

(** [str(n)] for an [int]. *)
Definition str_nat (n : nat) : string := pretty n.
Definition str_int (z : Z) : string := pretty z.

(** The line feed and the double quote, as one-character strings. *)
Definition nl : string := String (Ascii.ascii_of_nat 10) EmptyString.
Definition dquote : string := String (Ascii.ascii_of_nat 34) EmptyString.

(** The check mark U+2713 that opens some UI messages. *)
Definition check_mark : string :=
  String (Ascii.ascii_of_nat 226)
    (String (Ascii.ascii_of_nat 156) (String (Ascii.ascii_of_nat 147) EmptyString)).

(** [len(s)], [s[:n]] and truthiness of a [str]. *)
Definition len (s : string) : nat := String.length s.
Definition slice_to (n : nat) (s : string) : string := String.substring 0 n s.
Definition truthy (s : string) : bool :=
  match s with EmptyString => false | String _ _ => true end.

(** [c.isspace()] on the code points below 256: TAB..CR, FS..US, SPACE,
    NEL and NBSP. *)
Definition is_space (c : Ascii.ascii) : bool :=
  let n := Ascii.nat_of_ascii c in
  ((9 <=? n)%nat && (n <=? 13)%nat) || ((28 <=? n)%nat && (n <=? 32)%nat)
  || (n =? 133)%nat || (n =? 160)%nat.

Fixpoint lstrip (s : string) : string :=
  match s with
  | EmptyString => EmptyString
  | String c s' => if is_space c then lstrip s' else s
  end.

Fixpoint rstrip (s : string) : string :=
  match s with
  | EmptyString => EmptyString
  | String c s' =>
      match rstrip s' with
      | EmptyString => if is_space c then EmptyString else String c EmptyString
      | r => String c r
      end
  end.

(** [s.strip()] *)
Definition strip (s : string) : string := rstrip (lstrip s).

Fixpoint all_space (s : string) : bool :=
  match s with
  | EmptyString => true
  | String c s' => is_space c && all_space s'
  end.

(** [sep.join(parts)] *)
Fixpoint join (sep : string) (parts : list string) : string :=
  match parts with
  | [] => EmptyString
  | [p] => p
  | p :: ps => p +:+ sep +:+ join sep ps
  end.

(** [len(s.split())]: the number of maximal runs of non-space characters.
    [in_word] tells whether the previous character belonged to a word. *)
Fixpoint count_words (in_word : bool) (s : string) : nat :=
  match s with
  | EmptyString => 0
  | String c s' =>
      if is_space c then count_words false s'
      else (if in_word then 0 else 1) + count_words true s'
  end.

(** [s.split(sep)] for a non-empty [sep], scanning from the left: [skip]
    counts the characters of a matched separator still to pass, [piece]
    holds the current piece in reverse. *)
Fixpoint split_go (sep : string) (skip : nat) (piece s : string) : list string :=
  match s with
  | EmptyString => [String.rev piece]
  | String c s' =>
      match skip with
      | S k => split_go sep k piece s'
      | O =>
          if String.prefix sep s
          then String.rev piece :: split_go sep (String.length sep - 1) EmptyString s'
          else split_go sep 0 (String c piece) s'
      end
  end.

Definition split (sep s : string) : list string := split_go sep 0 EmptyString s.

(** [s.split(sep)[-1]] *)
Definition after_last (sep s : string) : string := List.last (split sep s) EmptyString.

(** [round(x)] to the nearest integer, ties to the even one. *)
Definition round_half_even (x : Q) : Z :=
  let f := Qfloor x in
  match Qcompare (x - inject_Z f) (1 # 2) with
  | Lt => f
  | Gt => (f + 1)%Z
  | Eq => if Z.even f then f else (f + 1)%Z
  end.

(** A [float]: a binary64 number. *)
Definition float : Type := spec_float.

(** The float a literal of the Standard Library denotes. *)
Definition flt (x : PrimFloat.float) : float := Prim2SF x.

(** [1.0], and the subtraction of two floats. *)
Definition one : float := S754_finite false 4503599627370496 (-52).
Definition float_sub : float -> float -> float := SFsub prec emax.

(** The rational [m * 2^e]: what a finite float of mantissa [m] and
    exponent [e] denotes, up to its sign. *)
Definition magnitude (m : positive) (e : Z) : Q :=
  match e with
  | Zneg p => Zpos m # Pos.pow 2 p
  | _ => inject_Z (Zpos m * 2 ^ e)
  end.

(** [round(x, 3)] on a float: the number [x] denotes is rounded half-to-even
    to [k] thousandths, and the result is the float nearest to [k / 1000],
    with the sign of [x]; an infinity and a NaN round to themselves. *)
Definition round_float (x : float) : float :=
  match x with
  | S754_finite s m e =>
      match round_half_even (magnitude m e * 1000) with
      | Zpos k => SFdiv prec emax (S754_finite s k 0) (S754_finite false 1000 0)
      | _ => S754_zero s
      end
  | _ => x
  end.

(** A number: an [int] or a [float]. *)
Inductive Number : Type :=
  | Int (z : Z)
  | Float (x : float).

(** [1 - d]: on an [int] the subtraction of integers; on a [float] that of
    the floats, the [int] 1 being converted to [1.0]. *)
Definition one_minus (d : Number) : Number :=
  match d with
  | Int z => Int (1 - z)
  | Float x => Float (float_sub one x)
  end.

(** [round(x, 3)]: an [int] is returned as it is. *)
Definition round3 (x : Number) : Number :=
  match x with
  | Int z => Int z
  | Float x => Float (round_float x)
  end.

(** The float denotes a number of the interval [[0,1]]; so does the
    number. *)
Definition float_in_unit_interval (x : float) : Prop :=
  match x with
  | S754_zero _ => True
  | S754_finite false m e => (magnitude m e <= 1)%Q
  | _ => False
  end.

Definition in_unit_interval (x : Number) : Prop :=
  match x with
  | Int z => (0 <= z <= 1)%Z
  | Float x => float_in_unit_interval x
  end.

(** The float nearest to [k / 1000] is a positive number of at most 1. *)
Definition thousandth_in_unit (k : nat) : bool :=
  match SFdiv prec emax (S754_finite false (Pos.of_nat k) 0) (S754_finite false 1000 0) with
  | S754_finite false m e =>
      match Qcompare (magnitude m e) 1 with Gt => false | _ => true end
  | _ => false
  end.

End Py.

(** ** Effects: exceptions, the log, and the monad that threads them *)

(** An embedding vector: [List[float]]. *)
Definition Embedding : Type := list Q.

(** A scalar stored in a Chroma metadata mapping. *)
Inductive Scalar : Type :=
  | SStr (s : string)
  | SInt (z : Z)
  | SFloat (q : Q)
  | SBool (b : bool).

Definition Metadata : Type := gmap string Scalar.

(** A Python exception; [str(e)] is its message. *)
Inductive Exn : Type := Exception (msg : string).

Definition str_exn (e : Exn) : string :=
  match e with Exception msg => msg end.

Inductive Outcome (A : Type) : Type :=
  | Return (a : A)
  | Raise (e : Exn).
Arguments Return {A} a.
Arguments Raise {A} e.

(** What a run does to the outside: Streamlit calls, and calls to the
    collaborators and the services behind them. *)
Inductive Event : Type :=
  | StSpinner (msg : string)
  | StError (msg : string)
  | StInfo (msg : string)
  | StWarning (msg : string)
  | StSuccess (msg : string)
  | CallEmbeddings (texts : list string)
  | CallSearch (query_embedding : Embedding) (n_results : Z)
  | CallAnswer (question context : string) (max_tokens : Z)
  | CallOpenAIChat (system user : string) (max_tokens : Z)
  | CallOpenAIEmbed (texts : list string)
  | CallLocalEncode (texts : list string)
  | CallOllama (prompt : string)
  | CallTransformers (prompt : string) (max_length : Z).

(** A world that carries a log. *)
Class Logged (W : Type) : Type := {
  log_of : W -> list Event;
  log_add : Event -> W -> W
}.

#[export] Instance Logged_log : Logged (list Event) := {|
  log_of := fun l => l;
  log_add := fun ev l => l ++ [ev]
|}.

(** A computation over a world [W]: it returns or raises, and leaves a
    world behind in both cases. *)
Definition M (W A : Type) : Type := W -> Outcome A * W.

Definition ret {W A} (a : A) : M W A := fun w => (Return a, w).
Definition raise {W A} (e : Exn) : M W A := fun w => (Raise e, w).
Definition bind {W A B} (m : M W A) (k : A -> M W B) : M W B :=
  fun w =>
    match m w with
    | (Return a, w') => k a w'
    | (Raise e, w') => (Raise e, w')
    end.

(** [try: body  except Exception as e: handler e] *)
Definition try_except {W A} (body : M W A) (handler : Exn -> M W A) : M W A :=
  fun w =>
    match body w with
    | (Return a, w') => (Return a, w')
    | (Raise e, w') => handler e w'
    end.

Definition emit {W} `{Logged W} (ev : Event) : M W unit :=
  fun w => (Return tt, log_add ev w).

Declare Scope py_scope.
Delimit Scope py_scope with py.
Notation "x <- m ;; k" := (bind m (fun x => k))
  (at level 100, m at next level, right associativity) : py_scope.
Notation "m ;;; k" := (bind m (fun _ => k))
  (at level 100, right associativity) : py_scope.
Local Open Scope py_scope.

(** [st.error(msg)] and its kin, and [with st.spinner(msg): body]. *)
Definition st_error {W} `{Logged W} (msg : string) : M W unit := emit (StError msg).
Definition st_info {W} `{Logged W} (msg : string) : M W unit := emit (StInfo msg).
Definition st_warning {W} `{Logged W} (msg : string) : M W unit := emit (StWarning msg).
Definition st_success {W} `{Logged W} (msg : string) : M W unit := emit (StSuccess msg).
Definition with_spinner {W A} `{Logged W} (msg : string) (body : M W A) : M W A :=
  emit (StSpinner msg) ;;; body.

(** A collaborator seen from its caller: the call is logged, then the
    collaborator answers or raises. *)
Definition call {W A} `{Logged W} (ev : Event) (behaviour : Outcome A) : M W A :=
  fun w => (behaviour, log_add ev w).

(** ** What the pipeline exchanges with its collaborators *)

(** One entry of the list [VectorStore.search] returns: a dict with the
    keys [document], [distance], [metadata] and [id]. A field is [None]
    when the key is absent; the values of [distance] and [id] may
    themselves be Python's [None]. *)
Record SearchResult : Type := {
  sr_document : option string;
  sr_distance : option (option Py.float);
  sr_metadata : option Metadata;
  sr_id : option (option string)
}.

(** All four keys are present. *)
Definition has_keys (r : SearchResult) : Prop :=
  is_Some (sr_document r) /\ is_Some (sr_distance r)
  /\ is_Some (sr_metadata r) /\ is_Some (sr_id r).

(** The methods of [EmbeddingsGenerator], [VectorStore] and [LLMHandler]
    that [RAGPipeline] calls. Each is an arbitrary computation over the
    world: it may return, raise, and change the world as it likes. *)
Module EmbeddingsGeneratorI.
Record t (W : Type) : Type := {
  generate_embeddings : list string -> M W (option (list Embedding))
}.
Arguments generate_embeddings {W} _ _.
End EmbeddingsGeneratorI.

Module VectorStoreI.
Record t (W : Type) : Type := {
  search : Embedding -> Z -> M W (list SearchResult);
  get_collection_count : M W nat;
  add_documents :
    list string -> list Embedding -> option (list Metadata) -> option (list string) -> M W bool
}.
Arguments search {W} _ _ _.
Arguments get_collection_count {W} _.
Arguments add_documents {W} _ _ _ _ _.
End VectorStoreI.

Module LLMHandlerI.
Record t (W : Type) : Type := {
  generate_answer : string -> string -> Z -> M W (option string)
}.
Arguments generate_answer {W} _ _ _ _.
End LLMHandlerI.

(** ** [modules/rag_pipeline.py] *)

Module RAGPipeline.

(** An entry of [sources]. *)
Record SourcePassage : Type := {
  sp_text : string;
  sp_similarity : Py.Number;
  sp_metadata : Metadata
}.

(** The dict [query] returns; the values of its [metadata] are ints. *)
Record QueryResult : Type := {
  answer : string;
  sources : list SourcePassage;
  metadata : gmap string Z
}.

Record t (W : Type) : Type := {
  vectorstore : VectorStoreI.t W;
  embeddings_generator : EmbeddingsGeneratorI.t W;
  llm_handler : LLMHandlerI.t W;
  top_k : Z
}.
Arguments vectorstore {W} _.
Arguments embeddings_generator {W} _.
Arguments llm_handler {W} _.
Arguments top_k {W} _.

(** [1 - distance if distance is not None else 0] *)
Definition similarity_of (distance : option Py.Number) : Py.Number :=
  match distance with
  | Some d => Py.one_minus d
  | None => Py.Int 0
  end.

(** [doc_text[:200] + "..." if len(doc_text) > 200 else doc_text] *)
Definition source_text (doc_text : string) : string :=
  if (200 <? Py.len doc_text)%nat then Py.slice_to 200 doc_text +:+ "..." else doc_text.

(** The dict appended to [sources] for one result. *)
Definition source_of (result : SearchResult) : SourcePassage :=
  let doc_text := default EmptyString (sr_document result) in
  let distance := default (Some (Py.Int 0)) (option_map Py.Float <$> sr_distance result) in
  let metadata := default ∅ (sr_metadata result) in
  let similarity := similarity_of distance in
  {| sp_text := source_text doc_text;
     sp_similarity := Py.round3 similarity;
     sp_metadata := metadata |}.

(** The string appended to [context_parts] for the result of rank [i]. *)
Definition context_part (i : nat) (result : SearchResult) : string :=
  "[Source " +:+ Py.str_nat i +:+ "] " +:+ default EmptyString (sr_document result).

(** The loop [for i, result in enumerate(search_results, 1)], with its two
    accumulators. *)
Fixpoint assemble (i : nat) (search_results : list SearchResult)
    (context_parts : list string) (sources : list SourcePassage)
    : list string * list SourcePassage :=
  match search_results with
  | [] => (context_parts, sources)
  | result :: rest =>
      assemble (S i) rest
        (context_parts ++ [context_part i result]) (sources ++ [source_of result])
  end.

Definition validation_answer : string := "Please provide a valid question.".
Definition embedding_error_answer : string := "Error generating query embedding.".
Definition no_documents_answer : string :=
  "No relevant documents found in the knowledge base. Please upload and process PDFs first.".
Definition generation_error_answer : string := "Error generating answer. Please try again.".

Section Methods.
Context {W : Type} `{Logged W}.
Variable self : t W.

(** The body of the [try] in [query]. *)
Definition query_body (question : string) (max_tokens : Z) : M W QueryResult :=
  (query_embeddings <-
     with_spinner "Generating query embedding..."
       (EmbeddingsGeneratorI.generate_embeddings (embeddings_generator self) [question]) ;;
   match query_embeddings with
   | None | Some [] =>
       ret {| answer := embedding_error_answer; sources := []; metadata := ∅ |}
   | Some (query_embedding :: _) =>
       search_results <-
         with_spinner
           ("Retrieving top " +:+ Py.str_int (top_k self) +:+ " relevant passages...")
           (VectorStoreI.search (vectorstore self) query_embedding (top_k self)) ;;
       match search_results with
       | [] => ret {| answer := no_documents_answer; sources := []; metadata := ∅ |}
       | _ :: _ =>
           let '(context_parts, sources) := assemble 1 search_results [] [] in
           let context := Py.join (Py.nl +:+ Py.nl) context_parts in
           answer <-
             with_spinner "Generating answer..."
               (LLMHandlerI.generate_answer (llm_handler self) question context max_tokens) ;;
           match answer with
           | None | Some EmptyString =>
               ret {| answer := generation_error_answer; sources := sources; metadata := ∅ |}
           | Some answer =>
               ret {| answer := answer;
                      sources := sources;
                      metadata :=
                        {[ "num_sources" := Z.of_nat (length sources);
                           "top_k" := top_k self ]} |}
           end
       end
   end)%py.

(** [RAGPipeline.query] *)
Definition query (question : string) (max_tokens : Z) : M W QueryResult :=
  if negb (Py.truthy question) || negb (Py.truthy (Py.strip question))
  then ret {| answer := validation_answer; sources := []; metadata := ∅ |}
  else
    try_except (query_body question max_tokens)
      (fun e =>
         (st_error ("Error in RAG pipeline: " +:+ str_exn e) ;;;
          ret {| answer := "An error occurred: " +:+ str_exn e;
                 sources := [];
                 metadata := ∅ |})%py).

(** [RAGPipeline.add_documents_to_knowledge_base] *)
Definition add_documents_to_knowledge_base
    (texts : list string) (metadatas : option (list Metadata)) : M W bool :=
  try_except
    (embeddings <-
       with_spinner "Generating embeddings for documents..."
         (EmbeddingsGeneratorI.generate_embeddings (embeddings_generator self) texts) ;;
     match embeddings with
     | None | Some [] => st_error "Failed to generate embeddings." ;;; ret false
     | Some embeddings =>
         existing_count <- VectorStoreI.get_collection_count (vectorstore self) ;;
         let ids :=
           map (fun i => "doc_" +:+ Py.str_nat (existing_count + i)) (seq 0 (length texts)) in
         success <-
           VectorStoreI.add_documents (vectorstore self) texts embeddings metadatas (Some ids) ;;
         ret success
     end)%py
    (fun e =>
       (st_error ("Error adding documents to knowledge base: " +:+ str_exn e) ;;;
        ret false)%py).

End Methods.

Section Vocabulary.
Context {W : Type} `{Logged W}.

(** The world after [with st.spinner(msg)] is entered. *)
Definition spinning (msg : string) (w : W) : W := log_add (StSpinner msg) w.

Definition retrieving_message (self : t W) : string :=
  "Retrieving top " +:+ Py.str_int (top_k self) +:+ " relevant passages...".

(** The context string handed to the answer provider. *)
Definition context_of (search_results : list SearchResult) : string :=
  Py.join (Py.nl +:+ Py.nl) (imap (fun j r => context_part (1 + j) r) search_results).

(** A step of the pipeline raises [e] and leaves the world [w']: the
    embedding provider does, or the vector store does on the embedding it
    was given, or the answer provider does on the context assembled from
    the results. *)
Inductive step_raises (self : t W) (question : string) (max_tokens : Z) (w : W)
    (e : Exn) (w' : W) : Prop :=
  | embedding_raises :
      EmbeddingsGeneratorI.generate_embeddings (embeddings_generator self) [question]
        (spinning "Generating query embedding..." w) = (Raise e, w') ->
      step_raises self question max_tokens w e w'
  | search_raises query_embeddings query_embedding rest w1 :
      EmbeddingsGeneratorI.generate_embeddings (embeddings_generator self) [question]
        (spinning "Generating query embedding..." w) = (Return query_embeddings, w1) ->
      query_embeddings = Some (query_embedding :: rest) ->
      VectorStoreI.search (vectorstore self) query_embedding (top_k self)
        (spinning (retrieving_message self) w1) = (Raise e, w') ->
      step_raises self question max_tokens w e w'
  | answer_raises query_embeddings query_embedding rest w1 search_results w2 :
      EmbeddingsGeneratorI.generate_embeddings (embeddings_generator self) [question]
        (spinning "Generating query embedding..." w) = (Return query_embeddings, w1) ->
      query_embeddings = Some (query_embedding :: rest) ->
      VectorStoreI.search (vectorstore self) query_embedding (top_k self)
        (spinning (retrieving_message self) w1) = (Return search_results, w2) ->
      search_results <> [] ->
      LLMHandlerI.generate_answer (llm_handler self) question (context_of search_results)
        max_tokens (spinning "Generating answer..." w2) = (Raise e, w') ->
      step_raises self question max_tokens w e w'.

(** The pipeline with another answer provider. *)
Definition with_llm_handler (self : t W) (llm : LLMHandlerI.t W) : t W :=
  {| vectorstore := vectorstore self;
     embeddings_generator := embeddings_generator self;
     llm_handler := llm;
     top_k := top_k self |}.

End Vocabulary.

End RAGPipeline.

(** ** [modules/llm_handler.py] *)

Module LLMHandler.

(** The values [self.llm_type] takes, [None] apart. *)
Inductive LLMType : Type := openai | ollama | transformers.

(** The arguments of [chat.completions.create]. *)
Record ChatRequest : Type := {
  model : string;
  messages : list (string * string);
  max_tokens : Z;
  temperature : Q
}.

(** The OpenAI client, as [chat.completions.create] followed by
    [response.choices[0].message.content]: it yields the content or raises. *)
Definition OpenAIClient (W : Type) : Type := ChatRequest -> M W string.

(** What a call of [self.local_llm] returns: Ollama a [str], a transformers
    pipeline a list of dicts, of which [generated_text] is kept. *)
Inductive LocalResponse : Type :=
  | Text (s : string)
  | Sequences (generated_texts : list string).

(** The callable [self.local_llm]: the prompt, and [max_length] when given. *)
Definition LocalLLM (W : Type) : Type := string -> option Z -> M W LocalResponse.

Record t (W : Type) : Type := {
  use_openai : bool;
  openai_client : option (OpenAIClient W);
  local_llm : option (LocalLLM W);
  llm_type : option LLMType
}.
Arguments use_openai {W} _.
Arguments openai_client {W} _.
Arguments local_llm {W} _.
Arguments llm_type {W} _.

(** What the module finds when it is imported and constructed: which
    libraries are installed, the environment variable, and what the three
    constructors do. *)
Record Env (W : Type) : Type := {
  OPENAI_AVAILABLE : bool;
  OLLAMA_AVAILABLE : bool;
  TRANSFORMERS_AVAILABLE : bool;
  OPENAI_API_KEY : option string;
  OpenAI : string -> M W (OpenAIClient W);
  Ollama : M W (LocalLLM W);
  pipeline : M W (LocalLLM W)
}.
Arguments OPENAI_AVAILABLE {W} _.
Arguments OLLAMA_AVAILABLE {W} _.
Arguments TRANSFORMERS_AVAILABLE {W} _.
Arguments OPENAI_API_KEY {W} _.
Arguments OpenAI {W} _ _.
Arguments Ollama {W} _.
Arguments pipeline {W} _.

(** The sentence both prompts open with, and the directive that follows it
    in the remote prompt. *)
Definition opening_sentence : string :=
  "Based on the following context, answer the question.".
Definition refusal_phrase : string :=
  "I don't have enough information to answer this question based on the provided context.".
Definition refusal_directive : string :=
  "If the answer is not in the context, say " +:+ Py.dquote +:+ refusal_phrase +:+ Py.dquote.

(** The f-string of [_generate_openai_answer]. *)
Definition openai_prompt (question context : string) : string :=
  opening_sentence +:+ " " +:+ Py.nl +:+
  refusal_directive +:+ Py.nl +:+
  Py.nl +:+
  "Context:" +:+ Py.nl +:+
  context +:+ Py.nl +:+
  Py.nl +:+
  "Question: " +:+ question +:+ Py.nl +:+
  Py.nl +:+
  "Answer:".

(** The f-string of [_generate_local_answer]. *)
Definition local_prompt (question context : string) : string :=
  opening_sentence +:+ Py.nl +:+
  Py.nl +:+
  "Context:" +:+ Py.nl +:+
  context +:+ Py.nl +:+
  Py.nl +:+
  "Question: " +:+ question +:+ Py.nl +:+
  Py.nl +:+
  "Answer:".

(** The instruction text of a prompt: what precedes its context block. *)
Definition instruction_text (prompt : string) : string :=
  hd EmptyString (Py.split "Context:" prompt).

Definition system_message : string :=
  "You are a helpful assistant that answers questions based on provided context.".
Definition local_error_answer : string := "Error generating answer with local LLM.".

Section Methods.
Context {W : Type} `{Logged W}.

Definition set_openai (self : t W) (client : OpenAIClient W) : t W :=
  {| use_openai := use_openai self; openai_client := Some client;
     local_llm := local_llm self; llm_type := Some openai |}.
Definition set_use_openai (self : t W) (b : bool) : t W :=
  {| use_openai := b; openai_client := openai_client self;
     local_llm := local_llm self; llm_type := llm_type self |}.
Definition set_local (self : t W) (llm : LocalLLM W) (ty : LLMType) : t W :=
  {| use_openai := use_openai self; openai_client := openai_client self;
     local_llm := Some llm; llm_type := Some ty |}.

(** [LLMHandler.__init__]: the object it leaves. *)
Definition __init__ (env : Env W) (use_openai : bool) : M W (t W) :=
  (let self :=
     {| use_openai := use_openai; openai_client := None;
        local_llm := None; llm_type := None |} in
   self <-
     (if use_openai && OPENAI_AVAILABLE env then
        match OPENAI_API_KEY env with
        | Some (String c k as api_key) =>
            try_except
              (client <- OpenAI env api_key ;;
               st_success (Py.check_mark +:+ " Using OpenAI GPT for answer generation") ;;;
               ret (set_openai self client))
              (fun e =>
                 st_warning ("Failed to initialize OpenAI: " +:+ str_exn e) ;;;
                 ret (set_use_openai self false))
        | _ =>
            st_warning "OpenAI API key not found. Trying local LLM fallback..." ;;;
            ret (set_use_openai self false)
        end
      else ret self) ;;
   if negb (LLMHandler.use_openai self) then
     self <-
       (if OLLAMA_AVAILABLE env then
          try_except
            (llm <- Ollama env ;;
             st_info (Py.check_mark +:+ " Using Ollama (local LLM) for answer generation") ;;;
             ret (set_local self llm ollama))
            (fun e => st_warning ("Ollama not available: " +:+ str_exn e) ;;; ret self)
        else ret self) ;;
     self <-
       (if negb (bool_decide (is_Some (local_llm self))) && TRANSFORMERS_AVAILABLE env then
          try_except
            (llm <- pipeline env ;;
             st_info (Py.check_mark
                      +:+ " Using local transformers model (GPT-2) for answer generation") ;;;
             ret (set_local self llm transformers))
            (fun e =>
               st_warning ("Transformers model not available: " +:+ str_exn e) ;;; ret self)
        else ret self) ;;
     (if negb (bool_decide (is_Some (local_llm self)))
      then st_error "No LLM available. Please install Ollama or set up OpenAI API key."
      else ret tt) ;;;
     ret self
   else ret self)%py.

(** [self.openai_client.chat.completions.create(...)] and the read of the
    content; an [AttributeError] when the client is [None]. *)
Definition chat_completions_create (self : t W) (request : ChatRequest) : M W string :=
  match openai_client self with
  | Some client => client request
  | None => raise (Exception "'NoneType' object has no attribute 'chat'")
  end.

(** [self.local_llm(...)]; a [TypeError] when it is [None]. *)
Definition call_local_llm (self : t W) (prompt : string) (max_length : option Z)
    : M W LocalResponse :=
  match local_llm self with
  | Some llm => llm prompt max_length
  | None => raise (Exception "'NoneType' object is not callable")
  end.

(** [LLMHandler._generate_openai_answer] *)
Definition _generate_openai_answer (self : t W) (question context : string) (max_tokens : Z)
    : M W string :=
  (let prompt := openai_prompt question context in
   try_except
     (content <-
        chat_completions_create self
          {| model := "gpt-3.5-turbo";
             messages := [("system", system_message); ("user", prompt)];
             max_tokens := max_tokens;
             temperature := 7 # 10 |} ;;
      ret (Py.strip content))
     (fun e => st_error ("OpenAI API error: " +:+ str_exn e) ;;; raise e))%py.

(** [LLMHandler._generate_local_answer] *)
Definition _generate_local_answer (self : t W) (question context : string) (max_tokens : Z)
    : M W string :=
  (let prompt := local_prompt question context in
   match llm_type self with
   | Some ollama =>
       try_except
         (response <- call_local_llm self prompt None ;;
          match response with
          | Text s => ret (Py.strip s)
          | Sequences _ => raise (Exception "'list' object has no attribute 'strip'")
          end)
         (fun e => st_error ("Ollama error: " +:+ str_exn e) ;;; ret local_error_answer)
   | Some transformers =>
       try_except
         (response <-
            call_local_llm self prompt
              (Some (Z.of_nat (Py.count_words false prompt) + max_tokens)%Z) ;;
          match response with
          | Sequences (generated_text :: _) =>
              ret (Py.strip (Py.after_last "Answer:" generated_text))
          | Sequences [] => raise (Exception "list index out of range")
          | Text EmptyString => raise (Exception "string index out of range")
          | Text _ => raise (Exception "string indices must be integers")
          end)
         (fun e => st_error ("Transformers error: " +:+ str_exn e) ;;; ret local_error_answer)
   | _ => ret "No local LLM available."
   end)%py.

(** [LLMHandler.generate_answer] *)
Definition generate_answer (self : t W) (question context : string) (max_tokens : Z)
    : M W (option string) :=
  if negb (Py.truthy question) || negb (Py.truthy context) then ret None
  else
    try_except
      (if use_openai self && bool_decide (is_Some (openai_client self)) then
         a <- _generate_openai_answer self question context max_tokens ;; ret (Some a)
       else if bool_decide (is_Some (local_llm self)) then
         a <- _generate_local_answer self question context max_tokens ;; ret (Some a)
       else
         st_error "No LLM available for answer generation." ;;; ret None)%py
      (fun e => st_error ("Error generating answer: " +:+ str_exn e) ;;; ret None)%py.

(** [LLMHandler.is_available] *)
Definition is_available (self : t W) : bool :=
  (use_openai self && bool_decide (is_Some (openai_client self)))
  || bool_decide (is_Some (local_llm self)).

(** The handler as the pipeline sees it. *)
Definition as_collaborator (self : t W) : LLMHandlerI.t W :=
  {| LLMHandlerI.generate_answer := generate_answer self |}.

End Methods.

End LLMHandler.

(** ** [modules/embeddings.py] *)

Module EmbeddingsGenerator.

(** A backend, as the call that turns texts into vectors:
    [embeddings.create] followed by the read of [response.data] for the
    remote one, [encode] followed by [tolist] for the local one. *)
Definition Backend (W : Type) : Type := list string -> M W (list Embedding).

Record t (W : Type) : Type := {
  use_openai : bool;
  openai_client : option (Backend W);
  local_model : option (Backend W)
}.
Arguments use_openai {W} _.
Arguments openai_client {W} _.
Arguments local_model {W} _.

Record Env (W : Type) : Type := {
  OPENAI_AVAILABLE : bool;
  SENTENCE_TRANSFORMERS_AVAILABLE : bool;
  OPENAI_API_KEY : option string;
  OpenAI : string -> M W (Backend W);
  SentenceTransformer : string -> M W (Backend W)
}.
Arguments OPENAI_AVAILABLE {W} _.
Arguments SENTENCE_TRANSFORMERS_AVAILABLE {W} _.
Arguments OPENAI_API_KEY {W} _.
Arguments OpenAI {W} _ _.
Arguments SentenceTransformer {W} _ _.

Section Methods.
Context {W : Type} `{Logged W}.

(** [EmbeddingsGenerator.__init__]: the object it leaves. *)
Definition __init__ (env : Env W) (use_openai : bool) : M W (t W) :=
  (let self := {| use_openai := use_openai; openai_client := None; local_model := None |} in
   self <-
     (if use_openai && OPENAI_AVAILABLE env then
        match OPENAI_API_KEY env with
        | Some (String c k as api_key) =>
            try_except
              (client <- OpenAI env api_key ;;
               st_success (Py.check_mark +:+ " Using OpenAI embeddings") ;;;
               ret {| use_openai := use_openai; openai_client := Some client;
                      local_model := None |})
              (fun e =>
                 st_warning ("Failed to initialize OpenAI: " +:+ str_exn e) ;;;
                 ret {| use_openai := false; openai_client := None; local_model := None |})
        | _ =>
            st_warning "OpenAI API key not found. Falling back to local embeddings." ;;;
            ret {| use_openai := false; openai_client := None; local_model := None |}
        end
      else ret self) ;;
   if negb (EmbeddingsGenerator.use_openai self) then
     if SENTENCE_TRANSFORMERS_AVAILABLE env then
       try_except
         (model <- SentenceTransformer env "all-MiniLM-L6-v2" ;;
          st_info (Py.check_mark +:+ " Using local embeddings (sentence-transformers)") ;;;
          ret {| use_openai := EmbeddingsGenerator.use_openai self;
                 openai_client := openai_client self;
                 local_model := Some model |})
         (fun e =>
            st_error ("Failed to load local embedding model: " +:+ str_exn e) ;;; ret self)
     else
       st_error "No embedding model available. Please install sentence-transformers." ;;;
       ret self
   else ret self)%py.

(** [EmbeddingsGenerator._generate_local_embeddings] *)
Definition _generate_local_embeddings (self : t W) (texts : list string)
    : M W (list Embedding) :=
  match local_model self with
  | None => raise (Exception "Local embedding model not initialized")
  | Some model => model texts
  end.

(** [EmbeddingsGenerator._generate_openai_embeddings] *)
Definition _generate_openai_embeddings (self : t W) (texts : list string)
    : M W (list Embedding) :=
  try_except
    (match openai_client self with
     | Some client => client texts
     | None => raise (Exception "'NoneType' object has no attribute 'embeddings'")
     end)
    (fun e =>
       (st_error ("OpenAI embedding error: " +:+ str_exn e) ;;;
        if bool_decide (is_Some (local_model self)) then
          st_info "Falling back to local embeddings..." ;;;
          _generate_local_embeddings self texts
        else raise e)%py).

(** [EmbeddingsGenerator.generate_embeddings] *)
Definition generate_embeddings (self : t W) (texts : list string)
    : M W (option (list Embedding)) :=
  match texts with
  | [] => ret None
  | _ :: _ =>
      try_except
        (if use_openai self && bool_decide (is_Some (openai_client self)) then
           r <- _generate_openai_embeddings self texts ;; ret (Some r)
         else if bool_decide (is_Some (local_model self)) then
           r <- _generate_local_embeddings self texts ;; ret (Some r)
         else
           st_error "No embedding model available." ;;; ret None)%py
        (fun e => st_error ("Error generating embeddings: " +:+ str_exn e) ;;; ret None)%py
  end.

(** [EmbeddingsGenerator.get_embedding_dimension] *)
Definition get_embedding_dimension (self : t W) : Z :=
  if use_openai self && bool_decide (is_Some (openai_client self)) then 1536
  else if bool_decide (is_Some (local_model self)) then 384
  else 0.

(** The generator as the pipeline sees it. *)
Definition as_collaborator (self : t W) : EmbeddingsGeneratorI.t W :=
  {| EmbeddingsGeneratorI.generate_embeddings := generate_embeddings self |}.

End Methods.

End EmbeddingsGenerator.

(** ** The ChromaDB client, as [modules/vectorstore.py] uses it

    ChromaDB is an external library. This is a model of the part of its
    behaviour that the vector store relies on. A persistent client holds
    named collections; a collection holds records keyed by id and, from its
    first record on, the dimension of its vectors, which it keeps when the
    records are deleted. [delete_collection] raises on an unknown name.
    [add] validates the whole batch before it writes: lists of unequal
    lengths, an empty or repeated list of ids, an empty metadata dict, an
    empty vector and a vector of another dimension than the collection's
    are refused; a record whose id the collection already holds is skipped.
    [delete] refuses an empty list of ids and a repeated id. What else the
    installed client checks of a batch (its size against the client's
    limit, the values of the metadata) is a parameter, [Checks]. The texts
    of the library's messages are shortened, and no property depends on
    them. The nearest-neighbour query is left abstract. *)

Module Chroma.

Record Rec : Type := {
  embedding : Embedding;
  document : string;
  metadata : Metadata
}.

Record Collection : Type := {
  config : gmap string string;
  dimension : option nat;
  records : gmap string Rec
}.

(** The checks of the installed client on a batch that are not modelled in
    [add]: [None] when the batch passes them, the exception otherwise. *)
Definition Checks : Type :=
  list Embedding -> list string -> list Metadata -> list string -> option Exn.

(** The state behind a [PersistentClient]: its collections, by name. *)
Abbreviation Client := (gmap string Collection).

(** What [collection.query] returns: one list per query embedding under
    each key, or [None] under a key that was not asked for. *)
Record QueryResponse : Type := {
  documents : option (list (list string));
  distances : option (list (list Py.float));
  metadatas : option (list (list Metadata));
  ids : option (list (list string))
}.

Definition not_found (name : string) : Exn :=
  Exception ("Collection " +:+ name +:+ " does not exist.").

(** [client.delete_collection(name)] *)
Definition delete_collection (name : string) (c : Client) : Outcome unit * Client :=
  match c !! name with
  | Some _ => (Return tt, delete name c)
  | None => (Raise (not_found name), c)
  end.

(** [client.get_or_create_collection(name, metadata)]; the handle it
    returns is the name. *)
Definition get_or_create_collection (name : string) (cfg : gmap string string) (c : Client)
    : string * Client :=
  match c !! name with
  | Some _ => (name, c)
  | None => (name, <[name := {| config := cfg; dimension := None; records := ∅ |}]> c)
  end.

(** [collection.count()] through the handle [h]. *)
Definition count (h : string) (c : Client) : Outcome nat :=
  match c !! h with
  | Some col => Return (size (records col))
  | None => Raise (not_found h)
  end.

(** One record goes in unless its id is taken. *)
Definition add_one (m : gmap string Rec) (entry : string * Rec) : gmap string Rec :=
  match m !! entry.1 with
  | Some _ => m
  | None => <[entry.1 := entry.2]> m
  end.

Definition zip_records (embeddings : list Embedding) (documents : list string)
    (metadatas : list Metadata) (ids : list string) : list (string * Rec) :=
  zip ids
    (zip_with (fun em dm => {| embedding := em; document := dm.1; metadata := dm.2 |})
       embeddings (zip documents metadatas)).

(** The validation of a list of ids, which [add] and [delete] share. *)
Definition validate_ids (ids : list string) : option Exn :=
  if bool_decide (ids = []) then Some (Exception "Expected IDs to be a non-empty list")
  else if negb (bool_decide (NoDup ids)) then Some (Exception "Expected IDs to be unique")
  else None.

(** The dimension the vectors of a batch must have: the collection's, or
    that of the first vector while the collection has none. *)
Definition expected_dimension (col : Collection) (embeddings : list Embedding) : nat :=
  match dimension col with
  | Some d => d
  | None => length (hd [] embeddings)
  end.

(** The validation of the batch itself. *)
Definition validate_batch (col : Collection) (embeddings : list Embedding)
    (documents : list string) (metadatas : list Metadata) (ids : list string) : option Exn :=
  if negb (bool_decide (length embeddings = length ids
                        /\ length documents = length ids
                        /\ length metadatas = length ids))
  then Some (Exception "Unequal lengths for fields")
  else
    match validate_ids ids with
    | Some e => Some e
    | None =>
        if existsb (fun m => bool_decide (m = ∅)) metadatas
        then Some (Exception "Expected metadata to be a non-empty dict")
        else if existsb (fun em => bool_decide (em = [])) embeddings
        then Some (Exception "Expected each embedding to be a non-empty list")
        else if negb (forallb (fun em => length em =? expected_dimension col embeddings)%nat
                        embeddings)
        then Some (Exception "Embedding dimension does not match collection dimensionality")
        else None
    end.

(** [collection.add(embeddings, documents, metadatas, ids)] through [h], on
    a client with the further checks [checks]. *)
Definition add (checks : Checks) (h : string) (embeddings : list Embedding)
    (documents : list string) (metadatas : list Metadata) (ids : list string) (c : Client)
    : Outcome unit * Client :=
  match c !! h with
  | None => (Raise (not_found h), c)
  | Some col =>
      match validate_batch col embeddings documents metadatas ids with
      | Some e => (Raise e, c)
      | None =>
          match checks embeddings documents metadatas ids with
          | Some e => (Raise e, c)
          | None =>
              let col' :=
                {| config := config col;
                   dimension := Some (expected_dimension col embeddings);
                   records :=
                     foldl add_one (records col)
                       (zip_records embeddings documents metadatas ids) |} in
              (Return tt, <[h := col']> c)
          end
      end
  end.

(** [collection.delete(ids)] through [h]. *)
Definition delete_ids (h : string) (ids : list string) (c : Client) : Outcome unit * Client :=
  match c !! h with
  | None => (Raise (not_found h), c)
  | Some col =>
      match validate_ids ids with
      | Some e => (Raise e, c)
      | None =>
          let col' :=
            {| config := config col;
               dimension := dimension col;
               records := foldl (fun m i => delete i m) (records col) ids |} in
          (Return tt, <[h := col']> c)
      end
  end.

End Chroma.

(** ** [modules/vectorstore.py] *)

Module VectorStore.

(** The object after [__init__]: its two settings, the client with the
    state behind it and the further checks it applies, the handle
    [self.collection], and what it has shown on the UI. *)
Record t : Type := {
  persist_directory : string;
  collection_name : string;
  client : Chroma.Client;
  checks : Chroma.Checks;
  collection : string;
  ui : list Event
}.

#[global] Instance Logged_t : Logged t := {|
  log_of := ui;
  log_add := fun ev s =>
    {| persist_directory := persist_directory s;
       collection_name := collection_name s;
       client := client s;
       checks := checks s;
       collection := collection s;
       ui := ui s ++ [ev] |}
|}.

(** [{"hnsw:space": "cosine"}] *)
Definition cosine : gmap string string := {[ "hnsw:space" := "cosine" ]}.

(** [VectorStore._initialize_client]: the client opened on what the persist
    directory holds, and the handle of the collection got or created. *)
Definition _initialize_client (collection_name : string) (stored : Chroma.Client)
    : Chroma.Client * string :=
  let '(h, c) := Chroma.get_or_create_collection collection_name cosine stored in
  (c, h).

(** [VectorStore.__init__]: the object it leaves, [stored] being what the
    persist directory holds and [checks] the further checks of the client
    that [chromadb.PersistentClient] opens. *)
Definition __init__ (persist_directory collection_name : string) (stored : Chroma.Client)
    (checks : Chroma.Checks) : t :=
  let '(c, h) := _initialize_client collection_name stored in
  {| persist_directory := persist_directory;
     collection_name := collection_name;
     client := c;
     checks := checks;
     collection := h;
     ui := [] |}.

(** The collection the store is named after exists in the client. *)
Definition bound (s : t) : Prop := is_Some (client s !! collection_name s).

(** A call that goes to the client and may change the state behind it. *)
Definition on_client {A} (f : Chroma.Client -> Outcome A * Chroma.Client) : M t A :=
  fun s =>
    let '(r, c) := f (client s) in
    (r, {| persist_directory := persist_directory s;
           collection_name := collection_name s;
           client := c;
           checks := checks s;
           collection := collection s;
           ui := ui s |}).

(** [self.collection = h] *)
Definition set_collection (h : string) : M t unit :=
  fun s =>
    (Return tt, {| persist_directory := persist_directory s;
                   collection_name := collection_name s;
                   client := client s;
                   checks := checks s;
                   collection := h;
                   ui := ui s |}).

Definition get_self : M t t := fun s => (Return s, s).

(** [[f"doc_{i}" for i in range(n)]] *)
Definition default_ids (n : nat) : list string :=
  map (fun i => "doc_" +:+ Py.str_nat i) (seq 0 n).

(** [[{"text": text[:100]} for text in texts]] *)
Definition default_metadatas (texts : list string) : list Metadata :=
  map (fun text => {[ "text" := SStr (Py.slice_to 100 text) ]}) texts.

(** [VectorStore.add_documents] *)
Definition add_documents (texts : list string) (embeddings : list Embedding)
    (metadatas : option (list Metadata)) (ids : option (list string)) : M t bool :=
  try_except
    (match texts, embeddings with
     | [], _ | _, [] => st_error "No texts or embeddings provided." ;;; ret false
     | _ :: _, _ :: _ =>
         if negb (length texts =? length embeddings)%nat then
           st_error "Mismatch between number of texts and embeddings." ;;; ret false
         else
           let ids :=
             match ids with
             | None => default_ids (length texts)
             | Some ids => ids
             end in
           let metadatas :=
             match metadatas with
             | None => default_metadatas texts
             | Some metadatas => metadatas
             end in
           self <- get_self ;;
           on_client
             (Chroma.add (checks self) (collection self) embeddings texts metadatas ids) ;;;
           ret true
     end)%py
    (fun e =>
       (st_error ("Error adding documents to vector store: " +:+ str_exn e) ;;; ret false)%py).

(** [VectorStore.get_collection_count] *)
Definition get_collection_count : M t nat :=
  try_except
    (self <- get_self ;;
     on_client (fun c => (Chroma.count (collection self) c, c)))%py
    (fun _ => ret 0%nat).

(** [VectorStore.clear_collection] *)
Definition clear_collection : M t bool :=
  try_except
    (self <- get_self ;;
     on_client (Chroma.delete_collection (collection_name self)) ;;;
     h <- on_client (fun c =>
            let '(h, c') := Chroma.get_or_create_collection (collection_name self) cosine c in
            (Return h, c')) ;;
     set_collection h ;;;
     ret true)%py
    (fun e => (st_error ("Error clearing collection: " +:+ str_exn e) ;;; ret false)%py).

(** [VectorStore.delete_documents] *)
Definition delete_documents (ids : list string) : M t bool :=
  try_except
    (self <- get_self ;;
     on_client (Chroma.delete_ids (collection self) ids) ;;;
     ret true)%py
    (fun e => (st_error ("Error deleting documents: " +:+ str_exn e) ;;; ret false)%py).

(** A call of one of the methods that change the store, and the state a
    sequence of such calls leaves. *)
Inductive Call : Type :=
  | AddDocuments (texts : list string) (embeddings : list Embedding)
      (metadatas : option (list Metadata)) (ids : option (list string))
  | ClearCollection
  | DeleteDocuments (ids : list string)
  | GetCollectionCount.

Definition step (s : t) (c : Call) : t :=
  match c with
  | AddDocuments texts embeddings metadatas ids =>
      (add_documents texts embeddings metadatas ids s).2
  | ClearCollection => (clear_collection s).2
  | DeleteDocuments ids => (delete_documents ids s).2
  | GetCollectionCount => (get_collection_count s).2
  end.

Definition run (calls : list Call) (s : t) : t := foldl step s calls.

(** [x[0][i]], which raises an [IndexError] out of range. *)
Definition index2 {A} (x : list (list A)) (i : nat) : Outcome A :=
  match x with
  | [] => Raise (Exception "list index out of range")
  | row :: _ =>
      match row !! i with
      | Some a => Return a
      | None => Raise (Exception "list index out of range")
      end
  end.

Definition lift {A} (o : Outcome A) : M t A := fun s => (o, s).

(** The value under an optional key of the response:
    [results[k][0][i] if results[k] else otherwise]. *)
Definition index_or {A B} (x : option (list (list A))) (some : A -> B) (otherwise : B)
    (i : nat) : Outcome B :=
  match x with
  | None | Some [] => Return otherwise
  | Some rows =>
      match index2 rows i with
      | Return a => Return (some a)
      | Raise e => Raise e
      end
  end.

(** The loop [for i in range(len(results['documents'][0]))] of [search]. *)
Fixpoint format_results (results : Chroma.QueryResponse) (docs : list (list string))
    (indices : list nat) (formatted_results : list SearchResult)
    : M t (list SearchResult) :=
  match indices with
  | [] => ret formatted_results
  | i :: rest =>
      (doc <- lift (index2 docs i) ;;
       dist <- lift (index_or (Chroma.distances results) Some None i) ;;
       meta <- lift (index_or (Chroma.metadatas results) id ∅ i) ;;
       ident <- lift (index_or (Chroma.ids results) Some None i) ;;
       format_results results docs rest
         (formatted_results ++
            [{| sr_document := Some doc;
                sr_distance := Some dist;
                sr_metadata := Some meta;
                sr_id := Some ident |}]))%py
  end.

Section Search.

(** [collection.query(query_embeddings, n_results, where)]: the
    nearest-neighbour search of the index, on the collection it is asked of. *)
Variable collection_query :
  Chroma.Collection -> list Embedding -> Z -> option Metadata -> Outcome Chroma.QueryResponse.

(** [VectorStore.search] *)
Definition search (query_embedding : Embedding) (n_results : Z)
    (filter_metadata : option Metadata) : M t (list SearchResult) :=
  try_except
    (self <- get_self ;;
     results <-
       lift (match client self !! collection self with
             | Some col => collection_query col [query_embedding] n_results filter_metadata
             | None => Raise (Chroma.not_found (collection self))
             end) ;;
     match Chroma.documents results with
     | None | Some [] => ret []
     | Some ((first :: _) as docs) =>
         match first with
         | [] => ret []
         | _ :: _ => format_results results docs (seq 0 (length first)) []
         end
     end)%py
    (fun e => (st_error ("Error searching vector store: " +:+ str_exn e) ;;; ret [])%py).

(** The store as the pipeline sees it. *)
Definition as_collaborator : VectorStoreI.t t :=
  {| VectorStoreI.search := fun e n => search e n None;
     VectorStoreI.get_collection_count := get_collection_count;
     VectorStoreI.add_documents := add_documents |}.

End Search.

End VectorStore.

(** ** Concrete collaborators and objects, for the examples below *)

Module Examples.

(** Collaborators that log their call and then behave as told. *)
Definition embedder (behaviour : Outcome (option (list Embedding)))
    : EmbeddingsGeneratorI.t (list Event) :=
  {| EmbeddingsGeneratorI.generate_embeddings :=
       fun texts => call (CallEmbeddings texts) behaviour |}.

Definition store (behaviour : Outcome (list SearchResult)) : VectorStoreI.t (list Event) :=
  {| VectorStoreI.search := fun e n => call (CallSearch e n) behaviour;
     VectorStoreI.get_collection_count := ret 0%nat;
     VectorStoreI.add_documents := fun _ _ _ _ => ret true |}.

Definition llm (behaviour : Outcome (option string)) : LLMHandlerI.t (list Event) :=
  {| LLMHandlerI.generate_answer := fun q c n => call (CallAnswer q c n) behaviour |}.

Definition pipeline (e : Outcome (option (list Embedding)))
    (s : Outcome (list SearchResult)) (l : Outcome (option string))
    : RAGPipeline.t (list Event) :=
  {| RAGPipeline.vectorstore := store s;
     RAGPipeline.embeddings_generator := embedder e;
     RAGPipeline.llm_handler := llm l;
     RAGPipeline.top_k := 5 |}.

Definition one_embedding : Outcome (option (list Embedding)) :=
  Return (Some [[1 # 2; 1 # 4]%Q]).

Definition hit (doc : string) (distance : option Py.float) : SearchResult :=
  {| sr_document := Some doc;
     sr_distance := Some distance;
     sr_metadata := Some ∅;
     sr_id := Some (Some "doc_0") |}.

(** A remote client whose call fails and an Ollama model that answers. *)
Definition content_of (role : string) (messages : list (string * string)) : string :=
  default EmptyString (snd <$> head (filter (fun m => bool_decide (m.1 = role)) messages)).

Definition failing_client : LLMHandler.OpenAIClient (list Event) :=
  fun request =>
    call (CallOpenAIChat (content_of "system" (LLMHandler.messages request))
            (content_of "user" (LLMHandler.messages request))
            (LLMHandler.max_tokens request))
      (Raise (Exception "Connection error.")).

Definition ollama_model : LLMHandler.LocalLLM (list Event) :=
  fun prompt _ => call (CallOllama prompt) (Return (LLMHandler.Text " Paris. ")).

(** An environment with an API key, in which both the OpenAI library and
    Ollama are installed; the remote client it builds fails when called. *)
Definition env_with_both : LLMHandler.Env (list Event) :=
  {| LLMHandler.OPENAI_AVAILABLE := true;
     LLMHandler.OLLAMA_AVAILABLE := true;
     LLMHandler.TRANSFORMERS_AVAILABLE := false;
     LLMHandler.OPENAI_API_KEY := Some "sk-test";
     LLMHandler.OpenAI := fun _ => ret failing_client;
     LLMHandler.Ollama := ret ollama_model;
     LLMHandler.pipeline := raise (Exception "transformers is not installed") |}.

(** The same environment with no API key set. *)
Definition env_without_key : LLMHandler.Env (list Event) :=
  {| LLMHandler.OPENAI_AVAILABLE := true;
     LLMHandler.OLLAMA_AVAILABLE := true;
     LLMHandler.TRANSFORMERS_AVAILABLE := false;
     LLMHandler.OPENAI_API_KEY := None;
     LLMHandler.OpenAI := fun _ => ret failing_client;
     LLMHandler.Ollama := ret ollama_model;
     LLMHandler.pipeline := raise (Exception "transformers is not installed") |}.

(** The same for the embeddings. *)
Definition failing_embeddings : EmbeddingsGenerator.Backend (list Event) :=
  fun texts => call (CallOpenAIEmbed texts) (Raise (Exception "Connection error.")).

Definition local_embeddings : EmbeddingsGenerator.Backend (list Event) :=
  fun texts => call (CallLocalEncode texts) (Return (map (fun _ => [1 # 2; 1 # 4]%Q) texts)).

Definition generator_with_both : EmbeddingsGenerator.t (list Event) :=
  {| EmbeddingsGenerator.use_openai := true;
     EmbeddingsGenerator.openai_client := Some failing_embeddings;
     EmbeddingsGenerator.local_model := Some local_embeddings |}.

(** A client that checks nothing further, a freshly opened store on it,
    and a pipeline on that store whose embedding provider gives every text
    the same vector. *)
Definition no_further_checks : Chroma.Checks := fun _ _ _ _ => None.

Definition fresh_store : VectorStore.t :=
  VectorStore.__init__ "./vectorstore" "smartbookqa" ∅ no_further_checks.

Definition no_hits : Chroma.Collection -> list Embedding -> Z -> option Metadata
    -> Outcome Chroma.QueryResponse :=
  fun _ _ _ _ =>
    Return {| Chroma.documents := Some [[]]; Chroma.distances := Some [[]];
              Chroma.metadatas := Some [[]]; Chroma.ids := Some [[]] |}.

Definition store_pipeline : RAGPipeline.t VectorStore.t :=
  {| RAGPipeline.vectorstore := VectorStore.as_collaborator no_hits;
     RAGPipeline.embeddings_generator :=
       {| EmbeddingsGeneratorI.generate_embeddings :=
            fun texts => ret (Some (map (fun _ => [1 # 2; 1 # 4]%Q) texts)) |};
     RAGPipeline.llm_handler :=
       {| LLMHandlerI.generate_answer := fun _ _ _ => ret None |};
     RAGPipeline.top_k := 5 |}.

Definition vectors (n : nat) : list Embedding := replicate n [1 # 2; 1 # 4]%Q.

(** The document a store holds under an id. *)
Definition document_of (s : VectorStore.t) (id : string) : option string :=
  col ← VectorStore.client s !! VectorStore.collection s;
  Chroma.document <$> Chroma.records col !! id.

(** A string of [n] letters. *)
Fixpoint letters (n : nat) : string :=
  match n with
  | O => EmptyString
  | S n' => String (Ascii.ascii_of_nat 97) (letters n')
  end.

End Examples.

(** ** [modules/text_chunker.py] *)

Module TextChunker.

(** [RecursiveCharacterTextSplitter.split_text], from LangChain: a function
    of the text once the splitter is built. *)
Definition Splitter : Type := string -> list string.

Record t : Type := {
  chunk_size : Z;
  chunk_overlap : Z;
  text_splitter : Splitter
}.

(** An entry of the list [chunk_documents] returns. *)
Record Chunk : Type := {
  ck_text : string;
  ck_document_id : nat;
  ck_chunk_id : nat;
  ck_chunk_size : nat
}.

(** [["\n\n", "\n", ". ", " ", ""]] *)
Definition default_separators : list string :=
  [Py.nl +:+ Py.nl; Py.nl; ". "; " "; EmptyString].

Section Methods.

(** The constructor of LangChain's splitter, with [length_function=len]:
    it builds a splitter or raises. *)
Variable RecursiveCharacterTextSplitter : Z -> Z -> list string -> Outcome Splitter.

(** [tiktoken.encoding_for_model(model).encode(text)]: the tokens, or what
    either call raises. *)
Variable tiktoken_encode : string -> string -> Outcome (list Z).

(** [TextChunker.__init__]: the object it leaves, or what the constructor
    of the splitter raises. *)
Definition __init__ (chunk_size chunk_overlap : Z) (separators : option (list string))
    : Outcome t :=
  let separators :=
    match separators with
    | None => default_separators
    | Some separators => separators
    end in
  match RecursiveCharacterTextSplitter chunk_size chunk_overlap separators with
  | Return splitter =>
      Return {| chunk_size := chunk_size;
                chunk_overlap := chunk_overlap;
                text_splitter := splitter |}
  | Raise e => Raise e
  end.

(** [TextChunker.chunk_text] *)
Definition chunk_text (self : t) (text : string) : list string :=
  if negb (Py.truthy text) || negb (Py.truthy (Py.strip text)) then []
  else text_splitter self text.

(** The loop [for chunk_idx, chunk in enumerate(chunks)] of
    [chunk_documents]. *)
Fixpoint append_chunks (doc_idx chunk_idx : nat) (chunks : list string)
    (all_chunks : list Chunk) : list Chunk :=
  match chunks with
  | [] => all_chunks
  | chunk :: rest =>
      append_chunks doc_idx (S chunk_idx) rest
        (all_chunks ++ [{| ck_text := chunk;
                           ck_document_id := doc_idx;
                           ck_chunk_id := chunk_idx;
                           ck_chunk_size := Py.len chunk |}])
  end.

(** The loop [for doc_idx, doc in enumerate(documents)]. *)
Fixpoint chunk_documents_from (self : t) (doc_idx : nat) (documents : list string)
    (all_chunks : list Chunk) : list Chunk :=
  match documents with
  | [] => all_chunks
  | doc :: rest =>
      let chunks := chunk_text self doc in
      chunk_documents_from self (S doc_idx) rest (append_chunks doc_idx 0 chunks all_chunks)
  end.

(** [TextChunker.chunk_documents] *)
Definition chunk_documents (self : t) (documents : list string) : list Chunk :=
  chunk_documents_from self 0 documents [].

(** The entry for the chunk of index [k] of the document of index [d]. *)
Definition chunk_entry (d : nat) (k : nat) (chunk : string) : Chunk :=
  {| ck_text := chunk; ck_document_id := d; ck_chunk_id := k; ck_chunk_size := Py.len chunk |}.

(** [TextChunker.estimate_tokens] *)
Definition estimate_tokens (text : string) (model : string) : nat :=
  match tiktoken_encode model text with
  | Return tokens => length tokens
  | Raise _ => Py.len text / 4
  end.

End Methods.

End TextChunker.

(** ** [modules/pdf_processor.py] *)

Module PDFProcessor.

(** What [PyPDF2.PdfReader] raises: a [PdfReadError], or another exception. *)
Inductive ReaderError : Type :=
  | PdfReadError (msg : string)
  | OtherError (msg : string).

(** What [PyPDF2.PdfReader] makes of the data: a reader whose pages each
    give their text or raise when [extract_text] is called, or an error. *)
Inductive Reader : Type :=
  | Pages (pages : list (Outcome string))
  | Fails (e : ReaderError).

(** The argument [pdf_file]: an object with a [read] attribute, whose
    [seek(0)] returns or raises, or bytes. *)
Inductive PdfFile : Type :=
  | FileLike (seek : Outcome unit) (reader : Reader)
  | Bytes (reader : Reader).

(** The first statement of both methods: [seek(0)] where there is a
    [read], then [PyPDF2.PdfReader(...)]. What [seek] raises is not a
    [PdfReadError]. *)
Definition open_reader (pdf_file : PdfFile) : Reader :=
  match pdf_file with
  | FileLike (Return _) reader => reader
  | FileLike (Raise e) _ => Fails (OtherError (str_exn e))
  | Bytes reader => reader
  end.

(** [f"--- Page {page_num + 1} ---\n{page_text}"] *)
Definition page_block (page_num : nat) (page_text : string) : string :=
  "--- Page " +:+ Py.str_nat (page_num + 1) +:+ " ---" +:+ Py.nl +:+ page_text.

Section Methods.
Context {W : Type} `{Logged W}.

(** The loop [for page_num, page in enumerate(pdf_reader.pages)], with its
    inner [try]. *)
Fixpoint extract_pages (page_num : nat) (pages : list (Outcome string))
    (text_content : list string) : M W (list string) :=
  match pages with
  | [] => ret text_content
  | page :: rest =>
      match page with
      | Return page_text =>
          if Py.truthy (Py.strip page_text)
          then extract_pages (S page_num) rest
                 (text_content ++ [page_block page_num page_text])
          else extract_pages (S page_num) rest text_content
      | Raise e =>
          (st_warning ("Error extracting text from page " +:+ Py.str_nat (page_num + 1)
                       +:+ ": " +:+ str_exn e) ;;;
           extract_pages (S page_num) rest text_content)%py
      end
  end.

(** [PDFProcessor.extract_text_from_pdf]; the two [except] clauses of the
    outer [try] are the two kinds of [ReaderError]. *)
Definition extract_text_from_pdf (pdf_file : PdfFile) : M W (option string) :=
  match open_reader pdf_file with
  | Pages pages =>
      (text_content <- extract_pages 0 pages [] ;;
       match text_content with
       | [] => st_error "No text could be extracted from the PDF." ;;; ret None
       | _ :: _ => ret (Some (Py.join (Py.nl +:+ Py.nl) text_content))
       end)%py
  | Fails (PdfReadError msg) => (st_error ("Error reading PDF file: " +:+ msg) ;;; ret None)%py
  | Fails (OtherError msg) =>
      (st_error ("Unexpected error processing PDF: " +:+ msg) ;;; ret None)%py
  end.

End Methods.

(** [PDFProcessor.validate_pdf] *)
Definition validate_pdf (pdf_file : PdfFile) : bool :=
  match open_reader pdf_file with
  | Pages pages => (0 <? length pages)%nat
  | Fails _ => false
  end.

(** The text blocks of the pages that give text: each page that returns a
    text which is not blank, under its own page number. *)
Definition usable (page : Outcome string) : option string :=
  match page with
  | Return page_text => if Py.all_space page_text then None else Some page_text
  | Raise _ => None
  end.

Definition page_blocks (pages : list (Outcome string)) : list string :=
  omap id (imap (fun i page => page_block i <$> usable page) pages).

(** The warnings for the pages that raise, in page order. *)
Definition page_warnings (pages : list (Outcome string)) : list Event :=
  omap id
    (imap (fun i page =>
             match page with
             | Raise e =>
                 Some (StWarning ("Error extracting text from page " +:+ Py.str_nat (i + 1)
                                  +:+ ": " +:+ str_exn e))
             | Return _ => None
             end) pages).

End PDFProcessor.

(** ** Vocabulary for the properties of the other modules *)

(** The world after the events [evs] are logged, in order. *)
Definition log_all {W} `{Logged W} (evs : list Event) (w : W) : W :=
  foldl (fun w ev => log_add ev w) w evs.

(** The pipeline with another vector store and another answer provider. *)
Definition with_store_and_llm {W} (self : RAGPipeline.t W)
    (store : VectorStoreI.t W) (llm : LLMHandlerI.t W) : RAGPipeline.t W :=
  {| RAGPipeline.vectorstore := store;
     RAGPipeline.embeddings_generator := RAGPipeline.embeddings_generator self;
     RAGPipeline.llm_handler := llm;
     RAGPipeline.top_k := RAGPipeline.top_k self |}.

(** The pipeline made of the three components of the repository, on the
    world of the vector store. *)
Definition assembled_pipeline
    (collection_query :
       Chroma.Collection -> list Embedding -> Z -> option Metadata
       -> Outcome Chroma.QueryResponse)
    (generator : EmbeddingsGenerator.t VectorStore.t)
    (handler : LLMHandler.t VectorStore.t) (top_k : Z) : RAGPipeline.t VectorStore.t :=
  {| RAGPipeline.vectorstore := VectorStore.as_collaborator collection_query;
     RAGPipeline.embeddings_generator := EmbeddingsGenerator.as_collaborator generator;
     RAGPipeline.llm_handler := LLMHandler.as_collaborator handler;
     RAGPipeline.top_k := top_k |}.

(** The records a store holds in the collection its handle points to. *)
Definition records_of (s : VectorStore.t) : gmap string Chroma.Rec :=
  match VectorStore.client s !! VectorStore.collection s with
  | Some col => Chroma.records col
  | None => ∅
  end.

(** The ids and the metadata [add_documents] passes on. *)
Definition ids_or_default (texts : list string) (ids : option (list string)) : list string :=
  match ids with
  | None => VectorStore.default_ids (length texts)
  | Some ids => ids
  end.

Definition metadatas_or_default (texts : list string) (metadatas : option (list Metadata))
    : list Metadata :=
  match metadatas with
  | None => VectorStore.default_metadatas texts
  | Some metadatas => metadatas
  end.

(** The store with the state [c] behind its client. *)
Definition with_client (s : VectorStore.t) (c : Chroma.Client) : VectorStore.t :=
  {| VectorStore.persist_directory := VectorStore.persist_directory s;
     VectorStore.collection_name := VectorStore.collection_name s;
     VectorStore.client := c;
     VectorStore.checks := VectorStore.checks s;
     VectorStore.collection := VectorStore.collection s;
     VectorStore.ui := VectorStore.ui s |}.

(** The dimension of the collection the handle of a store points to. *)
Definition dimension_of (s : VectorStore.t) : option nat :=
  col ← VectorStore.client s !! VectorStore.collection s; Chroma.dimension col.

(** The arguments with which [add_documents] succeeds: the collection
    exists; the texts are not empty; the embeddings, the ids and the
    metadata passed on are as many as the texts; no id occurs twice; no
    metadata dict and no vector is empty; the vectors have the dimension of
    the collection, or all that of the first while it has none; and the
    further checks of the client pass. *)
Definition addable (s : VectorStore.t) (texts : list string) (embeddings : list Embedding)
    (metadatas : option (list Metadata)) (ids : option (list string)) : Prop :=
  exists col,
    VectorStore.client s !! VectorStore.collection s = Some col
    /\ texts <> []
    /\ length embeddings = length texts
    /\ length (ids_or_default texts ids) = length texts
    /\ length (metadatas_or_default texts metadatas) = length texts
    /\ NoDup (ids_or_default texts ids)
    /\ Forall (fun m => m <> ∅) (metadatas_or_default texts metadatas)
    /\ Forall (fun em => em <> []) embeddings
    /\ Forall (fun em => length em = Chroma.expected_dimension col embeddings) embeddings
    /\ VectorStore.checks s embeddings texts (metadatas_or_default texts metadatas)
         (ids_or_default texts ids) = None.

(** The store an accepted [add_documents] leaves. *)
Definition added (s : VectorStore.t) (col : Chroma.Collection) (texts : list string)
    (embeddings : list Embedding) (metadatas : option (list Metadata))
    (ids : option (list string)) : VectorStore.t :=
  with_client s
    (<[VectorStore.collection s :=
         {| Chroma.config := Chroma.config col;
            Chroma.dimension := Some (Chroma.expected_dimension col embeddings);
            Chroma.records :=
              Chroma.records col
              ∪ list_to_map
                  (Chroma.zip_records embeddings texts (metadatas_or_default texts metadatas)
                     (ids_or_default texts ids)) |}]> (VectorStore.client s)).

(** The ids a call of [delete_documents] accepts. *)
Definition deletable (s : VectorStore.t) (ids : list string) : Prop :=
  is_Some (VectorStore.client s !! VectorStore.collection s) /\ ids <> [] /\ NoDup ids.

(** The ids the ingestion of the pipeline passes when the store reports
    [existing_count] records, for [n] texts. *)
Definition seeded_ids (existing_count n : nat) : list string :=
  map (fun i => "doc_" +:+ Py.str_nat (existing_count + i)) (seq 0 n).

(** The collection exists and its ids are [doc_0] to [doc_{n-1}], [n]
    being the number of its records: what ingestion through the pipeline
    alone builds. *)
Definition dense (s : VectorStore.t) : Prop :=
  is_Some (VectorStore.client s !! VectorStore.collection s)
  /\ forall id,
       is_Some (records_of s !! id) <-> id ∈ VectorStore.default_ids (size (records_of s)).

(** The ids [doc_0] to [doc_{c-1}] without [doc_j], and the stores that
    hold exactly these: what deleting [doc_j] leaves of a dense store of
    [c] records. *)
Definition hole_ids (c j : nat) : list string :=
  VectorStore.default_ids j ++ seeded_ids (S j) (c - S j).

Definition holed (c j : nat) (s : VectorStore.t) : Prop :=
  is_Some (VectorStore.client s !! VectorStore.collection s)
  /\ forall id, is_Some (records_of s !! id) <-> id ∈ hole_ids c j.

(** The dict [search] builds for the index [i] of the first row of the
    response, or the [IndexError] of the first key whose row is too short. *)
Definition format_entry (results : Chroma.QueryResponse) (docs : list (list string))
    (i : nat) : Outcome SearchResult :=
  match VectorStore.index2 docs i with
  | Raise e => Raise e
  | Return doc =>
      match VectorStore.index_or (Chroma.distances results) Some None i with
      | Raise e => Raise e
      | Return dist =>
          match VectorStore.index_or (Chroma.metadatas results) id ∅ i with
          | Raise e => Raise e
          | Return meta =>
              match VectorStore.index_or (Chroma.ids results) Some None i with
              | Raise e => Raise e
              | Return ident =>
                  Return {| sr_document := Some doc;
                            sr_distance := Some dist;
                            sr_metadata := Some meta;
                            sr_id := Some ident |}
              end
          end
      end
  end.

(** The rows under an optional key of the response are there and the first
    one has fewer than [n] entries. *)
Definition short_row {A} (x : option (list (list A))) (n : nat) : Prop :=
  exists row more, x = Some (row :: more) /\ (length row < n)%nat.

(** What [_generate_local_answer] passes as [max_length] to a local model
    of the given kind, and the label of the error it shows when the model
    raises. *)
Definition local_max_length (kind : LLMHandler.LLMType) (prompt : string) (max_tokens : Z)
    : option Z :=
  match kind with
  | LLMHandler.transformers => Some (Z.of_nat (Py.count_words false prompt) + max_tokens)%Z
  | _ => None
  end.

Definition local_error_label (kind : LLMHandler.LLMType) : string :=
  match kind with
  | LLMHandler.transformers => "Transformers error: "
  | _ => "Ollama error: "
  end.

(** The fields of a handler agree: the kind it records is the kind of the
    only backend it holds. *)
Definition handler_consistent {W} (self : LLMHandler.t W) : Prop :=
  match LLMHandler.llm_type self with
  | Some LLMHandler.openai =>
      LLMHandler.use_openai self = true
      /\ is_Some (LLMHandler.openai_client self)
      /\ LLMHandler.local_llm self = None
  | Some _ =>
      LLMHandler.use_openai self = false
      /\ LLMHandler.openai_client self = None
      /\ is_Some (LLMHandler.local_llm self)
  | None =>
      LLMHandler.openai_client self = None /\ LLMHandler.local_llm self = None
  end.

(** ** More concrete objects, for the examples of the other modules *)

Module MoreExamples.

(** An uploaded file of four pages: the second is blank and the third
    cannot be read. *)
Definition book : PDFProcessor.PdfFile :=
  PDFProcessor.FileLike (Return tt)
    (PDFProcessor.Pages
       [Return "Paris is the capital of France.";
        Return "  ";
        Raise (Exception "could not decode the page");
        Return "Tokyo is the capital of Japan."]).

(** A store that has been given three texts through the pipeline's ids and
    has then lost the first. *)
Definition three_texts : list string := ["Paris"; "Tokyo"; "Rome"].

Definition store_of_three : VectorStore.t :=
  VectorStore.run
    [VectorStore.AddDocuments three_texts (Examples.vectors 3) None None]
    Examples.fresh_store.

Definition store_with_hole : VectorStore.t :=
  VectorStore.run [VectorStore.DeleteDocuments ["doc_0"]] store_of_three.

(** A response of the collection with two hits, one whose row of distances
    lacks the second entry, and a collection that cannot be queried. *)
Definition two_hits : Chroma.Collection -> list Embedding -> Z -> option Metadata
    -> Outcome Chroma.QueryResponse :=
  fun _ _ _ _ =>
    Return {| Chroma.documents := Some [["Paris"; "Tokyo"]];
              Chroma.distances := Some [[Py.flt 0.25; Py.flt 0.5]];
              Chroma.metadatas := Some [[∅; ∅]];
              Chroma.ids := Some [["doc_0"; "doc_1"]] |}.

Definition short_distances : Chroma.Collection -> list Embedding -> Z -> option Metadata
    -> Outcome Chroma.QueryResponse :=
  fun _ _ _ _ =>
    Return {| Chroma.documents := Some [["Paris"; "Tokyo"]];
              Chroma.distances := Some [[Py.flt 0.25]];
              Chroma.metadatas := Some [[∅; ∅]];
              Chroma.ids := Some [["doc_0"; "doc_1"]] |}.

Definition broken_index : Chroma.Collection -> list Embedding -> Z -> option Metadata
    -> Outcome Chroma.QueryResponse :=
  fun _ _ _ _ => Raise (Exception "index is corrupted").

Definition pipeline_on (collection_query :
    Chroma.Collection -> list Embedding -> Z -> option Metadata
    -> Outcome Chroma.QueryResponse) : RAGPipeline.t VectorStore.t :=
  {| RAGPipeline.vectorstore := VectorStore.as_collaborator collection_query;
     RAGPipeline.embeddings_generator :=
       RAGPipeline.embeddings_generator Examples.store_pipeline;
     RAGPipeline.llm_handler := RAGPipeline.llm_handler Examples.store_pipeline;
     RAGPipeline.top_k := 5 |}.

(** A local model that cannot be reached, and a handler that holds it. *)
Definition unreachable_ollama : LLMHandler.LocalLLM (list Event) :=
  fun prompt _ => call (CallOllama prompt) (Raise (Exception "Connection refused")).

Definition local_handler : LLMHandler.t (list Event) :=
  {| LLMHandler.use_openai := false;
     LLMHandler.openai_client := None;
     LLMHandler.local_llm := Some unreachable_ollama;
     LLMHandler.llm_type := Some LLMHandler.ollama |}.

(** An environment with an API key and Ollama, in which the OpenAI library
    is not installed. *)
Definition env_without_openai : LLMHandler.Env (list Event) :=
  {| LLMHandler.OPENAI_AVAILABLE := false;
     LLMHandler.OLLAMA_AVAILABLE := true;
     LLMHandler.TRANSFORMERS_AVAILABLE := false;
     LLMHandler.OPENAI_API_KEY := Some "sk-test";
     LLMHandler.OpenAI := fun _ => ret Examples.failing_client;
     LLMHandler.Ollama := ret Examples.ollama_model;
     LLMHandler.pipeline := raise (Exception "transformers is not installed") |}.

(** The same for the embeddings, and an environment in which both
    libraries are installed and the remote client fails when called. *)
Definition embeddings_env_without_openai : EmbeddingsGenerator.Env (list Event) :=
  {| EmbeddingsGenerator.OPENAI_AVAILABLE := false;
     EmbeddingsGenerator.SENTENCE_TRANSFORMERS_AVAILABLE := true;
     EmbeddingsGenerator.OPENAI_API_KEY := Some "sk-test";
     EmbeddingsGenerator.OpenAI := fun _ => ret Examples.failing_embeddings;
     EmbeddingsGenerator.SentenceTransformer := fun _ => ret Examples.local_embeddings |}.

Definition embeddings_env_with_both : EmbeddingsGenerator.Env (list Event) :=
  {| EmbeddingsGenerator.OPENAI_AVAILABLE := true;
     EmbeddingsGenerator.SENTENCE_TRANSFORMERS_AVAILABLE := true;
     EmbeddingsGenerator.OPENAI_API_KEY := Some "sk-test";
     EmbeddingsGenerator.OpenAI := fun _ => ret Examples.failing_embeddings;
     EmbeddingsGenerator.SentenceTransformer := fun _ => ret Examples.local_embeddings |}.

Definition remote_generator : EmbeddingsGenerator.t (list Event) :=
  {| EmbeddingsGenerator.use_openai := true;
     EmbeddingsGenerator.openai_client := Some Examples.failing_embeddings;
     EmbeddingsGenerator.local_model := None |}.

End MoreExamples.

(** * Properties *)

(** ** Facts about the built-ins *)

Section PyFacts.
Import Py.

Lemma lstrip_all_space s : all_space s = true -> lstrip s = EmptyString.
Proof.
  induction s as [|c s IH]; simpl; [done|].
  intros [Hc Hs]%andb_true_iff. rewrite Hc. auto.
Qed.

Lemma lstrip_not_all_space s :
  all_space s = false -> exists c r, lstrip s = String c r /\ is_space c = false.
Proof.
  induction s as [|c s IH]; simpl; [done|].
  destruct (is_space c) eqn:Hc; simpl; eauto.
Qed.

Lemma rstrip_cons_nonspace c r : is_space c = false -> rstrip (String c r) <> EmptyString.
Proof. intros Hc. simpl. destruct (rstrip r); rewrite ?Hc; done. Qed.

(** [s.strip()] is empty exactly when [s] holds only whitespace. *)
Lemma strip_empty_iff s : strip s = EmptyString <-> all_space s = true.
Proof.
  unfold strip. split.
  - intros Hs. destruct (all_space s) eqn:Ha; [done|].
    destruct (lstrip_not_all_space s Ha) as (c & r & Hl & Hc).
    rewrite Hl in Hs. by apply rstrip_cons_nonspace in Hs.
  - intros Ha. by rewrite lstrip_all_space.
Qed.

Lemma truthy_false s : truthy s = false <-> s = EmptyString.
Proof. by destruct s. Qed.

(** The test [not question or not question.strip()]. *)
Lemma blank_test s : negb (truthy s) || negb (truthy (strip s)) = all_space s.
Proof.
  destruct (all_space s) eqn:Ha.
  - apply strip_empty_iff in Ha. rewrite Ha. simpl. apply orb_true_r.
  - destruct (truthy (strip s)) eqn:Ht.
    + destruct s; [done|]. done.
    + apply truthy_false, strip_empty_iff in Ht. congruence.
Qed.

End PyFacts.

Example strip_example : Py.strip "  What is  RAG?   " = "What is  RAG?".
Proof. reflexivity. Qed.

Example split_example :
  Py.after_last "Answer:" "Q Answer: a Answer: b" = " b"
  /\ Py.split "ab" "xabyab" = ["x"; "y"; ""]
  /\ Py.count_words false " a bb  c " = 3%nat
  /\ Py.join ", " ["a"; "b"; "c"] = "a, b, c".
Proof. repeat split; reflexivity. Qed.

(** [round(x, 3)] on floats: [0.0625] is halfway between two thousandths
    and goes to the even one, [0.062], and [0.1875] to [0.188]; [1 - d] for
    the float [d] nearest to [0.0015] is a float just above [0.9985] and
    rounds to [0.999]; [-0.000244140625] rounds to [-0.0]; an [int] is left
    as it is. *)
Example round3_example :
  Py.round_float (Py.flt 0.0625) = Py.flt 0x1.fbe76c8b43958p-5
  /\ Py.round_float (Py.flt 0.1875) = Py.flt 0x1.810624dd2f1aap-3
  /\ Py.float_sub Py.one (Py.flt 0x1.89374bc6a7efap-10) = Py.flt 0x1.ff3b645a1cac1p-1
  /\ Py.round_float (Py.float_sub Py.one (Py.flt 0x1.89374bc6a7efap-10))
     = Py.flt 0x1.ff7ced916872bp-1
  /\ Py.round_float (Py.flt (-0x1p-12)) = S754_zero true
  /\ Py.round3 (Py.Int 1) = Py.Int 1.
Proof. vm_compute. by repeat split. Qed.

(** ** The query pipeline *)

Section QueryFacts.
Context {W : Type} `{Logged W}.
Import RAGPipeline.

(** The loop of [query] builds one context block and one source per
    result, in rank order. *)
Lemma assemble_spec (search_results : list SearchResult) i context_parts sources :
  assemble i search_results context_parts sources =
  (context_parts ++ imap (fun j r => context_part (i + j) r) search_results,
   sources ++ map source_of search_results).
Proof.
  revert i context_parts sources.
  induction search_results as [|r rs IH]; intros i cps srcs; simpl.
  - by rewrite !app_nil_r.
  - rewrite IH, <- !app_assoc. simpl. rewrite Nat.add_0_r.
    do 3 f_equal. apply imap_ext. intros j x _. simpl. f_equal. lia.
Qed.

Ltac run_query :=
  unfold query, query_body, try_except, with_spinner, bind, emit, st_error, ret,
    spinning, retrieving_message in *.

(** The [try] block raises exactly when one of the three steps does. *)
Lemma query_body_raises self question max_tokens w e w' :
  query_body self question max_tokens w = (Raise e, w') <->
  step_raises self question max_tokens w e w'.
Proof.
  split.
  - run_query. intros Hq.
    destruct (EmbeddingsGeneratorI.generate_embeddings _ _ _) as [[qes|e1] w1] eqn:He;
      [|inversion Hq; subst; by apply embedding_raises].
    destruct qes as [[|qe rest]|]; [done| |done].
    destruct (VectorStoreI.search _ _ _ _) as [[rs|e2] w2] eqn:Hs;
      [|inversion Hq; subst; by eapply search_raises].
    destruct rs as [|r rs]; [done|].
    rewrite assemble_spec in Hq. simpl in Hq.
    destruct (LLMHandlerI.generate_answer _ _ _ _ _) as [[a|e3] w3] eqn:Ha.
    + by destruct a as [[|]|].
    + inversion Hq; subst. by eapply answer_raises.
  - intros [He | qes qe rest w1 He -> Hs | qes qe rest w1 rs w2 He -> Hs Hne Ha];
      run_query.
    + by rewrite He.
    + by rewrite He, Hs.
    + rewrite He, Hs. destruct rs as [|r rs]; [done|].
      rewrite assemble_spec. simpl. unfold context_of in Ha. simpl in Ha. by rewrite Ha.
Qed.

(** Whatever the collaborators do, [query] returns. *)
Lemma query_returns self question max_tokens w :
  exists r w', query self question max_tokens w = (Return r, w').
Proof.
  unfold query. destruct (negb _ || negb _); [by eexists _, _|].
  unfold try_except.
  destruct (query_body self question max_tokens w) as [[r|e] w']; [by eexists _, _|].
  unfold bind, st_error, emit, ret. by eexists _, _.
Qed.

(** C1. [RAGPipeline.query] never raises, whatever the embedding provider,
    the vector store and the answer provider do: it always returns a
    result, and when one of the three steps raises an exception, the result
    carries the exception's message in its answer and has an empty list of
    sources (the message is also shown with [st.error]). *)
Theorem query_never_raises self question max_tokens w :
  (exists r w', query self question max_tokens w = (Return r, w')) /\
  (forall e w0,
     Py.all_space question = false ->
     step_raises self question max_tokens w e w0 ->
     query self question max_tokens w =
       (Return {| answer := "An error occurred: " +:+ str_exn e;
                  sources := [];
                  metadata := ∅ |},
        log_add (StError ("Error in RAG pipeline: " +:+ str_exn e)) w0)).
Proof.
  split; [apply query_returns|].
  intros e w0 Hq Hstep. apply query_body_raises in Hstep.
  unfold query. rewrite blank_test, Hq.
  unfold try_except. rewrite Hstep. reflexivity.
Qed.

(** C2. For a question that is not blank, when the search of the vector
    store returns the empty list, [query] returns the fixed "no documents"
    answer with no sources, in the world the search left: the answer
    provider is not invoked, and the run is the same under any other
    answer provider. *)
Theorem query_empty_search self question max_tokens w query_embedding rest w1 w2 :
  Py.all_space question = false ->
  EmbeddingsGeneratorI.generate_embeddings (embeddings_generator self) [question]
    (spinning "Generating query embedding..." w)
    = (Return (Some (query_embedding :: rest)), w1) ->
  VectorStoreI.search (vectorstore self) query_embedding (top_k self)
    (spinning (retrieving_message self) w1) = (Return [], w2) ->
  query self question max_tokens w =
    (Return {| answer := no_documents_answer; sources := []; metadata := ∅ |}, w2)
  /\ forall llm,
       query (with_llm_handler self llm) question max_tokens w
       = query self question max_tokens w.
Proof.
  intros Hq He Hs.
  assert (forall p : t W,
            embeddings_generator p = embeddings_generator self ->
            vectorstore p = vectorstore self ->
            top_k p = top_k self ->
            query p question max_tokens w =
              (Return {| answer := no_documents_answer; sources := []; metadata := ∅ |}, w2))
    as Hrun.
  { intros p Hpe Hpv Hpk. unfold query. rewrite blank_test, Hq. run_query.
    rewrite Hpe, Hpv, Hpk. simpl. by rewrite He, Hs. }
  split; [by apply Hrun|].
  intros llm. by rewrite !Hrun.
Qed.

(** C3. For a question that is empty or holds only whitespace, [query]
    returns the fixed validation answer with no sources and leaves the
    world as it found it: neither the embedding provider, nor the vector
    store, nor the answer provider is invoked, whatever they are. *)
Theorem query_blank_question self question max_tokens w :
  Py.all_space question = true ->
  query self question max_tokens w =
    (Return {| answer := validation_answer; sources := []; metadata := ∅ |}, w).
Proof. intros Hq. unfold query. by rewrite blank_test, Hq. Qed.

(** C6, as the code has it. When the question is not blank, the embedding
    provider returns at least one vector, the search returns at least one
    result and the answer provider returns a non-empty answer, [query]
    returns that answer, one source per result, and a metadata mapping in
    which [num_sources] is the number of returned sources and [top_k] the
    configured [top_k]. *)
Theorem query_success_metadata self question max_tokens w
    query_embedding rest w1 search_results w2 a w3 :
  Py.all_space question = false ->
  EmbeddingsGeneratorI.generate_embeddings (embeddings_generator self) [question]
    (spinning "Generating query embedding..." w)
    = (Return (Some (query_embedding :: rest)), w1) ->
  VectorStoreI.search (vectorstore self) query_embedding (top_k self)
    (spinning (retrieving_message self) w1) = (Return search_results, w2) ->
  search_results <> [] ->
  LLMHandlerI.generate_answer (llm_handler self) question (context_of search_results)
    max_tokens (spinning "Generating answer..." w2) = (Return (Some a), w3) ->
  a <> EmptyString ->
  exists r,
    query self question max_tokens w = (Return r, w3)
    /\ answer r = a
    /\ sources r = map source_of search_results
    /\ metadata r !! "num_sources" = Some (Z.of_nat (length (sources r)))
    /\ metadata r !! "top_k" = Some (top_k self).
Proof.
  intros Hq He Hs Hne Ha Hane.
  unfold query. rewrite blank_test, Hq. run_query. rewrite He, Hs.
  destruct search_results as [|r0 rs]; [done|].
  rewrite assemble_spec. unfold context_of in Ha. simpl in *. rewrite Ha.
  destruct a as [|c a]; [done|].
  eexists. split; [reflexivity|]. simpl. by repeat split.
Qed.

(** On every run the metadata is empty or is the two-key mapping above;
    it is empty on each early exit. *)
Lemma query_metadata_shape self question max_tokens w r w' :
  query self question max_tokens w = (Return r, w') ->
  metadata r = ∅
  \/ metadata r = {[ "num_sources" := Z.of_nat (length (sources r));
                     "top_k" := top_k self ]}.
Proof.
  unfold query. destruct (negb _ || negb _); [intros [= <- _]; by left|].
  run_query.
  destruct (EmbeddingsGeneratorI.generate_embeddings _ _ _) as [[qes|e1] w1];
    [|intros [= <- _]; by left].
  destruct qes as [[|qe rest]|]; try (intros [= <- _]; by left).
  destruct (VectorStoreI.search _ _ _ _) as [[rs|e2] w2]; [|intros [= <- _]; by left].
  destruct rs as [|r0 rs]; [intros [= <- _]; by left|].
  rewrite assemble_spec. simpl.
  destruct (LLMHandlerI.generate_answer _ _ _ _ _) as [[a|e3] w3];
    [|intros [= <- _]; by left].
  destruct a as [[|c a]|]; intros [= <- _]; auto.
Qed.

(** When the three steps return and the search found something, [query]
    returns one source per search result, in rank order, whatever the
    answer provider returned. *)
Lemma query_sources self question max_tokens w
    query_embedding rest w1 search_results w2 a w3 :
  Py.all_space question = false ->
  EmbeddingsGeneratorI.generate_embeddings (embeddings_generator self) [question]
    (spinning "Generating query embedding..." w)
    = (Return (Some (query_embedding :: rest)), w1) ->
  VectorStoreI.search (vectorstore self) query_embedding (top_k self)
    (spinning (retrieving_message self) w1) = (Return search_results, w2) ->
  search_results <> [] ->
  LLMHandlerI.generate_answer (llm_handler self) question (context_of search_results)
    max_tokens (spinning "Generating answer..." w2) = (Return a, w3) ->
  exists r,
    query self question max_tokens w = (Return r, w3)
    /\ sources r = map source_of search_results.
Proof.
  intros Hq He Hs Hne Ha.
  unfold query. rewrite blank_test, Hq. run_query. rewrite He, Hs.
  destruct search_results as [|r0 rs]; [done|].
  rewrite assemble_spec. unfold context_of in Ha. simpl in *. rewrite Ha.
  destruct a as [[|c a]|]; by eexists.
Qed.

Lemma lookup_map_Some {A B} (f : A -> B) (l : list A) (i : nat) (x : A) :
  l !! i = Some x -> map f l !! i = Some (f x).
Proof.
  revert i. induction l as [|y l IH]; intros [|i]; simpl; try done.
  - by intros [= ->].
  - apply IH.
Qed.

End QueryFacts.

(** *** The pipeline on concrete collaborators *)

Lemma query_never_raises_witness :
  let self := Examples.pipeline Examples.one_embedding
                (Raise (Exception "index offline")) (Return (Some "unused")) in
  RAGPipeline.query self "What is RAG?" 500 [] =
    (Return {| RAGPipeline.answer := "An error occurred: index offline";
               RAGPipeline.sources := [];
               RAGPipeline.metadata := ∅ |},
     [StSpinner "Generating query embedding...";
      CallEmbeddings ["What is RAG?"];
      StSpinner "Retrieving top 5 relevant passages...";
      CallSearch [1 # 2; 1 # 4]%Q 5;
      StError "Error in RAG pipeline: index offline"]).
Proof.
  intros self.
  assert (RAGPipeline.step_raises self "What is RAG?" 500 []
            (Exception "index offline")
            [StSpinner "Generating query embedding...";
             CallEmbeddings ["What is RAG?"];
             StSpinner "Retrieving top 5 relevant passages...";
             CallSearch [1 # 2; 1 # 4]%Q 5]) as Hstep
    by (eapply RAGPipeline.search_raises; reflexivity).
  exact (proj2 (query_never_raises self "What is RAG?" 500 []) _ _ eq_refl Hstep).
Defined.

Lemma query_empty_search_witness :
  let self := Examples.pipeline Examples.one_embedding (Return [])
                (Return (Some "unused")) in
  RAGPipeline.query self "What is RAG?" 500 [] =
    (Return {| RAGPipeline.answer := RAGPipeline.no_documents_answer;
               RAGPipeline.sources := [];
               RAGPipeline.metadata := ∅ |},
     [StSpinner "Generating query embedding...";
      CallEmbeddings ["What is RAG?"];
      StSpinner "Retrieving top 5 relevant passages...";
      CallSearch [1 # 2; 1 # 4]%Q 5]).
Proof.
  intros self.
  exact (proj1 (query_empty_search self "What is RAG?" 500 [] _ _ _ _
                  eq_refl eq_refl eq_refl)).
Defined.

Lemma query_blank_question_witness :
  let self := Examples.pipeline Examples.one_embedding (Return [])
                (Return (Some "unused")) in
  Py.all_space "  " = true
  /\ RAGPipeline.query self "  " 500 [] =
       (Return {| RAGPipeline.answer := RAGPipeline.validation_answer;
                  RAGPipeline.sources := [];
                  RAGPipeline.metadata := ∅ |}, []).
Proof.
  intros self. split; [reflexivity|].
  apply (query_blank_question self "  " 500 []). reflexivity.
Defined.

Lemma query_success_metadata_witness :
  let self := Examples.pipeline Examples.one_embedding
                (Return [Examples.hit "Paris is the capital of France." (Some (Py.flt 0.25))])
                (Return (Some "Paris.")) in
  exists r,
    RAGPipeline.query self "What is the capital of France?" 500 [] =
      (Return r,
       [StSpinner "Generating query embedding...";
        CallEmbeddings ["What is the capital of France?"];
        StSpinner "Retrieving top 5 relevant passages...";
        CallSearch [1 # 2; 1 # 4]%Q 5;
        StSpinner "Generating answer...";
        CallAnswer "What is the capital of France?"
          "[Source 1] Paris is the capital of France." 500])
    /\ RAGPipeline.answer r = "Paris."
    /\ RAGPipeline.sources r =
         map RAGPipeline.source_of
           [Examples.hit "Paris is the capital of France." (Some (Py.flt 0.25))]
    /\ RAGPipeline.metadata r !! "num_sources"
       = Some (Z.of_nat (length (RAGPipeline.sources r)))
    /\ RAGPipeline.metadata r !! "top_k" = Some 5%Z.
Proof.
  intros self.
  assert ([Examples.hit "Paris is the capital of France." (Some (Py.flt 0.25))] <> [])
    as Hresults by discriminate.
  assert ("Paris." <> EmptyString) as Hanswer by discriminate.
  exact (query_success_metadata self "What is the capital of France?" 500 []
           _ _ _ _ _ _ _ eq_refl eq_refl eq_refl Hresults eq_refl Hanswer).
Defined.

(** C6 fails as stated: when the answer provider returns nothing, [query]
    returns the one source it had assembled together with an empty
    metadata mapping, which holds neither [num_sources] nor [top_k]. *)
Lemma query_metadata_counterexample :
  let self := Examples.pipeline Examples.one_embedding
                (Return [Examples.hit "Paris is the capital of France." (Some (Py.flt 0.25))])
                (Return None) in
  match (RAGPipeline.query self "What is the capital of France?" 500 []).1 with
  | Return r =>
      RAGPipeline.answer r = RAGPipeline.generation_error_answer
      /\ length (RAGPipeline.sources r) = 1%nat
      /\ RAGPipeline.metadata r !! "num_sources" = None
      /\ RAGPipeline.metadata r !! "top_k" = None
  | Raise _ => False
  end.
Proof. vm_compute. by repeat split. Qed.

(** The same on the validation exit. *)
Example query_metadata_blank :
  let self := Examples.pipeline Examples.one_embedding (Return []) (Return None) in
  (RAGPipeline.query self "" 500 []).1 =
    Return {| RAGPipeline.answer := RAGPipeline.validation_answer;
              RAGPipeline.sources := [];
              RAGPipeline.metadata := ∅ |}.
Proof. reflexivity. Qed.

(** ** The source passages *)

Section FloatFacts.
Import Py.
Local Open Scope Z_scope.

Lemma magnitude_le_one (m : positive) (e : Z) :
  (magnitude m e <= 1)%Q <-> e <= 0 /\ Zpos m <= 2 ^ (- e).
Proof.
  unfold magnitude, Qle. destruct e as [|p|p]; cbn [Qnum Qden inject_Z Z.opp].
  - change (- 0) with 0. rewrite !Z.pow_0_r. lia.
  - split; [|lia]. intros H. exfalso.
    assert (1 < 2 ^ Zpos p) by (apply Z.pow_gt_1; lia). nia.
  - change (- Z.neg p) with (Zpos p). rewrite Pos2Z.inj_pow. lia.
Qed.

Lemma digits2_pos_lower (m : positive) : 2 ^ (Zpos (digits2_pos m) - 1) <= Zpos m.
Proof.
  induction m as [m IH|m IH|]; simpl; [| |done].
  - rewrite Pos2Z.inj_succ. replace (Z.succ (Zpos (digits2_pos m)) - 1)
      with (Z.succ (Zpos (digits2_pos m) - 1)) by lia.
    rewrite Z.pow_succ_r by lia. lia.
  - rewrite Pos2Z.inj_succ. replace (Z.succ (Zpos (digits2_pos m)) - 1)
      with (Z.succ (Zpos (digits2_pos m) - 1)) by lia.
    rewrite Z.pow_succ_r by lia. lia.
Qed.

(** A number of at most [2^k] has at most [k + 1] binary digits. *)
Lemma Zdigits2_bound (m k : Z) : 0 <= m <= 2 ^ k -> 0 <= k -> Zdigits2 m <= k + 1.
Proof.
  intros [Hm0 Hm] Hk. destruct m as [|m|m]; simpl; [lia| |lia].
  pose proof (digits2_pos_lower m) as Hd.
  destruct (Z_le_gt_dec (Zpos (digits2_pos m)) (k + 1)) as [?|Hgt]; [done|].
  assert (2 ^ k < 2 ^ (Zpos (digits2_pos m) - 1)) by (apply Z.pow_lt_mono_r; lia).
  lia.
Qed.

Lemma iter_pos_iter {A} (f : A -> A) (p : positive) (x : A) :
  iter_pos f p x = Nat.iter (Pos.to_nat p) f x.
Proof.
  revert x. induction p as [p IH|p IH|]; intros x; cbn [iter_pos]; [| |done].
  - rewrite !IH, Pos2Nat.inj_xI.
    replace (S (2 * Pos.to_nat p)) with (Pos.to_nat p + (Pos.to_nat p + 1))%nat by lia.
    rewrite !Nat.iter_add. simpl. done.
  - rewrite !IH, Pos2Nat.inj_xO.
    replace (2 * Pos.to_nat p)%nat with (Pos.to_nat p + Pos.to_nat p)%nat by lia.
    by rewrite Nat.iter_add.
Qed.

(** One step to the right halves the mantissa. *)
Lemma shr_1_spec (mrs : shr_record) :
  0 <= shr_m mrs -> shr_m (shr_1 mrs) = shr_m mrs / 2.
Proof.
  destruct mrs as [m r s]. simpl. intros Hm.
  destruct m as [|[p|p|]|p]; simpl; try done; try lia.
  - rewrite Pos2Z.inj_xI, Z.mul_comm, Z.div_add_l by lia. change (1 / 2) with 0. lia.
  - rewrite Pos2Z.inj_xO, Z.mul_comm, Z.div_mul by lia. done.
Qed.

Lemma shr_iter_spec (n : nat) (mrs : shr_record) :
  0 <= shr_m mrs ->
  shr_m (Nat.iter n shr_1 mrs) = shr_m mrs / 2 ^ Z.of_nat n.
Proof.
  intros Hm. induction n as [|n IH].
  - simpl. by rewrite Z.div_1_r.
  - rewrite Nat.iter_succ, shr_1_spec, IH.
    + rewrite Nat2Z.inj_succ, Z.pow_succ_r, Z.div_div by lia.
      f_equal. lia.
    + rewrite IH. apply Z.div_pos; lia.
Qed.

(** [shr_fexp] on a non-negative mantissa: it is divided by [2^n], [n]
    being the number of places that the format asks to drop. *)
Lemma shr_fexp_spec (m e : Z) (l : location) :
  0 <= m ->
  let n := fexp prec emax (Zdigits2 m + e) - e in
  let '(mrs, e') := shr_fexp prec emax m e l in
  (n <= 0 -> mrs = shr_record_of_loc m l /\ e' = e)
  /\ (0 < n -> e' = e + n /\ shr_m mrs = m / 2 ^ n).
Proof.
  intros Hm n. unfold shr_fexp, shr. fold n.
  assert (shr_m (shr_record_of_loc m l) = m) as Hrec by (by destruct l as [|[| |]]).
  destruct n as [|p|p] eqn:Hn.
  - split; [done|lia].
  - split; [lia|]. intros _. split; [done|]. rewrite iter_pos_iter.
    rewrite shr_iter_spec by lia. by rewrite positive_nat_Z, Hrec.
  - split; [done|lia].
Qed.

Lemma round_nearest_even_bound (mrs : shr_record) :
  0 <= shr_m mrs ->
  shr_m mrs <= round_nearest_even (shr_m mrs) (loc_of_shr_record mrs) <= shr_m mrs + 1
  /\ (shr_r mrs = false ->
      round_nearest_even (shr_m mrs) (loc_of_shr_record mrs) = shr_m mrs).
Proof.
  destruct mrs as [m [|] [|]]; simpl; intros Hm; try (split; [lia|done]).
  destruct (Z.even m); split; (lia || done).
Qed.

(** Rounding a number below 1 to the format gives a number of [[0,1]]. *)
Lemma binary_round_aux_unit (m e : Z) :
  0 <= m -> e <= 0 -> m < 2 ^ (- e) ->
  float_in_unit_interval (binary_round_aux prec emax false m e loc_Exact).
Proof.
  intros Hm He Hle. unfold binary_round_aux.
  pose proof (shr_fexp_spec m e loc_Exact Hm) as H1.
  destruct (shr_fexp prec emax m e loc_Exact) as [mrs1 e1].
  set (n1 := fexp prec emax (Zdigits2 m + e) - e) in *. simpl in H1.
  assert (Zdigits2 m + e <= 1) as Hd.
  { pose proof (Zdigits2_bound m (- e)). lia. }
  set (m1 := round_nearest_even (shr_m mrs1) (loc_of_shr_record mrs1)).
  assert (0 <= m1 /\ e1 <= 0 /\ m1 <= 2 ^ (- e1)) as (Hpos1 & He1 & Hb1).
  { destruct (Z_le_gt_dec n1 0) as [Hn|Hn].
    - destruct (proj1 H1 Hn) as [-> ->]. unfold m1. simpl. lia.
    - destruct (proj2 H1 ltac:(lia)) as (-> & Hm1).
      assert (e + n1 <= 0) as Hen.
      { unfold n1, fexp, emin, prec, emax in *. lia. }
      assert (2 ^ (- e) = 2 ^ n1 * 2 ^ (- (e + n1))) as Hpow.
      { rewrite <- Z.pow_add_r by lia. f_equal. lia. }
      assert (0 < 2 ^ n1) by (apply Z.pow_pos_nonneg; lia).
      assert (0 <= shr_m mrs1) as Hpos1 by (rewrite Hm1; apply Z.div_pos; lia).
      destruct (round_nearest_even_bound mrs1 Hpos1) as [[Hlow Hup] _].
      assert (m / 2 ^ n1 < 2 ^ (- (e + n1))).
      { apply Z.div_lt_upper_bound; [lia|]. rewrite <- Hpow. lia. }
      unfold m1. lia. }
  pose proof (shr_fexp_spec m1 e1 loc_Exact Hpos1) as H2.
  destruct (shr_fexp prec emax m1 e1 loc_Exact) as [mrs2 e2].
  set (n2 := fexp prec emax (Zdigits2 m1 + e1) - e1) in *. simpl in H2.
  assert (Zdigits2 m1 + e1 <= 1) as Hd1.
  { pose proof (Zdigits2_bound m1 (- e1)). lia. }
  assert (0 <= shr_m mrs2 /\ e2 <= 0 /\ shr_m mrs2 <= 2 ^ (- e2)) as (Hpos2 & He2 & Hb2).
  { destruct (Z_le_gt_dec n2 0) as [Hn|Hn].
    - destruct (proj1 H2 Hn) as [-> ->]. simpl. lia.
    - destruct (proj2 H2 ltac:(lia)) as (-> & Hm2).
      assert (e1 + n2 <= 0) as Hen.
      { unfold n2, fexp, emin, prec, emax in *. lia. }
      assert (2 ^ (- e1) = 2 ^ n2 * 2 ^ (- (e1 + n2))) as Hpow.
      { rewrite <- Z.pow_add_r by lia. f_equal. lia. }
      assert (0 < 2 ^ n2) by (apply Z.pow_pos_nonneg; lia).
      split; [rewrite Hm2; apply Z.div_pos; lia|]. split; [done|].
      rewrite Hm2. apply Z.div_le_upper_bound; [lia|]. rewrite <- Hpow. lia. }
  destruct (shr_m mrs2) as [|m2|m2] eqn:Hm2; [done| |lia].
  destruct (Z.leb_spec e2 (emax - prec)) as [_|Hbig].
  - apply magnitude_le_one. done.
  - unfold emax, prec in Hbig. lia.
Qed.

Lemma pos_iter_xO (m d : positive) : Zpos (Pos.iter xO m d) = Zpos m * 2 ^ Zpos d.
Proof.
  induction d as [|d IH] using Pos.peano_ind.
  - simpl. lia.
  - rewrite Pos.iter_succ, Pos2Z.inj_xO, IH, Pos2Z.inj_succ, Z.pow_succ_r by lia. lia.
Qed.

(** [shl_align] keeps the number and lowers its exponent to the one asked
    for, when that one is lower. *)
Lemma shl_align_spec (m : positive) (e e' : Z) :
  let '(m', e'') := shl_align m e e' in
  e'' = Z.min e e' /\ Zpos m' = Zpos m * 2 ^ (e - e'').
Proof.
  unfold shl_align. destruct (e' - e) as [|d|d] eqn:Hd.
  - split; [lia|]. rewrite Z.sub_diag. lia.
  - split; [lia|]. rewrite Z.sub_diag. lia.
  - split; [lia|]. rewrite pos_iter_xO. f_equal. f_equal. lia.
Qed.

Lemma binary_round_unit (m : positive) (e : Z) :
  e <= 0 -> Zpos m < 2 ^ (- e) ->
  float_in_unit_interval (binary_round prec emax false m e).
Proof.
  intros He Hm. unfold binary_round.
  pose proof (shl_align_spec m e (fexp prec emax (Zpos (digits2_pos m) + e))) as Hal.
  destruct (shl_align m e _) as [mz ez]. destruct Hal as [Hez Hmz].
  apply binary_round_aux_unit; [lia|lia|].
  rewrite Hmz.
  assert (2 ^ (- ez) = 2 ^ (- e) * 2 ^ (e - ez)) as ->.
  { rewrite <- Z.pow_add_r by lia. f_equal. lia. }
  apply Z.mul_lt_mono_pos_r; [apply Z.pow_pos_nonneg; lia|done].
Qed.

(** [1 - d] lies in the unit interval when [d] does. *)
Lemma float_sub_unit (d : float) :
  float_in_unit_interval d -> float_in_unit_interval (float_sub one d).
Proof.
  destruct d as [s|s| |s m e]; [|done|done|].
  - intros _. unfold float_sub, SFsub, one. apply magnitude_le_one. by split.
  - destruct s; [done|]. intros [He Hm]%magnitude_le_one.
    unfold float_sub, SFsub, one.
    pose proof (shl_align_spec 4503599627370496 (-52) (Z.min (-52) e)) as H1.
    pose proof (shl_align_spec m e (Z.min (-52) e)) as H2.
    destruct (shl_align 4503599627370496 (-52) _) as [m1 e1].
    destruct (shl_align m e _) as [m2 e2].
    destruct H1 as [He1 Hm1]. destruct H2 as [He2 Hm2]. simpl fst. simpl cond_Zopp.
    set (ez := Z.min (-52) e) in *.
    assert (Zpos m1 = 2 ^ (- ez)) as Hone.
    { rewrite Hm1. change (Zpos 4503599627370496) with (2 ^ 52).
      rewrite <- Z.pow_add_r by lia. f_equal. lia. }
    assert (Zpos m2 <= 2 ^ (- ez)) as Hd.
    { rewrite Hm2.
      assert (2 ^ (- ez) = 2 ^ (- e) * 2 ^ (e - e2)) as ->.
      { rewrite <- Z.pow_add_r by lia. f_equal. lia. }
      apply Z.mul_le_mono_nonneg_r; [apply Z.pow_nonneg; lia|done]. }
    unfold binary_normalize.
    destruct (Zpos m1 - Zpos m2) as [|p|p] eqn:Hp; [done| |lia].
    apply binary_round_unit; lia.
Qed.

Lemma round_half_even_range (x : Q) (n : Z) :
  (0 <= x <= inject_Z n)%Q -> 0 <= round_half_even x <= n.
Proof.
  intros [Hx0 Hxn]. unfold round_half_even.
  pose proof (Qfloor_le x) as Hlo. pose proof (Qlt_floor x) as Hhi.
  assert (0 <= Qfloor x) as Hf0.
  { change 0 with (Qfloor 0). by apply Qfloor_resp_le. }
  assert (Qfloor x <= n) as Hfn.
  { rewrite <- (Qfloor_Z n). by apply Qfloor_resp_le. }
  destruct (Z.eq_dec (Qfloor x) n) as [Heq|Hne].
  - assert (x - inject_Z (Qfloor x) <= 0)%Q as Hfrac by (rewrite Heq; lra).
    destruct (Qcompare_spec (x - inject_Z (Qfloor x)) (1 # 2)) as [Ha|Ha|Ha]; [lra|lia|lra].
  - destruct (Qcompare (x - inject_Z (Qfloor x)) (1 # 2)); [destruct (Z.even _)| |]; lia.
Qed.

Lemma thousandths_in_unit : forallb thousandth_in_unit (seq 1 1000) = true.
Proof. vm_compute. reflexivity. Qed.

Lemma round_float_unit (x : float) : float_in_unit_interval x -> float_in_unit_interval (round_float x).
Proof.
  destruct x as [s|s| |s m e]; [done|done|done|].
  destruct s; [done|]. intros Hx. cbn [float_in_unit_interval] in Hx. unfold round_float.
  assert (0 <= round_half_even (magnitude m e * 1000) <= 1000) as Hk.
  { apply round_half_even_range. change (inject_Z 1000) with (1000 # 1)%Q.
    assert (0 <= magnitude m e)%Q.
    { unfold magnitude. destruct e; unfold Qle; simpl; lia. }
    split; [|lra]. apply Qmult_le_0_compat; [done|discriminate]. }
  destruct (round_half_even (magnitude m e * 1000)) as [|k|k]; [done| |lia].
  pose proof thousandths_in_unit as Hall. rewrite forallb_forall in Hall.
  specialize (Hall (Pos.to_nat k)). unfold thousandth_in_unit in Hall.
  rewrite Pos2Nat.id in Hall.
  assert (In (Pos.to_nat k) (seq 1 1000)) as Hin by (apply in_seq; lia).
  apply Hall in Hin.
  destruct (SFdiv prec emax _ _) as [| | |[|] m' e']; try done.
  cbn [float_in_unit_interval].
  destruct (Qcompare_spec (magnitude m' e') 1) as [Ha|Ha|Ha]; [|lra|done].
  rewrite Ha. discriminate.
Qed.

(** The similarity computed from a distance of [[0,1]] lies in [[0,1]]. *)
Lemma similarity_unit (d : float) :
  float_in_unit_interval d -> float_in_unit_interval (round_float (float_sub one d)).
Proof. intros Hd. by apply round_float_unit, float_sub_unit. Qed.

End FloatFacts.

Section SliceFacts.
Import Py.

(** [s[:n]] is a prefix of [s], of length [n] when [s] is long enough. *)
Lemma slice_to_prefix (n : nat) (s : string) :
  exists rest, s = slice_to n s +:+ rest.
Proof.
  unfold slice_to. revert s. induction n as [|n IH]; intros s.
  - exists s. by destruct s.
  - destruct s as [|c s]; [by exists EmptyString|].
    destruct (IH s) as [rest Hrest]. exists rest.
    change (String c s = String c (String.substring 0 n s +:+ rest)). by f_equal.
Qed.

Lemma slice_to_length (n : nat) (s : string) :
  (n <= len s)%nat -> len (slice_to n s) = n.
Proof.
  unfold slice_to, len. revert s. induction n as [|n IH]; intros s Hn.
  - by destruct s.
  - destruct s as [|c s]; simpl in *; [lia|]. rewrite IH; [done|lia].
Qed.

End SliceFacts.

Section SourceFacts.
Context {W : Type} `{Logged W}.
Import Py RAGPipeline.

(** C4, as the code has it. On a run of [query] in which the question is
    not blank, the embedding provider returns a vector, the search returns
    at least one result and the answer provider returns, the result holds
    one source per search result, in rank order, and the similarity of the
    source at rank [i] is computed from the distance of the search result
    at rank [i]: it is the float [round(1 - distance, 3)] when the distance
    is a float, the subtraction and the rounding being those of binary64;
    it is the integer 0 when the distance is [None], and the integer 1 when
    the result has no distance at all. It lies in [[0,1]] when the distance
    does, or is [None] or missing. *)
Theorem source_similarity self question max_tokens (w : W)
    query_embedding rest w1 search_results w2 a w3 :
  all_space question = false ->
  EmbeddingsGeneratorI.generate_embeddings (embeddings_generator self) [question]
    (spinning "Generating query embedding..." w)
    = (Return (Some (query_embedding :: rest)), w1) ->
  VectorStoreI.search (vectorstore self) query_embedding (top_k self)
    (spinning (retrieving_message self) w1) = (Return search_results, w2) ->
  search_results <> [] ->
  LLMHandlerI.generate_answer (llm_handler self) question (context_of search_results)
    max_tokens (spinning "Generating answer..." w2) = (Return a, w3) ->
  exists r,
    query self question max_tokens w = (Return r, w3)
    /\ length (sources r) = length search_results
    /\ forall i result,
         search_results !! i = Some result ->
         exists source,
           sources r !! i = Some source
           /\ (forall d,
                 sr_distance result = Some (Some d) ->
                 sp_similarity source = Float (round_float (float_sub one d))
                 /\ (float_in_unit_interval d -> in_unit_interval (sp_similarity source)))
           /\ (sr_distance result = Some None ->
               sp_similarity source = Int 0 /\ in_unit_interval (sp_similarity source))
           /\ (sr_distance result = None ->
               sp_similarity source = Int 1 /\ in_unit_interval (sp_similarity source)).
Proof.
  intros Hq He Hs Hne Ha.
  destruct (query_sources self question max_tokens w _ _ _ _ _ _ _ Hq He Hs Hne Ha)
    as (r & Hr & Hsrc).
  exists r. split; [done|]. rewrite Hsrc. split; [apply length_map|].
  intros i result Hi. exists (source_of result).
  split; [by apply lookup_map_Some|].
  unfold source_of. split; [|split].
  - intros d ->. simpl. split; [done|]. apply similarity_unit.
  - intros ->. simpl. split; [done|lia].
  - intros ->. simpl. split; [done|lia].
Qed.

(** C5. On a run of [query] in which the question is not blank, the
    embedding provider returns a vector, the search returns at least one
    result and the answer provider returns, the text of the source at rank
    [i] is the document of the search result at rank [i] when that document
    has at most 200 characters, and otherwise its first 200 characters
    followed by the ellipsis marker ["..."]. *)
Theorem source_text_truncation self question max_tokens (w : W)
    query_embedding rest w1 search_results w2 a w3 :
  all_space question = false ->
  EmbeddingsGeneratorI.generate_embeddings (embeddings_generator self) [question]
    (spinning "Generating query embedding..." w)
    = (Return (Some (query_embedding :: rest)), w1) ->
  VectorStoreI.search (vectorstore self) query_embedding (top_k self)
    (spinning (retrieving_message self) w1) = (Return search_results, w2) ->
  search_results <> [] ->
  LLMHandlerI.generate_answer (llm_handler self) question (context_of search_results)
    max_tokens (spinning "Generating answer..." w2) = (Return a, w3) ->
  exists r,
    query self question max_tokens w = (Return r, w3)
    /\ length (sources r) = length search_results
    /\ forall i result doc_text,
         search_results !! i = Some result ->
         sr_document result = Some doc_text ->
         exists source,
           sources r !! i = Some source
           /\ ((len doc_text <= 200)%nat -> sp_text source = doc_text)
           /\ ((200 < len doc_text)%nat ->
               sp_text source = slice_to 200 doc_text +:+ "..."
               /\ len (slice_to 200 doc_text) = 200%nat
               /\ exists rest, doc_text = slice_to 200 doc_text +:+ rest).
Proof.
  intros Hq He Hs Hne Ha.
  destruct (query_sources self question max_tokens w _ _ _ _ _ _ _ Hq He Hs Hne Ha)
    as (r & Hr & Hsrc).
  exists r. split; [done|]. rewrite Hsrc. split; [apply length_map|].
  intros i result doc_text Hi Hdoc. exists (source_of result).
  split; [by apply lookup_map_Some|].
  unfold source_of, source_text. rewrite Hdoc. simpl. split.
  - intros Hlen. destruct (Nat.ltb_spec 200 (len doc_text)); [lia|done].
  - intros Hlen. destruct (Nat.ltb_spec 200 (len doc_text)); [|lia].
    split; [done|]. split; [apply slice_to_length; lia|apply slice_to_prefix].
Qed.

End SourceFacts.

Lemma source_similarity_witness :
  let self := Examples.pipeline Examples.one_embedding
                (Return [Examples.hit "Paris is the capital of France." (Some (Py.flt 0.25));
                         Examples.hit "Rome is the capital of Italy." None])
                (Return (Some "Paris.")) in
  exists r,
    (RAGPipeline.query self "What is the capital of France?" 500 []).1 = Return r
    /\ (RAGPipeline.sp_similarity <$> RAGPipeline.sources r !! 0%nat)
       = Some (Py.Float (Py.flt 0.75))
    /\ (RAGPipeline.sp_similarity <$> RAGPipeline.sources r !! 1%nat)
       = Some (Py.Int 0).
Proof.
  intros self.
  assert ([Examples.hit "Paris is the capital of France." (Some (Py.flt 0.25));
           Examples.hit "Rome is the capital of Italy." None] <> [])
    as Hresults by discriminate.
  destruct (source_similarity self "What is the capital of France?" 500 []
              _ _ _ _ _ _ _ eq_refl eq_refl eq_refl Hresults eq_refl)
    as (r & Hr & _ & Hall).
  exists r. split; [by rewrite Hr|].
  destruct (Hall 0%nat _ eq_refl) as (s0 & Hs0 & Hd0 & _).
  destruct (Hall 1%nat _ eq_refl) as (s1 & Hs1 & _ & Hn1 & _).
  rewrite Hs0, Hs1. simpl.
  destruct (Hd0 _ eq_refl) as [-> _]. destruct (Hn1 eq_refl) as [-> _].
  split; reflexivity.
Defined.

(** C4 fails as stated: for a cosine distance of 1.5, which the index
    reports for vectors that point away from each other, [query] returns a
    source whose similarity is -0.5, below the interval [[0,1]]. *)
Lemma source_similarity_counterexample :
  let self := Examples.pipeline Examples.one_embedding
                (Return [Examples.hit "Paris is the capital of France." (Some (Py.flt 1.5))])
                (Return (Some "Paris.")) in
  (RAGPipeline.query self "What is the capital of France?" 500 []).1 =
    Return {| RAGPipeline.answer := "Paris.";
              RAGPipeline.sources :=
                [{| RAGPipeline.sp_text := "Paris is the capital of France.";
                    RAGPipeline.sp_similarity := Py.Float (Py.flt (-0.5));
                    RAGPipeline.sp_metadata := ∅ |}];
              RAGPipeline.metadata := {[ "num_sources" := 1%Z; "top_k" := 5%Z ]} |}
  /\ ~ Py.in_unit_interval (Py.Float (Py.flt (-0.5))).
Proof. split; [vm_compute; reflexivity|]. vm_compute. tauto. Qed.

Lemma source_text_truncation_witness :
  let self := Examples.pipeline Examples.one_embedding
                (Return [Examples.hit (Examples.letters 250) None;
                         Examples.hit (Examples.letters 150) None])
                (Return (Some "Paris.")) in
  exists r,
    (RAGPipeline.query self "What is the capital of France?" 500 []).1 = Return r
    /\ (RAGPipeline.sp_text <$> RAGPipeline.sources r !! 0%nat)
       = Some (Examples.letters 200 +:+ "...")
    /\ (RAGPipeline.sp_text <$> RAGPipeline.sources r !! 1%nat)
       = Some (Examples.letters 150).
Proof.
  intros self.
  assert ([Examples.hit (Examples.letters 250) None;
           Examples.hit (Examples.letters 150) None] <> [])
    as Hresults by discriminate.
  assert (200 < Py.len (Examples.letters 250))%nat as Hlong by (vm_compute; lia).
  assert (Py.len (Examples.letters 150) <= 200)%nat as Hshort by (vm_compute; lia).
  destruct (source_text_truncation self "What is the capital of France?" 500 []
              _ _ _ _ _ _ _ eq_refl eq_refl eq_refl Hresults eq_refl)
    as (r & Hr & _ & Hall).
  exists r. split; [by rewrite Hr|].
  destruct (Hall 0%nat _ _ eq_refl eq_refl) as (s0 & Hs0 & _ & Hlong0).
  destruct (Hall 1%nat _ _ eq_refl eq_refl) as (s1 & Hs1 & Hshort1 & _).
  rewrite Hs0, Hs1. simpl.
  destruct (Hlong0 Hlong) as [-> _]. rewrite (Hshort1 Hshort).
  split; reflexivity.
Defined.

(** ** The answer provider *)

Section LLMFacts.
Context {W : Type} `{Logged W}.
Import LLMHandler.

Ltac run_llm :=
  unfold generate_answer, _generate_openai_answer, chat_completions_create,
    try_except, bind, st_error, emit, ret, raise in *.

(** When the remote backend is selected and its call raises,
    [generate_answer] shows the error twice and returns [None], whether a
    local backend is set or not; the local backend is not called. *)
Lemma generate_answer_remote_failure (self : t W) question context max_tokens
    client e w w1 :
  Py.truthy question = true ->
  Py.truthy context = true ->
  use_openai self = true ->
  openai_client self = Some client ->
  client {| model := "gpt-3.5-turbo";
            messages := [("system", system_message);
                         ("user", openai_prompt question context)];
            max_tokens := max_tokens;
            temperature := 7 # 10 |} w = (Raise e, w1) ->
  generate_answer self question context max_tokens w =
    (Return None,
     log_add (StError ("Error generating answer: " +:+ str_exn e))
       (log_add (StError ("OpenAI API error: " +:+ str_exn e)) w1)).
Proof.
  intros Hq Hc Hu Hcl Hcall. run_llm.
  rewrite Hq, Hc, Hu, Hcl. simpl. by rewrite Hcall.
Qed.

(** [__init__] always leaves an object. *)
Lemma init_returns (env : Env W) b w :
  exists self w', __init__ env b w = (Return self, w').
Proof.
  unfold __init__, try_except, bind, st_success, st_warning, st_info, st_error, emit, ret.
  repeat (case_match; simpl in *; simplify_eq); by eexists _, _.
Qed.

(** [__init__] sets a local backend only when it has given up the remote
    one: an object it leaves with a remote client has no local backend. *)
Lemma init_remote_excludes_local (env : Env W) b w self w' :
  __init__ env b w = (Return self, w') ->
  is_Some (openai_client self) ->
  use_openai self = true /\ local_llm self = None /\ llm_type self = Some openai.
Proof.
  unfold __init__, try_except, bind, st_success, st_warning, st_info, st_error, emit, ret.
  intros Hinit [client Hclient].
  repeat (case_match; simpl in *; simplify_eq); simpl in *; simplify_eq;
    by repeat match goal with H : _ && _ = true |- _ => apply andb_true_iff in H as [-> ?] end.
Qed.

(** Conversely, an object it leaves with a local backend has no remote
    client, has [use_openai] off, and records the kind of that backend. *)
Lemma init_local_excludes_remote (env : Env W) b w self w' :
  __init__ env b w = (Return self, w') ->
  is_Some (local_llm self) ->
  use_openai self = false /\ openai_client self = None
  /\ (llm_type self = Some ollama \/ llm_type self = Some transformers).
Proof.
  unfold __init__, try_except, bind, st_success, st_warning, st_info, st_error, emit, ret.
  intros Hinit [llm Hllm].
  repeat (case_match; simpl in *; simplify_eq); simpl in *; simplify_eq;
    destruct b; simpl in *; simplify_eq; auto.
Qed.

(** With the remote backend off and a local backend set, [generate_answer]
    returns a string, whatever the local backend does. *)
Lemma generate_answer_local_returns (self : t W) question context max_tokens w :
  Py.truthy question = true ->
  Py.truthy context = true ->
  use_openai self = false ->
  is_Some (local_llm self) ->
  exists a w1,
    generate_answer self question context max_tokens w = (Return (Some a), w1).
Proof.
  intros Hq Hc Hu [llm Hllm]. run_llm. unfold _generate_local_answer, call_local_llm.
  rewrite Hq, Hc, Hu, Hllm. simpl. unfold try_except, bind, st_error, emit, ret, raise.
  repeat (case_match; simpl in *; simplify_eq); by eexists _, _.
Qed.

(** With no backend at all, it shows that no LLM is available and returns
    [None]. *)
Lemma generate_answer_no_backend (self : t W) question context max_tokens w :
  Py.truthy question = true ->
  Py.truthy context = true ->
  openai_client self = None ->
  local_llm self = None ->
  generate_answer self question context max_tokens w =
    (Return None, log_add (StError "No LLM available for answer generation.") w).
Proof.
  intros Hq Hc Hcl Hllm. run_llm. rewrite Hq, Hc, Hcl, Hllm. simpl.
  by rewrite andb_false_r.
Qed.

(** C7, as the code has it. The fallback to a local backend is taken by
    [__init__], not by [generate_answer]: a handler that [__init__] leaves
    holds the remote client or a local backend, never both. For a question
    and a context that are not empty: when it holds the remote client and
    the remote call raises, [generate_answer] shows the error twice and
    returns [None], and there is no local backend to call; when it holds a
    local backend, it holds no remote client and [generate_answer] returns
    a string, never [None]; when it holds neither, [generate_answer] shows
    that no LLM is available and returns [None]. *)
Theorem generate_answer_no_fallback (env : Env W) b w self w'
    question context max_tokens :
  __init__ env b w = (Return self, w') ->
  Py.truthy question = true ->
  Py.truthy context = true ->
  (forall client e w0 w1,
     openai_client self = Some client ->
     client {| model := "gpt-3.5-turbo";
               messages := [("system", system_message);
                            ("user", openai_prompt question context)];
               max_tokens := max_tokens;
               temperature := 7 # 10 |} w0 = (Raise e, w1) ->
     local_llm self = None
     /\ generate_answer self question context max_tokens w0 =
          (Return None,
           log_add (StError ("Error generating answer: " +:+ str_exn e))
             (log_add (StError ("OpenAI API error: " +:+ str_exn e)) w1)))
  /\ (is_Some (local_llm self) ->
      openai_client self = None
      /\ forall w0, exists a w1,
           generate_answer self question context max_tokens w0 = (Return (Some a), w1))
  /\ (openai_client self = None -> local_llm self = None ->
      forall w0,
        generate_answer self question context max_tokens w0 =
          (Return None, log_add (StError "No LLM available for answer generation.") w0)).
Proof.
  intros Hinit Hq Hc. split; [|split].
  - intros client e w0 w1 Hclient Hcall.
    destruct (init_remote_excludes_local env b w self w' Hinit) as (Hu & Hllm & _);
      [by rewrite Hclient|].
    split; [done|]. by eapply generate_answer_remote_failure.
  - intros Hllm.
    destruct (init_local_excludes_remote env b w self w' Hinit Hllm) as (Hu & Hcl & _).
    split; [done|]. intros w0. by apply generate_answer_local_returns.
  - intros Hcl Hllm w0. by apply generate_answer_no_backend.
Qed.

End LLMFacts.

Lemma generate_answer_no_fallback_witness :
  let question := "What is the capital of France?" in
  let context := "[Source 1] Paris is the capital of France." in
  exists self w',
    LLMHandler.__init__ Examples.env_with_both true [] = (Return self, w')
    /\ LLMHandler.local_llm self = None
    /\ LLMHandler.generate_answer self question context 500 [] =
         (Return None,
          [CallOpenAIChat LLMHandler.system_message
             (LLMHandler.openai_prompt question context) 500;
           StError "OpenAI API error: Connection error.";
           StError "Error generating answer: Connection error."]).
Proof.
  intros question context. eexists _, _. split; [reflexivity|].
  exact (proj1 (generate_answer_no_fallback Examples.env_with_both true [] _ _
                  question context 500 eq_refl eq_refl eq_refl)
           Examples.failing_client (Exception "Connection error.") [] _ eq_refl eq_refl).
Defined.

(** C7 fails as stated: where the OpenAI library and Ollama are both
    installed and an API key is set, the handler that [__init__] builds for
    the remote backend holds no local backend; when its remote call fails,
    [generate_answer] shows the error and returns [None] without calling
    Ollama, which the handler built for the local backend in the same
    environment calls, and which answers. *)
Lemma generate_answer_no_fallback_counterexample :
  let question := "What is the capital of France?" in
  let context := "[Source 1] Paris is the capital of France." in
  match LLMHandler.__init__ Examples.env_with_both true [] with
  | (Return self, _) =>
      LLMHandler.is_available self = true
      /\ LLMHandler.local_llm self = None
      /\ LLMHandler.generate_answer self question context 500 [] =
           (Return None,
            [CallOpenAIChat LLMHandler.system_message
               (LLMHandler.openai_prompt question context) 500;
             StError "OpenAI API error: Connection error.";
             StError "Error generating answer: Connection error."])
  | (Raise _, _) => False
  end
  /\ match LLMHandler.__init__ Examples.env_with_both false [] with
     | (Return self, _) =>
         LLMHandler.generate_answer self question context 500 [] =
           (Return (Some "Paris."), [CallOllama (LLMHandler.local_prompt question context)])
     | (Raise _, _) => False
     end.
Proof. vm_compute. by repeat split. Qed.

(** C8. The local prompt drops the directive that the remote prompt
    carries. Where no API key is set and Ollama is installed, the handler
    that [__init__] builds sends Ollama the local prompt, in which the
    refusal phrase does not occur; the handler built where a key is set
    sends the remote prompt, which holds the phrase. For every question and
    context the instruction text of the local prompt is the opening
    sentence alone, that of the remote prompt has the directive with the
    refusal phrase after it, and the two differ. *)
Theorem local_prompt_drops_refusal_directive :
  let question := "What is the capital of France?" in
  let context := "[Source 1] Paris is the capital of France." in
  match LLMHandler.__init__ Examples.env_without_key false [] with
  | (Return self, _) =>
      LLMHandler.generate_answer self question context 500 [] =
        (Return (Some "Paris."), [CallOllama (LLMHandler.local_prompt question context)])
  | (Raise _, _) => False
  end
  /\ match LLMHandler.__init__ Examples.env_with_both true [] with
     | (Return self, _) =>
         head (LLMHandler.generate_answer self question context 500 []).2 =
           Some (CallOpenAIChat LLMHandler.system_message
                   (LLMHandler.openai_prompt question context) 500)
     | (Raise _, _) => False
     end
  /\ String.index 0 LLMHandler.refusal_phrase (LLMHandler.local_prompt question context)
     = None
  /\ String.index 0 LLMHandler.refusal_phrase (LLMHandler.openai_prompt question context)
     = Some 96%nat
  /\ forall q c,
       LLMHandler.instruction_text (LLMHandler.local_prompt q c)
         = LLMHandler.opening_sentence +:+ Py.nl +:+ Py.nl
       /\ LLMHandler.instruction_text (LLMHandler.openai_prompt q c)
          = LLMHandler.opening_sentence +:+ " " +:+ Py.nl
            +:+ LLMHandler.refusal_directive +:+ Py.nl +:+ Py.nl
       /\ LLMHandler.instruction_text (LLMHandler.local_prompt q c)
          <> LLMHandler.instruction_text (LLMHandler.openai_prompt q c).
Proof.
  intros question context.
  split; [by vm_compute|]. split; [by vm_compute|].
  split; [reflexivity|]. split; [reflexivity|].
  intros q c.
  assert (LLMHandler.instruction_text (LLMHandler.local_prompt q c)
          = LLMHandler.opening_sentence +:+ Py.nl +:+ Py.nl) as Hlocal by reflexivity.
  assert (LLMHandler.instruction_text (LLMHandler.openai_prompt q c)
          = LLMHandler.opening_sentence +:+ " " +:+ Py.nl
            +:+ LLMHandler.refusal_directive +:+ Py.nl +:+ Py.nl) as Hremote by reflexivity.
  rewrite Hlocal, Hremote. split; [done|]. split; [done|]. by vm_compute.
Qed.

(** ** The embedding provider, for comparison *)

Section EmbeddingFacts.
Context {W : Type} `{Logged W}.
Import EmbeddingsGenerator.

(** When the remote embedding call raises and a local model is set,
    [generate_embeddings] shows the error, announces the fallback and hands
    the texts to the local model. *)
Lemma generate_embeddings_fallback (self : t W) texts client model e w w1 :
  texts <> [] ->
  use_openai self = true ->
  openai_client self = Some client ->
  local_model self = Some model ->
  client texts w = (Raise e, w1) ->
  generate_embeddings self texts w =
    match model texts
            (log_add (StInfo "Falling back to local embeddings...")
               (log_add (StError ("OpenAI embedding error: " +:+ str_exn e)) w1)) with
    | (Return vectors, w2) => (Return (Some vectors), w2)
    | (Raise e2, w2) =>
        (Return None, log_add (StError ("Error generating embeddings: " +:+ str_exn e2)) w2)
    end.
Proof.
  intros Ht Hu Hc Hm Hcall.
  unfold generate_embeddings, _generate_openai_embeddings, _generate_local_embeddings,
    try_except, bind, st_error, st_info, emit, ret, raise.
  destruct texts as [|x xs]; [done|].
  rewrite Hu, Hc, Hm. simpl. rewrite Hcall. simpl.
  by destruct (model _ _) as [[v|e2] w2].
Qed.

End EmbeddingFacts.

(** On a generator that holds a failing remote client and a local model,
    the texts are embedded by the local model. [__init__] builds no such
    generator: the fields are set by hand. *)
Example generate_embeddings_falls_back :
  EmbeddingsGenerator.generate_embeddings Examples.generator_with_both
    ["What is the capital of France?"] [] =
    (Return (Some [[1 # 2; 1 # 4]%Q]),
     [CallOpenAIEmbed ["What is the capital of France?"];
      StError "OpenAI embedding error: Connection error.";
      StInfo "Falling back to local embeddings...";
      CallLocalEncode ["What is the capital of France?"]]).
Proof. reflexivity. Qed.

(** ** The vector store *)

Section StoreFacts.
Import VectorStore.

Ltac run_store :=
  unfold clear_collection, get_collection_count, add_documents, delete_documents,
    try_except, bind, ret, raise, get_self, on_client, set_collection, st_error, emit,
    Chroma.delete_collection, Chroma.get_or_create_collection, Chroma.count,
    Chroma.delete_ids in *.

(** [__init__] leaves the store bound to its collection. *)
Lemma init_bound d n stored checks :
  bound (__init__ d n stored checks) /\ collection (__init__ d n stored checks) = n.
Proof.
  unfold bound, __init__, _initialize_client, Chroma.get_or_create_collection.
  destruct (stored !! n) eqn:Hn; simpl; [by rewrite Hn|].
  by rewrite lookup_insert_eq.
Qed.

(** What one successful [clear_collection] leaves. *)
Lemma clear_collection_bound (s : t) :
  bound s ->
  clear_collection s =
    (Return true,
     {| persist_directory := persist_directory s;
        collection_name := collection_name s;
        client :=
          <[collection_name s :=
              {| Chroma.config := cosine; Chroma.dimension := None; Chroma.records := ∅ |}]>
            (delete (collection_name s) (client s));
        checks := checks s;
        collection := collection_name s;
        ui := ui s |}).
Proof.
  intros [col Hcol]. run_store. simpl. rewrite Hcol. simpl.
  by rewrite lookup_delete_eq.
Qed.

(** C9. On a store whose collection exists, as [__init__] leaves it,
    [clear_collection] called twice in a row returns [True] both times,
    [get_collection_count] is 0 after each call, and the second call leaves
    the store exactly as the first did. *)
Theorem clear_collection_twice (s : t) :
  bound s ->
  exists s1,
    clear_collection s = (Return true, s1)
    /\ get_collection_count s1 = (Return 0%nat, s1)
    /\ clear_collection s1 = (Return true, s1).
Proof.
  intros Hs. eexists. split; [by apply clear_collection_bound|].
  split.
  - run_store. simpl. by rewrite lookup_insert_eq.
  - rewrite clear_collection_bound; simpl.
    + by rewrite delete_insert_eq, delete_delete_eq.
    + unfold bound. simpl. by rewrite lookup_insert_eq.
Qed.

(** Every sequence of calls keeps the store bound to its collection. *)
Lemma step_bound (s : t) (c : Call) : bound s -> bound (step s c).
Proof.
  unfold bound. intros Hs. destruct c as [texts embeddings metadatas ids| |ids|]; simpl.
  - run_store. unfold Chroma.add.
    repeat (case_match; simpl in *; simplify_eq); try done;
      by apply lookup_insert_is_Some'; right.
  - rewrite clear_collection_bound by done. simpl. by rewrite lookup_insert_eq.
  - run_store. repeat (case_match; simpl in *; simplify_eq); try done;
      by apply lookup_insert_is_Some'; right.
  - run_store. by repeat (case_match; simpl in *; simplify_eq).
Qed.

Lemma VectorStore_run_bound (calls : list Call) d n stored checks :
  bound (run calls (__init__ d n stored checks)).
Proof.
  unfold run. generalize (proj1 (init_bound d n stored checks)).
  generalize (__init__ d n stored checks). induction calls as [|c calls IH]; intros s Hs; simpl.
  - done.
  - by apply IH, step_bound.
Qed.

(** The ids [add_documents] makes up are [doc_0], [doc_1], ... *)
Lemma default_ids_lookup (n i : nat) :
  (i < n)%nat -> default_ids n !! i = Some ("doc_" +:+ Py.str_nat i).
Proof.
  intros Hi. unfold default_ids. rewrite list_lookup_fmap, lookup_seq_lt by done. done.
Qed.

Lemma string_app_inj (p a b : string) : p +:+ a = p +:+ b -> a = b.
Proof. induction p as [|c p IH]; simpl; [done|]. intros [= Hab]. auto. Qed.

(** Two of these ids are equal only at the same index. *)
Lemma doc_id_inj (i j : nat) :
  "doc_" +:+ Py.str_nat i = "doc_" +:+ Py.str_nat j -> i = j.
Proof. intros Hij%string_app_inj. by apply (inj pretty) in Hij. Qed.

End StoreFacts.

(** *** The vector store and the ingestion on a concrete store *)

Lemma clear_collection_twice_witness :
  let s := VectorStore.run
             [VectorStore.AddDocuments ["Paris is the capital of France."] (Examples.vectors 1)
                None None]
             Examples.fresh_store in
  (VectorStore.get_collection_count s).1 = Return 1%nat
  /\ exists s1,
       VectorStore.clear_collection s = (Return true, s1)
       /\ VectorStore.get_collection_count s1 = (Return 0%nat, s1)
       /\ VectorStore.clear_collection s1 = (Return true, s1).
Proof.
  intros s. split; [by vm_compute|].
  apply (clear_collection_twice s).
  unfold VectorStore.bound. eexists. vm_compute. reflexivity.
Defined.

(** The ids of the ingestion are new when the store holds [doc_0] to
    [doc_{count-1}]: none of them is an id that [add_documents] would make
    up for [count] texts. *)
Lemma seeded_ids_fresh (existing_count n : nat) (x : string) :
  x ∈ map (fun i => "doc_" +:+ Py.str_nat (existing_count + i)) (seq 0 n) ->
  x ∉ VectorStore.default_ids existing_count.
Proof.
  unfold VectorStore.default_ids.
  intros (i & -> & Hi)%list_elem_of_fmap (j & Hij & Hj)%list_elem_of_fmap.
  apply doc_id_inj in Hij. apply elem_of_seq in Hj. lia.
Qed.

(** Two direct calls without ids on a fresh store: both return [True], and
    the second pair of texts, named [doc_0] and [doc_1] again, is not
    stored. Two ingestions through the pipeline store all four. *)
Example add_documents_twice :
  let direct :=
    VectorStore.run
      [VectorStore.AddDocuments ["Paris"; "Tokyo"] (Examples.vectors 2) None None;
       VectorStore.AddDocuments ["Rome"; "Lima"] (Examples.vectors 2) None None]
      Examples.fresh_store in
  let ingested :=
    (RAGPipeline.add_documents_to_knowledge_base Examples.store_pipeline ["Rome"; "Lima"] None
       (RAGPipeline.add_documents_to_knowledge_base Examples.store_pipeline
          ["Paris"; "Tokyo"] None Examples.fresh_store).2).2 in
  (VectorStore.add_documents ["Rome"; "Lima"] (Examples.vectors 2) None None
     (VectorStore.add_documents ["Paris"; "Tokyo"] (Examples.vectors 2) None None
        Examples.fresh_store).2).1 = Return true
  /\ (VectorStore.get_collection_count direct).1 = Return 2%nat
  /\ Examples.document_of direct <$> ["doc_0"; "doc_1"; "doc_2"; "doc_3"]
     = [Some "Paris"; Some "Tokyo"; None; None]
  /\ (VectorStore.get_collection_count ingested).1 = Return 4%nat
  /\ Examples.document_of ingested <$> ["doc_0"; "doc_1"; "doc_2"; "doc_3"]
     = [Some "Paris"; Some "Tokyo"; Some "Rome"; Some "Lima"].
Proof. vm_compute. by repeat split. Qed.

(** ** More on the collaborators *)

Section CollaboratorFacts.
Context {W : Type} `{Logged W}.

(** [LLMHandler.generate_answer] catches what its backends raise. *)
Lemma generate_answer_returns (self : LLMHandler.t W) question context max_tokens w :
  exists r w', LLMHandler.generate_answer self question context max_tokens w = (Return r, w').
Proof.
  unfold LLMHandler.generate_answer, try_except, bind, st_error, emit, ret.
  repeat (case_match; simpl in *; simplify_eq); by eexists _, _.
Qed.

(** [EmbeddingsGenerator.generate_embeddings] does the same. *)
Lemma generate_embeddings_returns (self : EmbeddingsGenerator.t W) texts w :
  exists r w', EmbeddingsGenerator.generate_embeddings self texts w = (Return r, w').
Proof.
  unfold EmbeddingsGenerator.generate_embeddings, try_except, bind, st_error, emit, ret.
  repeat (case_match; simpl in *; simplify_eq); by eexists _, _.
Qed.

End CollaboratorFacts.

Section SearchFacts.
Import VectorStore.
Variable collection_query :
  Chroma.Collection -> list Embedding -> Z -> option Metadata -> Outcome Chroma.QueryResponse.

Lemma format_results_keys results docs indices formatted_results s rs s' :
  Forall has_keys formatted_results ->
  format_results results docs indices formatted_results s = (Return rs, s') ->
  Forall has_keys rs.
Proof.
  revert formatted_results s.
  induction indices as [|i indices IH]; intros acc s Hacc; simpl.
  - by intros [= <- _].
  - unfold bind, lift. repeat (case_match; simplify_eq); try done.
    apply IH. apply Forall_app. split; [done|].
    apply Forall_singleton. by repeat split.
Qed.

(** [VectorStore.search] never raises, and every dict it returns has the
    four keys: the defaults of [.get] in [query] are not used on them. *)
Lemma search_returns_keys query_embedding n_results filter_metadata s :
  exists rs s',
    search collection_query query_embedding n_results filter_metadata s = (Return rs, s')
    /\ Forall has_keys rs.
Proof.
  unfold search, try_except, bind, get_self, lift, st_error, emit, ret.
  destruct (client s !! collection s) as [col|]; [|by eexists _, _].
  destruct (collection_query col _ _ _) as [results|e]; [|by eexists _, _].
  destruct (Chroma.documents results) as [[|[|doc first] docs]|];
    try (eexists _, _; split; [reflexivity|by constructor]).
  destruct (format_results _ _ _ _ s) as [[rs|e] s'] eqn:Hf.
  - eexists _, _. split; [reflexivity|]. by eapply format_results_keys.
  - by eexists _, _.
Qed.

End SearchFacts.

(** The pipeline on a handler built where both backends are installed:
    the failure of the remote call reaches the user as the pipeline's own
    error answer. *)
Example query_with_failing_remote :
  match LLMHandler.__init__ Examples.env_with_both true [] with
  | (Return handler, _) =>
      let self :=
        {| RAGPipeline.vectorstore :=
             Examples.store
               (Return [Examples.hit "Paris is the capital of France."
                          (Some (Py.flt 0.25))]);
           RAGPipeline.embeddings_generator := Examples.embedder Examples.one_embedding;
           RAGPipeline.llm_handler := LLMHandler.as_collaborator handler;
           RAGPipeline.top_k := 5 |} in
      match (RAGPipeline.query self "What is the capital of France?" 500 []).1 with
      | Return r =>
          RAGPipeline.answer r = RAGPipeline.generation_error_answer
          /\ length (RAGPipeline.sources r) = 1%nat
      | Raise _ => False
      end
  | (Raise _, _) => False
  end.
Proof. vm_compute. by repeat split. Qed.

(** ** The PDF processor *)

Section PdfFacts.
Context {W : Type} `{Logged W}.
Import PDFProcessor.

Lemma log_all_app (evs1 evs2 : list Event) (w : W) :
  log_all (evs1 ++ evs2) w = log_all evs2 (log_all evs1 w).
Proof. unfold log_all. apply foldl_app. Qed.

Lemma truthy_strip (s : string) : Py.truthy (Py.strip s) = negb (Py.all_space s).
Proof.
  destruct (Py.all_space s) eqn:Ha.
  - apply strip_empty_iff in Ha. by rewrite Ha.
  - destruct (Py.truthy (Py.strip s)) eqn:Ht; [done|].
    apply truthy_false, strip_empty_iff in Ht. congruence.
Qed.

Ltac imap_shift :=
  repeat first
    [ apply imap_ext; intros ? ? _; simpl; rewrite ?Nat.add_succ_r; reflexivity
    | f_equal ].

(** The page loop, from page number [n] on. *)
Lemma extract_pages_from (n : nat) (pages : list (Outcome string)) text_content (w : W) :
  extract_pages n pages text_content w =
    (Return (text_content
             ++ omap id (imap (fun i page => page_block (n + i) <$> usable page) pages)),
     log_all
       (omap id
          (imap (fun i page =>
                   match page with
                   | Raise e =>
                       Some (StWarning ("Error extracting text from page "
                                        +:+ Py.str_nat (n + i + 1) +:+ ": " +:+ str_exn e))
                   | Return _ => None
                   end) pages)) w).
Proof.
  revert n text_content w.
  induction pages as [|page pages IH]; intros n acc w; simpl.
  - by rewrite app_nil_r.
  - destruct page as [page_text|e]; simpl.
    + rewrite truthy_strip. unfold usable at 1.
      destruct (Py.all_space page_text); simpl; rewrite IH, ?Nat.add_0_r, <- ?app_assoc;
        simpl; imap_shift.
    + unfold bind, st_warning, emit. rewrite IH, ?Nat.add_0_r. unfold log_all. simpl.
      imap_shift.
Qed.

Lemma extract_pages_spec (pages : list (Outcome string)) (w : W) :
  extract_pages 0 pages [] w = (Return (page_blocks pages), log_all (page_warnings pages) w).
Proof. by rewrite extract_pages_from. Qed.

(** What [extract_text_from_pdf] returns and shows once the reader has
    opened, in terms of the pages. *)
Lemma extract_text_from_pdf_opened (pdf_file : PdfFile) pages (w : W) :
  open_reader pdf_file = Pages pages ->
  extract_text_from_pdf pdf_file w =
    match page_blocks pages with
    | [] =>
        (Return None,
         log_add (StError "No text could be extracted from the PDF.")
           (log_all (page_warnings pages) w))
    | _ :: _ =>
        (Return (Some (Py.join (Py.nl +:+ Py.nl) (page_blocks pages))),
         log_all (page_warnings pages) w)
    end.
Proof.
  intros Hopen. unfold extract_text_from_pdf, bind. rewrite Hopen, extract_pages_spec.
  by destruct (page_blocks pages).
Qed.

(** X1. When the reader opens, [extract_text_from_pdf] returns the blocks
    [--- Page k ---] followed by the page text, joined by blank lines in
    page order, for the pages whose [extract_text] returns a text that is
    not blank; [k] is the page's own number, counted from 1, whatever pages
    were skipped before it. It warns once for each page that raises, and
    returns [None] after an error message when no page gives text. *)
Theorem extract_text_from_pdf_pages (pdf_file : PdfFile) pages (w : W) :
  open_reader pdf_file = Pages pages ->
  extract_text_from_pdf pdf_file w =
    match page_blocks pages with
    | [] =>
        (Return None,
         log_add (StError "No text could be extracted from the PDF.")
           (log_all (page_warnings pages) w))
    | _ :: _ =>
        (Return (Some (Py.join (Py.nl +:+ Py.nl) (page_blocks pages))),
         log_all (page_warnings pages) w)
    end.
Proof. apply extract_text_from_pdf_opened. Qed.

(** The blocks are those of the usable pages, each under its index. *)
Lemma page_blocks_elem (pages : list (Outcome string)) (b : string) :
  b ∈ page_blocks pages <->
  exists i page_text,
    pages !! i = Some (Return page_text) /\ Py.all_space page_text = false
    /\ b = page_block i page_text.
Proof.
  unfold page_blocks. rewrite list_elem_of_omap. split.
  - intros (o & Ho & Hb). apply list_elem_of_lookup in Ho as [i Hi].
    rewrite list_lookup_imap in Hi.
    destruct (pages !! i) as [[page_text|e]|] eqn:Hp; simpl in *; simplify_eq.
    destruct (Py.all_space page_text) eqn:Ha; simpl in *; simplify_eq.
    by exists i, page_text.
  - intros (i & page_text & Hp & Ha & ->).
    exists (Some (page_block i page_text)). split; [|done].
    apply list_elem_of_lookup. exists i.
    rewrite list_lookup_imap, Hp. simpl. unfold usable. by rewrite Ha.
Qed.

Lemma page_blocks_nil (pages : list (Outcome string)) :
  page_blocks pages = [] <-> Forall (fun page => usable page = None) pages.
Proof.
  split.
  - intros Hnil. apply Forall_lookup. intros i page Hp.
    destruct page as [page_text|e]; [|done].
    unfold usable. destruct (Py.all_space page_text) eqn:Ha; [done|].
    assert (page_block i page_text ∈ page_blocks pages) as Hin
      by (apply page_blocks_elem; eauto).
    rewrite Hnil in Hin. by apply elem_of_nil in Hin.
  - intros Hall. destruct (page_blocks pages) as [|b bs] eqn:Hb; [done|].
    assert (b ∈ page_blocks pages) as Hin by (rewrite Hb; left).
    apply page_blocks_elem in Hin as (i & page_text & Hp & Ha & _).
    eapply Forall_lookup in Hall; [|done]. unfold usable in Hall. by rewrite Ha in Hall.
Qed.

(** X2. [extract_text_from_pdf] never raises, whatever the reader and the
    pages do. It returns [None] exactly when the reader cannot be opened or
    no page returns a text that is not blank, and each time it returns
    [None] its last UI call is an error message. *)
Theorem extract_text_from_pdf_returns (pdf_file : PdfFile) (w : W) :
  exists r w',
    extract_text_from_pdf pdf_file w = (Return r, w')
    /\ (r = None <->
        match open_reader pdf_file with
        | Pages pages => Forall (fun page => usable page = None) pages
        | Fails _ => True
        end)
    /\ (r = None -> exists msg w0, w' = log_add (StError msg) w0).
Proof.
  destruct (open_reader pdf_file) as [pages|[msg|msg]] eqn:Hopen.
  - rewrite (extract_text_from_pdf_opened _ _ _ Hopen).
    destruct (page_blocks pages) as [|b bs] eqn:Hb.
    + eexists _, _. split; [done|]. split; [|by eauto].
      split; [|done]. intros _. by apply page_blocks_nil.
    + eexists _, _. split; [done|]. split; [|done].
      split; [done|]. intros Hall%page_blocks_nil. congruence.
  - unfold extract_text_from_pdf, bind, st_error, emit, ret. rewrite Hopen.
    eexists _, _. split; [done|]. split; [done|]. by eauto.
  - unfold extract_text_from_pdf, bind, st_error, emit, ret. rewrite Hopen.
    eexists _, _. split; [done|]. split; [done|]. by eauto.
Qed.

Lemma join_blocks_head (b : string) (bs : list string) :
  exists rest, Py.join (Py.nl +:+ Py.nl) (b :: bs) = b +:+ rest.
Proof.
  destruct bs as [|b' bs]; simpl.
  - exists EmptyString. clear. induction b as [|c b IH]; [done|].
    change (String c b = String c (b +:+ EmptyString)). by f_equal.
  - by eexists.
Qed.

(** X3. A text that [extract_text_from_pdf] returns comes from a file
    that [validate_pdf] accepts, and it is not blank: [chunk_text] hands it
    to the splitter, and the test [if text] of the caller holds. *)
Theorem extracted_text_not_blank (pdf_file : PdfFile) (w w' : W) (text : string) :
  extract_text_from_pdf pdf_file w = (Return (Some text), w') ->
  validate_pdf pdf_file = true
  /\ Py.truthy text = true
  /\ Py.all_space text = false
  /\ forall chunker : TextChunker.t,
       TextChunker.chunk_text chunker text = TextChunker.text_splitter chunker text.
Proof.
  intros Hx. unfold validate_pdf.
  destruct (open_reader pdf_file) as [pages|[msg|msg]] eqn:Hopen.
  2,3: unfold extract_text_from_pdf, bind, st_error, emit, ret in Hx;
       rewrite Hopen in Hx; by simplify_eq.
  rewrite (extract_text_from_pdf_opened _ _ _ Hopen) in Hx.
  destruct (page_blocks pages) as [|b bs] eqn:Hb; [by simplify_eq|].
  destruct (join_blocks_head b bs) as [rest Hj]. rewrite Hj in Hx.
  injection Hx as <- _.
  assert (b ∈ page_blocks pages) as Hin by (rewrite Hb; left).
  apply page_blocks_elem in Hin as (i & page_text & Hp & _ & ->).
  assert (Py.all_space (page_block i page_text +:+ rest) = false) as Hns by done.
  split; [|split; [done|split; [done|]]].
  - destruct pages; [by rewrite lookup_nil in Hp|done].
  - intros chunker. unfold TextChunker.chunk_text. by rewrite blank_test, Hns.
Qed.

End PdfFacts.

(** ** The text chunker *)

Section ChunkerFacts.
Import TextChunker.

Lemma elem_of_concat {A} (x : A) (ls : list (list A)) :
  x ∈ concat ls <-> exists l, x ∈ l /\ l ∈ ls.
Proof.
  induction ls as [|l ls IH]; simpl.
  - split; [by intros ?%elem_of_nil|]. by intros (l & _ & ?%elem_of_nil).
  - rewrite elem_of_app, IH. split.
    + intros [Hx|(l' & Hx & Hl')]; [exists l|exists l']; split; try done; by constructor.
    + intros (l' & Hx & [->|Hl']%elem_of_cons); [by left|right; eauto].
Qed.

Lemma append_chunks_spec (d k : nat) (chunks : list string) (all_chunks : list Chunk) :
  append_chunks d k chunks all_chunks
  = all_chunks ++ imap (fun j chunk => chunk_entry d (k + j) chunk) chunks.
Proof.
  revert k all_chunks. induction chunks as [|chunk chunks IH]; intros k acc; simpl.
  - by rewrite app_nil_r.
  - rewrite IH, <- app_assoc, Nat.add_0_r. simpl. do 2 f_equal.
    apply imap_ext. intros j x _. simpl. by rewrite Nat.add_succ_r.
Qed.

Lemma chunk_documents_from_spec (self : t) (d : nat) (documents : list string)
    (all_chunks : list Chunk) :
  chunk_documents_from self d documents all_chunks
  = all_chunks
    ++ concat (imap (fun i doc => imap (chunk_entry (d + i)) (chunk_text self doc)) documents).
Proof.
  revert d all_chunks. induction documents as [|doc documents IH]; intros d acc; simpl.
  - by rewrite app_nil_r.
  - rewrite IH, append_chunks_spec, <- app_assoc, Nat.add_0_r. do 3 f_equal.
    apply imap_ext. intros i x _. simpl. by rewrite Nat.add_succ_r.
Qed.

Lemma chunk_text_blank (self : t) (text : string) :
  Py.all_space text = true -> chunk_text self text = [].
Proof. intros Ha. unfold chunk_text. by rewrite blank_test, Ha. Qed.

(** X4. [chunk_documents] loses nothing and invents nothing, whatever the
    splitter is. The texts of its entries, in order, are the chunks of the
    first document, then those of the second, and so on. An entry is in the
    list exactly when its [document_id] is the index of a document, its
    [chunk_id] the index of its text among the chunks of that document, and
    its [chunk_size] the length of its text. A blank document has no entry,
    and does not shift the ids of the documents after it. *)
Theorem chunk_documents_traceable (self : t) (documents : list string) :
  ck_text <$> chunk_documents self documents = concat (chunk_text self <$> documents)
  /\ (forall c : Chunk,
        c ∈ chunk_documents self documents <->
        exists doc,
          documents !! ck_document_id c = Some doc
          /\ chunk_text self doc !! ck_chunk_id c = Some (ck_text c)
          /\ ck_chunk_size c = Py.len (ck_text c))
  /\ (forall c doc,
        c ∈ chunk_documents self documents ->
        documents !! ck_document_id c = Some doc ->
        Py.all_space doc = false).
Proof.
  unfold chunk_documents. rewrite chunk_documents_from_spec. simpl.
  assert (forall c : Chunk,
            c ∈ concat (imap (fun i doc => imap (chunk_entry i) (chunk_text self doc)) documents)
            <-> exists doc,
                  documents !! ck_document_id c = Some doc
                  /\ chunk_text self doc !! ck_chunk_id c = Some (ck_text c)
                  /\ ck_chunk_size c = Py.len (ck_text c)) as Helem.
  { intros c. rewrite elem_of_concat. split.
    - intros (l & Hc & Hl). apply list_elem_of_lookup in Hl as [d Hd].
      rewrite list_lookup_imap in Hd.
      destruct (documents !! d) as [doc|] eqn:Hdoc; simpl in Hd; simplify_eq.
      apply list_elem_of_lookup in Hc as [k Hk]. rewrite list_lookup_imap in Hk.
      destruct (chunk_text self doc !! k) as [chunk|] eqn:Hchunk; simpl in Hk; simplify_eq.
      exists doc. simpl. by rewrite Hdoc.
    - intros (doc & Hdoc & Hchunk & Hsize).
      exists (imap (chunk_entry (ck_document_id c)) (chunk_text self doc)). split.
      + apply list_elem_of_lookup. exists (ck_chunk_id c).
        rewrite list_lookup_imap, Hchunk. simpl. destruct c. simpl in *. by subst.
      + apply list_elem_of_lookup. exists (ck_document_id c).
        by rewrite list_lookup_imap, Hdoc. }
  split; [|split].
  - clear Helem.
    assert (forall d xs, ck_text <$> imap (chunk_entry d) xs = xs) as Hentries.
    { intros d xs. apply list_eq. intros k.
      rewrite list_lookup_fmap, list_lookup_imap. by destruct (xs !! k). }
    assert (forall n,
              ck_text <$> concat (imap (fun i doc =>
                                          imap (chunk_entry (n + i)) (chunk_text self doc))
                                    documents)
              = concat (chunk_text self <$> documents)) as Hfrom.
    { induction documents as [|doc documents IH]; intros n; [done|].
      simpl. rewrite fmap_app, Hentries. f_equal.
      etransitivity; [|apply (IH (S n))]. do 2 f_equal.
      apply imap_ext. intros i x _. simpl. by rewrite Nat.add_succ_r. }
    apply (Hfrom 0%nat).
  - exact Helem.
  - intros c doc (doc' & Hdoc' & Hchunk & _)%Helem Hdoc.
    assert (doc' = doc) as -> by congruence.
    destruct (Py.all_space doc) eqn:Ha; [|done].
    rewrite chunk_text_blank in Hchunk by done. by rewrite lookup_nil in Hchunk.
Qed.

End ChunkerFacts.

(** ** More on the pipeline *)

Section PipelineFacts.
Context {W : Type} `{Logged W}.
Import RAGPipeline.

Ltac run_pipeline :=
  unfold query, query_body, add_documents_to_knowledge_base, try_except, with_spinner,
    bind, emit, st_error, ret, spinning, retrieving_message in *.

(** X5. For a question that is not blank, when the embedding provider
    returns [None] or an empty list, [query] returns the fixed embedding
    diagnostic with no sources and no metadata, in the world the provider
    left: neither the vector store nor the answer provider is invoked, and
    the run is the same with any other store and answer provider. *)
Theorem query_embedding_failure (self : t W) question max_tokens w query_embeddings w1 :
  Py.all_space question = false ->
  EmbeddingsGeneratorI.generate_embeddings (embeddings_generator self) [question]
    (spinning "Generating query embedding..." w) = (Return query_embeddings, w1) ->
  query_embeddings = None \/ query_embeddings = Some [] ->
  query self question max_tokens w =
    (Return {| answer := embedding_error_answer; sources := []; metadata := ∅ |}, w1)
  /\ forall store llm,
       query (with_store_and_llm self store llm) question max_tokens w
       = query self question max_tokens w.
Proof.
  intros Hq He Hnone.
  assert (forall store llm,
            query (with_store_and_llm self store llm) question max_tokens w =
              (Return {| answer := embedding_error_answer; sources := []; metadata := ∅ |},
               w1)) as Hrun.
  { intros store llm. unfold query. rewrite blank_test, Hq. run_pipeline. simpl.
    rewrite He. by destruct Hnone as [->| ->]. }
  assert (query self question max_tokens w =
            (Return {| answer := embedding_error_answer; sources := []; metadata := ∅ |},
             w1)) as Hself.
  { unfold query. rewrite blank_test, Hq. run_pipeline.
    rewrite He. by destruct Hnone as [->| ->]. }
  split; [done|]. intros store llm. by rewrite Hrun, Hself.
Qed.

(** X6. When the answer provider returns [None] or the empty string,
    [query] returns the fixed generation diagnostic and keeps the sources
    it had assembled, one per search result in rank order; the metadata is
    empty. *)
Theorem query_generation_failure (self : t W) question max_tokens w
    query_embedding rest w1 search_results w2 a w3 :
  Py.all_space question = false ->
  EmbeddingsGeneratorI.generate_embeddings (embeddings_generator self) [question]
    (spinning "Generating query embedding..." w)
    = (Return (Some (query_embedding :: rest)), w1) ->
  VectorStoreI.search (vectorstore self) query_embedding (top_k self)
    (spinning (retrieving_message self) w1) = (Return search_results, w2) ->
  search_results <> [] ->
  LLMHandlerI.generate_answer (llm_handler self) question (context_of search_results)
    max_tokens (spinning "Generating answer..." w2) = (Return a, w3) ->
  a = None \/ a = Some EmptyString ->
  query self question max_tokens w =
    (Return {| answer := generation_error_answer;
               sources := map source_of search_results;
               metadata := ∅ |}, w3).
Proof.
  intros Hq He Hs Hne Ha Hnone.
  unfold query. rewrite blank_test, Hq. run_pipeline. rewrite He, Hs.
  destruct search_results as [|r0 rs]; [done|].
  rewrite assemble_spec. unfold context_of in Ha. simpl in *. rewrite Ha.
  by destruct Hnone as [->| ->].
Qed.

(** X7. [add_documents_to_knowledge_base] never raises, whatever the
    embedding provider and the vector store do. When the provider returns
    [None] or an empty list the method shows an error and returns [False]
    without calling the store; when the provider raises it shows the
    message of the exception and returns [False]. *)
Theorem add_documents_to_knowledge_base_returns (self : t W) texts metadatas w :
  (exists b w', add_documents_to_knowledge_base self texts metadatas w = (Return b, w'))
  /\ (forall embeddings w1,
        EmbeddingsGeneratorI.generate_embeddings (embeddings_generator self) texts
          (spinning "Generating embeddings for documents..." w) = (Return embeddings, w1) ->
        embeddings = None \/ embeddings = Some [] ->
        forall store llm,
          add_documents_to_knowledge_base (with_store_and_llm self store llm) texts
            metadatas w
          = (Return false, log_add (StError "Failed to generate embeddings.") w1))
  /\ (forall e w1,
        EmbeddingsGeneratorI.generate_embeddings (embeddings_generator self) texts
          (spinning "Generating embeddings for documents..." w) = (Raise e, w1) ->
        forall store llm,
          add_documents_to_knowledge_base (with_store_and_llm self store llm) texts
            metadatas w
          = (Return false,
             log_add (StError ("Error adding documents to knowledge base: " +:+ str_exn e))
               w1)).
Proof.
  split; [|split].
  - run_pipeline.
    repeat (case_match; simpl in *; simplify_eq); by eexists _, _.
  - intros embeddings w1 He Hnone store llm. run_pipeline. simpl. rewrite He.
    by destruct Hnone as [->| ->].
  - intros e w1 He store llm. run_pipeline. simpl. by rewrite He.
Qed.

End PipelineFacts.

(** ** More on the vector store *)

Section MoreStoreFacts.
Import VectorStore.

Ltac run_store :=
  unfold clear_collection, get_collection_count, add_documents, delete_documents,
    try_except, bind, ret, raise, get_self, on_client, set_collection, st_error, emit,
    Chroma.delete_collection, Chroma.get_or_create_collection, Chroma.count,
    Chroma.delete_ids in *.

(** Adding records one by one, each unless its id is taken, is the union
    with the map of the entries, the records already there winning. *)
Lemma foldl_add_one (m : gmap string Chroma.Rec) (entries : list (string * Chroma.Rec)) :
  foldl Chroma.add_one m entries = m ∪ list_to_map entries.
Proof.
  revert m. induction entries as [|[k v] entries IH]; intros m; simpl.
  - by rewrite (right_id_L ∅ (∪)).
  - rewrite IH. unfold Chroma.add_one. simpl. apply map_eq. intros i.
    rewrite !lookup_union. destruct (m !! k) eqn:Hk.
    + destruct (decide (i = k)) as [->|Hne].
      * rewrite lookup_insert_eq, Hk. by destruct (list_to_map entries !! k).
      * by rewrite lookup_insert_ne.
    + destruct (decide (i = k)) as [->|Hne].
      * rewrite !lookup_insert_eq, Hk. by destruct (list_to_map entries !! k).
      * by rewrite !lookup_insert_ne.
Qed.

Lemma foldl_delete (m : gmap string Chroma.Rec) (ids : list string) (k : string) :
  foldl (fun m i => delete i m) m ids !! k = if decide (k ∈ ids) then None else m !! k.
Proof.
  revert m. induction ids as [|i ids IH]; intros m; simpl.
  - done.
  - rewrite IH. destruct (decide (k ∈ ids)) as [Hin|Hnin].
    + rewrite decide_True; [done|by right].
    + destruct (decide (k = i)) as [->|Hne].
      * rewrite lookup_delete_eq, decide_True; [done|by left].
      * rewrite lookup_delete_ne by done. rewrite decide_False; [done|].
        by intros [?|?]%elem_of_cons.
Qed.

Lemma zip_records_fst embeddings documents metadatas ids :
  length embeddings = length ids -> length documents = length ids ->
  length metadatas = length ids ->
  (Chroma.zip_records embeddings documents metadatas ids).*1 = ids.
Proof.
  intros He Hd Hm. unfold Chroma.zip_records. apply fst_zip.
  rewrite length_zip_with, length_zip. lia.
Qed.

Lemma zip_records_lookup embeddings documents metadatas ids i entry :
  Chroma.zip_records embeddings documents metadatas ids !! i = Some entry <->
  exists id embedding document metadata,
    ids !! i = Some id /\ embeddings !! i = Some embedding
    /\ documents !! i = Some document /\ metadatas !! i = Some metadata
    /\ entry = (id, {| Chroma.embedding := embedding;
                       Chroma.document := document;
                       Chroma.metadata := metadata |}).
Proof.
  unfold Chroma.zip_records. split.
  - intros (id & r & -> & Hid & Hr)%lookup_zip_with_Some.
    apply lookup_zip_with_Some in Hr as (embedding & [document metadata] & -> & He & Hdm).
    apply lookup_zip_with_Some in Hdm as (d & m & [= -> ->] & Hd & Hm).
    by exists id, embedding, d, m.
  - intros (id & embedding & document & metadata & Hid & He & Hd & Hm & ->).
    apply lookup_zip_with_Some. eexists _, _. split; [done|]. split; [done|].
    apply lookup_zip_with_Some. exists embedding, (document, metadata).
    split; [done|]. split; [done|]. apply lookup_zip_with_Some. by eexists _, _.
Qed.

Lemma with_client_id (s : t) : with_client s (client s) = s.
Proof. by destruct s. Qed.

Lemma validate_ids_None (ids : list string) :
  Chroma.validate_ids ids = None <-> ids <> [] /\ NoDup ids.
Proof.
  unfold Chroma.validate_ids.
  destruct (decide (ids = [])) as [->|Hne].
  - rewrite bool_decide_eq_true_2 by done. split; [done|]. by intros [? _].
  - rewrite bool_decide_eq_false_2 by done.
    destruct (decide (NoDup ids)) as [Hnd|Hnd].
    + rewrite bool_decide_eq_true_2 by done. by split.
    + rewrite bool_decide_eq_false_2 by done. simpl. split; [done|]. by intros [_ ?].
Qed.

Lemma existsb_bool_decide {A} (P : A -> Prop) `{forall x, Decision (P x)} (l : list A) :
  existsb (fun x => bool_decide (P x)) l = false <-> Forall (fun x => ~ P x) l.
Proof.
  induction l as [|x l IH]; simpl.
  - split; [by constructor|done].
  - rewrite orb_false_iff, IH, Forall_cons, bool_decide_eq_false. done.
Qed.

Lemma forallb_eqb {A} (f : A -> nat) (n : nat) (l : list A) :
  forallb (fun x => f x =? n)%nat l = true <-> Forall (fun x => f x = n) l.
Proof.
  induction l as [|x l IH]; simpl.
  - split; [by constructor|done].
  - rewrite andb_true_iff, IH, Forall_cons, Nat.eqb_eq. done.
Qed.

(** The batches that pass the validation of [add]. *)
Lemma validate_batch_None col embeddings documents metadatas ids :
  Chroma.validate_batch col embeddings documents metadatas ids = None <->
  (length embeddings = length ids /\ length documents = length ids
   /\ length metadatas = length ids)
  /\ ids <> [] /\ NoDup ids
  /\ Forall (fun m => m <> ∅) metadatas
  /\ Forall (fun em => em <> []) embeddings
  /\ Forall (fun em => length em = Chroma.expected_dimension col embeddings) embeddings.
Proof.
  unfold Chroma.validate_batch.
  case_bool_decide as Hlen; simpl.
  2: { split; [intros [=]|]. by intros [? _]. }
  destruct (Chroma.validate_ids ids) as [e|] eqn:Hi.
  { split; [intros [=]|]. intros (_ & ? & ? & _).
    assert (Chroma.validate_ids ids = None) by (by apply validate_ids_None). congruence. }
  apply validate_ids_None in Hi as [Hne Hnd].
  match goal with
  | |- context [existsb ?f metadatas] => destruct (existsb f metadatas) eqn:Hm
  end.
  { split; [intros [=]|]. intros (_ & _ & _ & Hall & _).
    apply (existsb_bool_decide (fun m : Metadata => m = ∅)) in Hall.
    assert (true = false) as [=]. etransitivity; [symmetry; exact Hm|exact Hall]. }
  match goal with
  | |- context [existsb ?f embeddings] => destruct (existsb f embeddings) eqn:He
  end.
  { split; [intros [=]|]. intros (_ & _ & _ & _ & Hall & _).
    apply (existsb_bool_decide (fun em : Embedding => em = [])) in Hall.
    assert (true = false) as [=]. etransitivity; [symmetry; exact He|exact Hall]. }
  match goal with
  | |- context [forallb ?f embeddings] => destruct (forallb f embeddings) eqn:Hd
  end; simpl.
  - split; [|done]. intros _. split; [done|]. split; [done|]. split; [done|].
    split; [|split].
    + apply (existsb_bool_decide (fun m : Metadata => m = ∅)). exact Hm.
    + apply (existsb_bool_decide (fun em : Embedding => em = [])). exact He.
    + apply (forallb_eqb (length (A:=Q))). exact Hd.
  - split; [intros [=]|]. intros (_ & _ & _ & _ & _ & Hall).
    apply (forallb_eqb (length (A:=Q))) in Hall.
    assert (false = true) as [=]. etransitivity; [symmetry; exact Hd|exact Hall].
Qed.

(** [add] writes nothing when it raises. *)
Lemma add_raise checks h embeddings documents metadatas ids (c c' : Chroma.Client) e :
  Chroma.add checks h embeddings documents metadatas ids c = (Raise e, c') -> c' = c.
Proof.
  unfold Chroma.add. intros Hadd. by repeat (case_match; simplify_eq).
Qed.

(** [add_documents] once its two guards are passed. *)
Lemma add_documents_run (s : t) texts embeddings metadatas ids :
  texts <> [] -> length embeddings = length texts ->
  add_documents texts embeddings metadatas ids s =
    match Chroma.add (checks s) (collection s) embeddings texts
            (metadatas_or_default texts metadatas) (ids_or_default texts ids) (client s) with
    | (Return _, c) => (Return true, with_client s c)
    | (Raise e, c) =>
        (Return false,
         log_add (StError ("Error adding documents to vector store: " +:+ str_exn e))
           (with_client s c))
    end.
Proof.
  intros Ht He. run_store.
  destruct texts as [|text texts]; [done|].
  destruct embeddings as [|embedding embeddings]; [done|].
  rewrite (proj2 (Nat.eqb_eq _ _)) by done. change (negb true) with false. cbv beta iota.
  fold (ids_or_default (text :: texts) ids).
  fold (metadatas_or_default (text :: texts) metadatas).
  by destruct (Chroma.add _ _ _ _ _ _ _) as [[[]|e] c].
Qed.

(** What the guards of [add_documents] do. *)
Lemma add_documents_guard (s : t) texts embeddings metadatas ids :
  texts = [] \/ length embeddings <> length texts ->
  exists msg,
    add_documents texts embeddings metadatas ids s = (Return false, log_add (StError msg) s).
Proof.
  intros Hbad. run_store.
  destruct texts as [|text texts]; [by eexists|].
  destruct embeddings as [|embedding embeddings]; [by eexists|].
  destruct Hbad as [?|Hlen]; [done|].
  rewrite (proj2 (Nat.eqb_neq _ _)) by (simpl in *; lia). by eexists.
Qed.

(** What [add_documents] does on arguments it accepts. *)
Lemma add_documents_addable (s : t) texts embeddings metadatas ids :
  addable s texts embeddings metadatas ids ->
  exists col,
    client s !! collection s = Some col
    /\ add_documents texts embeddings metadatas ids s
       = (Return true, added s col texts embeddings metadatas ids).
Proof.
  intros (col & Hcol & Ht & He & Hi & Hm & Hnd & Hmeta & Hvec & Hdim & Hchecks).
  exists col. split; [done|].
  rewrite add_documents_run by done. unfold Chroma.add. rewrite Hcol.
  rewrite (proj2 (validate_batch_None _ _ _ _ _)), Hchecks.
  - unfold added. by rewrite foldl_add_one.
  - repeat split; try done; try congruence.
    intros Hnil. rewrite Hnil in Hi. by destruct texts.
Qed.

(** A call of [add_documents] that returns [True] had arguments it
    accepts, and leaves the store described by [added]. *)
Lemma add_documents_true (s : t) texts embeddings metadatas ids s' :
  add_documents texts embeddings metadatas ids s = (Return true, s') ->
  addable s texts embeddings metadatas ids
  /\ exists col,
       client s !! collection s = Some col
       /\ s' = added s col texts embeddings metadatas ids.
Proof.
  intros Hrun.
  destruct (decide (texts = [])) as [->|Ht].
  { destruct (add_documents_guard s [] embeddings metadatas ids) as [msg Hg]; [by left|].
    congruence. }
  destruct (decide (length embeddings = length texts)) as [He|He].
  2: { destruct (add_documents_guard s texts embeddings metadatas ids) as [msg Hg];
         [by right|]. congruence. }
  rewrite add_documents_run in Hrun by done. unfold Chroma.add in Hrun.
  destruct (client s !! collection s) as [col|] eqn:Hcol; [|done].
  destruct (Chroma.validate_batch _ _ _ _ _) eqn:Hv; [done|].
  destruct (checks s _ _ _ _) eqn:Hc; [done|].
  apply validate_batch_None in Hv as ((Hl1 & Hl2 & Hl3) & Hne & Hnd & Hmeta & Hvec & Hdim).
  injection Hrun as <-. split.
  - exists col. repeat split; try done; congruence.
  - exists col. split; [done|]. unfold added. by rewrite foldl_add_one.
Qed.

Lemma records_of_bound (s : t) col :
  client s !! collection s = Some col -> records_of s = Chroma.records col.
Proof. intros Hcol. unfold records_of. by rewrite Hcol. Qed.

Lemma get_collection_count_bound (s : t) :
  is_Some (client s !! collection s) ->
  get_collection_count s = (Return (size (records_of s)), s).
Proof.
  intros [col Hcol]. unfold records_of. run_store. simpl. rewrite Hcol. simpl.
  by destruct s.
Qed.

(** The store [added] describes. *)
Lemma added_store (s : t) col texts embeddings metadatas ids :
  client s !! collection s = Some col ->
  let s' := added s col texts embeddings metadatas ids in
  is_Some (client s' !! collection s')
  /\ collection s' = collection s /\ collection_name s' = collection_name s
  /\ checks s' = checks s /\ ui s' = ui s
  /\ dimension_of s' = Some (Chroma.expected_dimension col embeddings)
  /\ records_of s'
     = records_of s
       ∪ list_to_map
           (Chroma.zip_records embeddings texts (metadatas_or_default texts metadatas)
              (ids_or_default texts ids)).
Proof.
  intros Hcol. unfold added, records_of, dimension_of, with_client. simpl.
  rewrite lookup_insert_eq, Hcol. by repeat split.
Qed.

(** The outcomes of [add_documents]. *)
Lemma add_documents_outcome (s : t) texts embeddings metadatas ids :
  exists b s',
    add_documents texts embeddings metadatas ids s = (Return b, s')
    /\ (b = true <-> addable s texts embeddings metadatas ids)
    /\ (b = true -> ui s' = ui s)
    /\ (b = false -> client s' = client s /\ exists msg, ui s' = ui s ++ [StError msg]).
Proof.
  destruct (add_documents texts embeddings metadatas ids s) as [[[|]|e] s'] eqn:Hrun.
  - apply add_documents_true in Hrun as (Hok & col & Hcol & ->).
    exists true, (added s col texts embeddings metadatas ids).
    split; [done|]. split; [done|]. split; [|done].
    intros _. by apply (added_store s col texts embeddings metadatas ids Hcol).
  - exists false, s'. split; [done|]. split.
    { split; [done|]. intros (col & Hcol & Hok)%add_documents_addable. congruence. }
    split; [done|]. intros _.
    destruct (decide (texts = [] \/ length embeddings <> length texts)) as [Hbad|Hgood].
    { destruct (add_documents_guard s texts embeddings metadatas ids Hbad) as [msg Hg].
      rewrite Hg in Hrun. injection Hrun as <-. split; [done|]. by exists msg. }
    rewrite add_documents_run in Hrun by (split || lia || tauto).
    destruct (Chroma.add _ _ _ _ _ _ _) as [[[]|e] c] eqn:Hadd; [done|].
    apply add_raise in Hadd as ->. injection Hrun as <-.
    simpl. split; [done|]. by eexists.
  - exfalso.
    destruct (decide (texts = [] \/ length embeddings <> length texts)) as [Hbad|Hgood].
    { destruct (add_documents_guard s texts embeddings metadatas ids Hbad) as [msg Hg].
      congruence. }
    rewrite add_documents_run in Hrun by (split || lia || tauto).
    by destruct (Chroma.add _ _ _ _ _ _ _) as [[[]|e'] c].
Qed.

(** X8. [add_documents] never raises and is all or nothing. It returns
    [True] exactly when the handle points to a collection, the texts are
    not empty, the embeddings, the ids and the metadata (given or made up)
    are as many as the texts, no id occurs twice, no metadata dict and no
    vector is empty, the vectors have the dimension of the collection (all
    that of the first while it has none) and the further checks of the
    client pass; it then shows nothing. Otherwise it returns [False], shows
    one error message and leaves the client as it was. *)
Theorem add_documents_all_or_nothing (s : t) texts embeddings metadatas ids :
  exists b s',
    add_documents texts embeddings metadatas ids s = (Return b, s')
    /\ (b = true <-> addable s texts embeddings metadatas ids)
    /\ (b = true -> ui s' = ui s)
    /\ (b = false -> client s' = client s /\ exists msg, ui s' = ui s ++ [StError msg]).
Proof. apply add_documents_outcome. Qed.

(** The records of the store after [add_documents] has returned [True]. *)
Lemma add_documents_effect (s : t) texts embeddings metadatas ids s' :
  add_documents texts embeddings metadatas ids s = (Return true, s') ->
  is_Some (client s' !! collection s')
  /\ (forall id r, records_of s !! id = Some r -> records_of s' !! id = Some r)
  /\ (forall i id,
        ids_or_default texts ids !! i = Some id ->
        records_of s !! id = None ->
        exists text embedding metadata,
          texts !! i = Some text /\ embeddings !! i = Some embedding
          /\ metadatas_or_default texts metadatas !! i = Some metadata
          /\ (metadatas = None ->
              metadata = {[ "text" := SStr (Py.slice_to 100 text) ]})
          /\ records_of s' !! id
             = Some {| Chroma.embedding := embedding;
                       Chroma.document := text;
                       Chroma.metadata := metadata |})
  /\ (forall id,
        id ∉ ids_or_default texts ids -> records_of s' !! id = records_of s !! id)
  /\ ((forall id, id ∈ ids_or_default texts ids -> records_of s !! id = None) ->
      get_collection_count s'
      = (Return (size (records_of s) + length texts)%nat, s')).
Proof.
  intros Hrun.
  apply add_documents_true in Hrun as (Hok & col & Hcol & ->).
  destruct (added_store s col texts embeddings metadatas ids Hcol)
    as (Hbound & _ & _ & _ & _ & _ & Hrec).
  destruct Hok as (col' & _ & Ht & He & Hi & Hm & Hnd & _).
  set (s' := added s col texts embeddings metadatas ids) in *.
  set (ids' := ids_or_default texts ids) in *.
  set (metas' := metadatas_or_default texts metadatas) in *.
  assert ((Chroma.zip_records embeddings texts metas' ids').*1 = ids') as Hfst
    by (apply zip_records_fst; congruence).
  split; [done|]. rewrite Hrec. repeat split.
  - intros id r Hr. by apply lookup_union_Some_raw; left.
  - intros i id Hid Hfree.
    assert (i < length texts)%nat as Hlt by (rewrite <- Hi; by eapply lookup_lt_Some).
    destruct (lookup_lt_is_Some_2 texts i Hlt) as [text Htext].
    destruct (lookup_lt_is_Some_2 embeddings i ltac:(lia)) as [embedding Hemb].
    destruct (lookup_lt_is_Some_2 metas' i ltac:(lia)) as [metadata Hmeta].
    exists text, embedding, metadata. repeat split; try done.
    + intros ->. unfold metas', metadatas_or_default, default_metadatas in Hmeta.
      rewrite list_lookup_fmap, Htext in Hmeta. simpl in Hmeta. by simplify_eq.
    + rewrite lookup_union_r by done.
      apply elem_of_list_to_map_1; [by rewrite Hfst|].
      apply list_elem_of_lookup. exists i. apply zip_records_lookup.
      by exists id, embedding, text, metadata.
  - intros id Hnin. apply lookup_union_l, not_elem_of_list_to_map_1. by rewrite Hfst.
  - intros Hfree. rewrite get_collection_count_bound by done. rewrite Hrec.
    rewrite map_size_disj_union.
    + rewrite map_size_list_to_map by (by rewrite Hfst).
      rewrite <- (length_fmap fst), Hfst, Hi. done.
    + apply map_disjoint_spec. intros id r1 r2 Hr1 Hr2.
      apply elem_of_list_to_map_2, (list_elem_of_fmap_2 fst) in Hr2.
      rewrite Hfst in Hr2. simpl in Hr2. apply Hfree in Hr2. congruence.
Qed.

(** X9. After [add_documents] has returned [True], every record that was
    in the collection is still there, unchanged; every text whose id was
    free is stored under that id with the embedding and the metadata of the
    same position, the metadata being the first 100 characters of the text
    under the key [text] when none was given; and no other id is touched.
    When all the ids were free, [get_collection_count] has grown by the
    number of texts. *)
Theorem add_documents_stores (s : t) texts embeddings metadatas ids s' :
  add_documents texts embeddings metadatas ids s = (Return true, s') ->
  (forall id r, records_of s !! id = Some r -> records_of s' !! id = Some r)
  /\ (forall i id,
        ids_or_default texts ids !! i = Some id ->
        records_of s !! id = None ->
        exists text embedding metadata,
          texts !! i = Some text /\ embeddings !! i = Some embedding
          /\ metadatas_or_default texts metadatas !! i = Some metadata
          /\ (metadatas = None ->
              metadata = {[ "text" := SStr (Py.slice_to 100 text) ]})
          /\ records_of s' !! id
             = Some {| Chroma.embedding := embedding;
                       Chroma.document := text;
                       Chroma.metadata := metadata |})
  /\ (forall id,
        id ∉ ids_or_default texts ids -> records_of s' !! id = records_of s !! id)
  /\ ((forall id, id ∈ ids_or_default texts ids -> records_of s !! id = None) ->
      get_collection_count s'
      = (Return (size (records_of s) + length texts)%nat, s')).
Proof. intros Hrun. by apply add_documents_effect in Hrun as (_ & ?). Qed.

(** What [delete_documents] does on a list of ids it accepts. *)
Lemma delete_documents_deletable (s : t) (ids : list string) col :
  client s !! collection s = Some col -> ids <> [] -> NoDup ids ->
  delete_documents ids s =
    (Return true,
     with_client s
       (<[collection s :=
            {| Chroma.config := Chroma.config col;
               Chroma.dimension := Chroma.dimension col;
               Chroma.records := foldl (fun m i => delete i m) (Chroma.records col) ids |}]>
          (client s))).
Proof.
  intros Hcol Hne Hnd. run_store. simpl. rewrite Hcol.
  by rewrite (proj2 (validate_ids_None ids)).
Qed.

(** The records of the store after [delete_documents]. *)
Lemma delete_documents_effect (s : t) (ids : list string) :
  deletable s ids ->
  exists s',
    delete_documents ids s = (Return true, s')
    /\ is_Some (client s' !! collection s')
    /\ ui s' = ui s
    /\ dimension_of s' = dimension_of s
    /\ (forall id, id ∈ ids -> records_of s' !! id = None)
    /\ (forall id, id ∉ ids -> records_of s' !! id = records_of s !! id).
Proof.
  intros ([col Hcol] & Hne & Hnd). rewrite (delete_documents_deletable _ _ _ Hcol Hne Hnd).
  eexists. split; [done|].
  unfold records_of, dimension_of, with_client. simpl. rewrite lookup_insert_eq, Hcol. simpl.
  repeat split; try done.
  - intros id Hin. by rewrite foldl_delete, decide_True.
  - intros id Hnin. by rewrite foldl_delete, decide_False.
Qed.

(** X10. [delete_documents] never raises. It returns [True] exactly when
    the handle points to a collection and the list of ids is not empty and
    repeats no id; it then shows nothing, none of the given ids is held
    afterwards, also those the collection did not hold, and every other
    record is as before. Otherwise it returns [False], shows one error
    message and deletes nothing. *)
Theorem delete_documents_removes (s : t) (ids : list string) :
  exists b s',
    delete_documents ids s = (Return b, s')
    /\ (b = true <-> deletable s ids)
    /\ (b = true ->
        ui s' = ui s
        /\ (forall id, id ∈ ids -> records_of s' !! id = None)
        /\ (forall id, id ∉ ids -> records_of s' !! id = records_of s !! id))
    /\ (b = false -> client s' = client s /\ exists msg, ui s' = ui s ++ [StError msg]).
Proof.
  destruct (decide (ids <> [] /\ NoDup ids)) as [[Hne Hnd]|Hbad].
  - destruct (client s !! collection s) as [col|] eqn:Hcol.
    + destruct (delete_documents_effect s ids) as (s' & Hrun & _ & Hui & _ & Hgone & Hkept).
      { split; [by eexists|done]. }
      exists true, s'. split; [done|]. split; [|split; [done|done]].
      split; [|done]. intros _. split; [by eexists|done].
    + run_store. simpl. rewrite Hcol. simpl. eexists _, _. split; [done|].
      split; [split; [done|intros ([? ?] & _); congruence]|]. split; [done|].
      intros _. split; [by destruct s|by eexists].
  - assert (Chroma.validate_ids ids <> None) as Hv by (by rewrite validate_ids_None).
    run_store. simpl.
    destruct (client s !! collection s) as [col|] eqn:Hcol; simpl.
    + destruct (Chroma.validate_ids ids) as [e|]; [|done]. simpl.
      eexists _, _. split; [done|].
      split; [split; [done|intros (_ & ? & ?); by destruct Hbad]|]. split; [done|].
      intros _. split; [by destruct s|by eexists].
    + eexists _, _. split; [done|].
      split; [split; [done|intros ([? ?] & _); congruence]|]. split; [done|].
      intros _. split; [by destruct s|by eexists].
Qed.

(** X11. Adding records under ids the collection does not hold and then
    deleting these ids gives back the records and the UI as they were: the
    second call returns [True] too, and the store is the one before the two
    calls, except that a collection that had no dimension yet keeps the
    dimension the added vectors gave it. *)
Theorem add_then_delete (s : t) texts embeddings metadatas (ids : list string) s1 :
  add_documents texts embeddings metadatas (Some ids) s = (Return true, s1) ->
  (forall id, id ∈ ids -> records_of s !! id = None) ->
  exists s2,
    delete_documents ids s1 = (Return true, s2)
    /\ records_of s2 = records_of s
    /\ ui s2 = ui s
    /\ is_Some (dimension_of s2)
    /\ (is_Some (dimension_of s) -> s2 = s).
Proof.
  intros Hrun Hfree.
  apply add_documents_true in Hrun as (Hok & col & Hcol & ->).
  destruct Hok as (col' & Hcol' & Ht & He & Hi & Hm & Hnd & _).
  assert (ids <> []) as Hne by (intros ->; by destruct texts).
  erewrite delete_documents_deletable;
    [|unfold added, with_client; simpl; apply lookup_insert_eq|done|done].
  eexists. split; [done|].
  assert (foldl (fun m i => delete i m)
            (Chroma.records col
             ∪ list_to_map
                 (Chroma.zip_records embeddings texts (metadatas_or_default texts metadatas)
                    ids)) ids
          = Chroma.records col) as Hback.
  { apply map_eq. intros k. rewrite foldl_delete.
    rewrite (records_of_bound _ _ Hcol) in Hfree.
    destruct (decide (k ∈ ids)) as [Hin|Hnin]; [by rewrite Hfree|].
    apply lookup_union_l, not_elem_of_list_to_map_1.
    rewrite zip_records_fst; simpl in *; congruence. }
  unfold added, with_client, records_of, dimension_of. simpl.
  rewrite insert_insert_eq, lookup_insert_eq, Hcol. simpl. rewrite Hback.
  repeat split; try done.
  intros [d Hd]. simpl in Hd. unfold Chroma.expected_dimension. rewrite Hd.
  rewrite insert_id; [by destruct s|]. rewrite Hcol. f_equal. destruct col. simpl in *.
  by subst.
Qed.

Lemma elem_of_default_ids (id : string) (n : nat) :
  id ∈ default_ids n <-> exists i, (i < n)%nat /\ id = "doc_" +:+ Py.str_nat i.
Proof.
  unfold default_ids. rewrite list_elem_of_fmap. split.
  - intros (i & -> & Hi). apply elem_of_seq in Hi. exists i. split; [lia|done].
  - intros (i & Hi & ->). exists i. split; [done|]. apply elem_of_seq. lia.
Qed.

Lemma elem_of_seeded_ids (id : string) (c n : nat) :
  id ∈ seeded_ids c n <-> exists i, (i < n)%nat /\ id = "doc_" +:+ Py.str_nat (c + i).
Proof.
  unfold seeded_ids. rewrite list_elem_of_fmap. split.
  - intros (i & -> & Hi). apply elem_of_seq in Hi. exists i. split; [lia|done].
  - intros (i & Hi & ->). exists i. split; [done|]. apply elem_of_seq. lia.
Qed.

Lemma NoDup_seeded_ids (c n : nat) : NoDup (seeded_ids c n).
Proof.
  unfold seeded_ids. apply NoDup_fmap_2_strong; [|apply NoDup_seq].
  intros i j _ _ Hij. apply doc_id_inj in Hij. lia.
Qed.

Lemma NoDup_default_ids (n : nat) : NoDup (default_ids n).
Proof. apply (NoDup_seeded_ids 0 n). Qed.

Lemma length_default_ids (n : nat) : length (default_ids n) = n.
Proof. unfold default_ids. by rewrite length_map, length_seq. Qed.

Lemma length_seeded_ids (c n : nat) : length (seeded_ids c n) = n.
Proof. unfold seeded_ids. by rewrite length_map, length_seq. Qed.

Lemma length_default_metadatas (texts : list string) :
  length (default_metadatas texts) = length texts.
Proof. unfold default_metadatas. by rewrite length_map. Qed.

(** A map whose keys are the members of a list without repetition has as
    many entries as the list. *)
Lemma size_keys {A} (m : gmap string A) (l : list string) :
  NoDup l -> (forall id, is_Some (m !! id) <-> id ∈ l) -> size m = length l.
Proof.
  intros Hnd Hkeys. rewrite <- (size_dom (D := gset string)).
  assert (dom m = list_to_set l) as ->.
  { apply set_eq. intros id. by rewrite elem_of_dom, elem_of_list_to_set. }
  by apply size_list_to_set.
Qed.

Lemma zip_records_keys embeddings documents metadatas ids (id : string) :
  length embeddings = length ids -> length documents = length ids ->
  length metadatas = length ids ->
  is_Some ((list_to_map (Chroma.zip_records embeddings documents metadatas ids)
            : gmap string Chroma.Rec) !! id)
  <-> id ∈ ids.
Proof.
  intros He Hd Hm. rewrite <- not_eq_None_Some.
  rewrite <- (not_elem_of_list_to_map (M := gmap string)), zip_records_fst by done.
  split; [apply dec_stable|tauto].
Qed.

(** What a call of [add_documents] that returned [True] was given, and the
    records it leaves. *)
Lemma add_documents_records (s : t) texts embeddings metadatas ids s' :
  add_documents texts embeddings metadatas ids s = (Return true, s') ->
  is_Some (client s !! collection s)
  /\ is_Some (client s' !! collection s')
  /\ ui s' = ui s
  /\ length embeddings = length texts
  /\ length (ids_or_default texts ids) = length texts
  /\ length (metadatas_or_default texts metadatas) = length texts
  /\ records_of s'
     = records_of s
       ∪ list_to_map
           (Chroma.zip_records embeddings texts (metadatas_or_default texts metadatas)
              (ids_or_default texts ids)).
Proof.
  intros Hrun. apply add_documents_true in Hrun as (Hok & col & Hcol & ->).
  destruct (added_store s col texts embeddings metadatas ids Hcol)
    as (Hbound & _ & _ & _ & Hui & _ & Hrec).
  destruct Hok as (col' & _ & Ht & He & Hi & Hm & _).
  split; [by eexists|]. by repeat split.
Qed.

(** The ids held after a call that returned [True]: those held before and
    those of the call. *)
Lemma add_documents_keys (s : t) texts embeddings metadatas ids s' (id : string) :
  add_documents texts embeddings metadatas ids s = (Return true, s') ->
  is_Some (records_of s' !! id)
  <-> is_Some (records_of s !! id) \/ id ∈ ids_or_default texts ids.
Proof.
  intros (_ & _ & _ & He & Hi & Hm & ->)%add_documents_records.
  rewrite lookup_union_is_Some. by rewrite zip_records_keys by congruence.
Qed.

(** X12. When two calls of [add_documents] without ids on an empty
    collection both return [True], the collection holds as many records as
    the longer of the two lists of texts, not their sum: under every id the
    two calls share, the text of the first call stays and the text of the
    second is not stored. *)
Theorem add_documents_twice_without_ids (s : t) texts1 embeddings1 metadatas1
    texts2 embeddings2 metadatas2 s1 s2 :
  records_of s = ∅ ->
  add_documents texts1 embeddings1 metadatas1 None s = (Return true, s1) ->
  add_documents texts2 embeddings2 metadatas2 None s1 = (Return true, s2) ->
  get_collection_count s2 = (Return (length texts1 `max` length texts2), s2)
  /\ (forall i text,
        texts1 !! i = Some text ->
        Chroma.document <$> records_of s2 !! ("doc_" +:+ Py.str_nat i) = Some text)
  /\ (forall i text,
        texts2 !! i = Some text -> (length texts1 <= i)%nat ->
        Chroma.document <$> records_of s2 !! ("doc_" +:+ Py.str_nat i) = Some text).
Proof.
  intros Hempty Hrun1 Hrun2.
  destruct (add_documents_effect _ _ _ _ _ _ Hrun1) as (_ & _ & Hnew1 & _).
  destruct (add_documents_effect _ _ _ _ _ _ Hrun2) as (Hb2 & Hkeep2 & Hnew2 & _).
  assert (forall id, is_Some (records_of s1 !! id) <-> id ∈ default_ids (length texts1))
    as Hkeys1.
  { intros id. rewrite (add_documents_keys _ _ _ _ _ _ _ Hrun1), Hempty, lookup_empty.
    simpl. split; [by intros [[? ?]|?]|by right]. }
  split; [|split].
  - rewrite get_collection_count_bound by done. do 2 f_equal.
    rewrite <- (length_default_ids (length texts1 `max` length texts2)).
    apply size_keys; [apply NoDup_default_ids|].
    intros id. rewrite (add_documents_keys _ _ _ _ _ _ _ Hrun2), Hkeys1. simpl.
    rewrite !elem_of_default_ids. split.
    + intros [(i & Hi & ->)|(i & Hi & ->)]; exists i; (split; [lia|done]).
    + intros (i & Hi & ->).
      destruct (decide (i < length texts1)%nat); [left|right]; exists i;
        (split; [lia|done]).
  - intros i text Htext.
    assert (default_ids (length texts1) !! i = Some ("doc_" +:+ Py.str_nat i)) as Hid
      by (apply default_ids_lookup; by eapply lookup_lt_Some).
    destruct (Hnew1 i _ Hid) as (text' & e & m & Htext' & _ & _ & _ & Hr).
    { by rewrite Hempty. }
    assert (text' = text) as -> by congruence.
    by rewrite (Hkeep2 _ _ Hr).
  - intros i text Htext Hge.
    assert (default_ids (length texts2) !! i = Some ("doc_" +:+ Py.str_nat i)) as Hid
      by (apply default_ids_lookup; by eapply lookup_lt_Some).
    destruct (Hnew2 i _ Hid) as (text' & e & m & Htext' & _ & _ & _ & Hr).
    { apply eq_None_not_Some. rewrite Hkeys1, elem_of_default_ids.
      intros (j & Hj & Hij). apply doc_id_inj in Hij. lia. }
    assert (text' = text) as -> by congruence.
    by rewrite Hr.
Qed.

(** The ingestion of the pipeline on the vector store of the repository,
    once the embedding provider has returned vectors: the ids it passes to
    [add_documents] start at the number of records the store holds. *)
Lemma ingestion_run (self : RAGPipeline.t VectorStore.t) collection_query
    texts metadatas s embeddings s1 :
  RAGPipeline.vectorstore self = as_collaborator collection_query ->
  EmbeddingsGeneratorI.generate_embeddings (RAGPipeline.embeddings_generator self) texts
    (RAGPipeline.spinning "Generating embeddings for documents..." s)
    = (Return (Some embeddings), s1) ->
  is_Some (client s1 !! collection s1) ->
  RAGPipeline.add_documents_to_knowledge_base self texts metadatas s
  = match embeddings with
    | [] => (Return false, log_add (StError "Failed to generate embeddings.") s1)
    | _ :: _ =>
        add_documents texts embeddings metadatas
          (Some (seeded_ids (size (records_of s1)) (length texts))) s1
    end.
Proof.
  intros Hstore Hemb Hb.
  unfold RAGPipeline.add_documents_to_knowledge_base, RAGPipeline.spinning, try_except,
    with_spinner, bind, emit, st_error, ret in *.
  rewrite Hemb, Hstore. simpl.
  destruct embeddings as [|e es]; [done|].
  rewrite get_collection_count_bound by done.
  fold (seeded_ids (size (records_of s1)) (length texts)).
  destruct (add_documents_outcome s1 texts (e :: es) metadatas
              (Some (seeded_ids (size (records_of s1)) (length texts))))
    as (b & s2 & Hrun & _).
  by rewrite Hrun.
Qed.

(** An ingestion that returned [True] went through [add_documents]. *)
Lemma ingestion_true (self : RAGPipeline.t VectorStore.t) collection_query
    texts metadatas s embeddings s1 s2 :
  RAGPipeline.vectorstore self = as_collaborator collection_query ->
  EmbeddingsGeneratorI.generate_embeddings (RAGPipeline.embeddings_generator self) texts
    (RAGPipeline.spinning "Generating embeddings for documents..." s)
    = (Return (Some embeddings), s1) ->
  is_Some (client s1 !! collection s1) ->
  RAGPipeline.add_documents_to_knowledge_base self texts metadatas s = (Return true, s2) ->
  add_documents texts embeddings metadatas
    (Some (seeded_ids (size (records_of s1)) (length texts))) s1 = (Return true, s2).
Proof.
  intros Hstore Hemb Hb Hrun.
  rewrite (ingestion_run _ _ _ _ _ _ _ Hstore Hemb Hb) in Hrun. by destruct embeddings.
Qed.

(** X13. On a store whose ids are [doc_0] to [doc_{n-1}], an ingestion
    of the pipeline that returns [True] has stored every text (the text of
    position [i] under [doc_{n+i}]), has made [get_collection_count] grow
    by exactly the number of texts, has shown nothing more than the
    embedding provider did, and leaves a store whose ids are again dense. *)
Theorem ingestion_grows (self : RAGPipeline.t VectorStore.t) collection_query
    texts metadatas s embeddings s1 s2 :
  RAGPipeline.vectorstore self = as_collaborator collection_query ->
  EmbeddingsGeneratorI.generate_embeddings (RAGPipeline.embeddings_generator self) texts
    (RAGPipeline.spinning "Generating embeddings for documents..." s)
    = (Return (Some embeddings), s1) ->
  dense s1 ->
  RAGPipeline.add_documents_to_knowledge_base self texts metadatas s = (Return true, s2) ->
  dense s2
  /\ get_collection_count s2
     = (Return (size (records_of s1) + length texts)%nat, s2)
  /\ ui s2 = ui s1
  /\ forall i text,
       texts !! i = Some text ->
       Chroma.document <$> records_of s2
                           !! ("doc_" +:+ Py.str_nat (size (records_of s1) + i))
       = Some text.
Proof.
  intros Hstore Hemb [Hb Hkeys] Hrun.
  apply (ingestion_true _ _ _ _ _ _ _ _ Hstore Hemb Hb) in Hrun.
  set (c := size (records_of s1)) in *.
  destruct (add_documents_records _ _ _ _ _ _ Hrun) as (_ & Hb2 & Hui & _).
  destruct (add_documents_effect _ _ _ _ _ _ Hrun) as (_ & _ & Hnew & _ & Hcount).
  simpl in *.
  assert (forall id, id ∈ seeded_ids c (length texts) -> records_of s1 !! id = None)
    as Hfree.
  { intros id (i & Hi & ->)%elem_of_seeded_ids. apply eq_None_not_Some.
    rewrite Hkeys, elem_of_default_ids. intros (j & Hj & Hij).
    apply doc_id_inj in Hij. lia. }
  assert (forall id,
            is_Some (records_of s2 !! id) <-> id ∈ default_ids (c + length texts))
    as Hkeys2.
  { intros id. rewrite (add_documents_keys _ _ _ _ _ _ _ Hrun), Hkeys. simpl.
    rewrite !elem_of_default_ids, elem_of_seeded_ids. split.
    - intros [(i & Hi & ->)|(i & Hi & ->)]; eexists; (split; [|done]); lia.
    - intros (i & Hi & ->). destruct (decide (i < c)%nat); [left; by exists i|right].
      exists (i - c)%nat. split; [lia|]. do 2 f_equal. lia. }
  assert (size (records_of s2) = (c + length texts)%nat) as Hsize.
  { rewrite <- (length_default_ids (c + length texts)).
    apply size_keys; [apply NoDup_default_ids|done]. }
  split; [|split; [|split]].
  - split; [done|]. by rewrite Hsize.
  - by apply Hcount.
  - done.
  - intros i text Htext.
    assert (seeded_ids c (length texts) !! i = Some ("doc_" +:+ Py.str_nat (c + i))) as Hid.
    { unfold seeded_ids. rewrite list_lookup_fmap, lookup_seq_lt by (by eapply lookup_lt_Some).
      done. }
    destruct (Hnew i _ Hid) as (text' & e & m & Htext' & _ & _ & _ & Hr).
    { apply Hfree, list_elem_of_lookup. by exists i. }
    assert (text' = text) as -> by congruence. by rewrite Hr.
Qed.

Lemma elem_of_hole_ids (id : string) (c j : nat) :
  (j < c)%nat ->
  id ∈ hole_ids c j <->
  exists i, (i < c)%nat /\ i <> j /\ id = "doc_" +:+ Py.str_nat i.
Proof.
  intros Hj. unfold hole_ids. rewrite elem_of_app, elem_of_default_ids, elem_of_seeded_ids. split.
  - intros [(i & Hi & ->)|(i & Hi & ->)];
      [exists i|exists (S j + i)%nat]; (split; [|split; [|done]]); lia.
  - intros (i & Hi & Hne & ->). destruct (decide (i < j)%nat); [left; by exists i|right].
    exists (i - S j)%nat. split; [lia|]. do 2 f_equal. lia.
Qed.

Lemma NoDup_hole_ids (c j : nat) : NoDup (hole_ids c j).
Proof.
  unfold hole_ids. apply NoDup_app. split; [apply NoDup_default_ids|].
  split; [|apply NoDup_seeded_ids].
  intros id (i & Hi & ->)%elem_of_default_ids (k & Hk & Hik)%elem_of_seeded_ids.
  apply doc_id_inj in Hik. lia.
Qed.

Lemma length_hole_ids (c j : nat) : (j < c)%nat -> length (hole_ids c j) = (c - 1)%nat.
Proof.
  intros Hj. unfold hole_ids. rewrite length_app, length_default_ids, length_seeded_ids. lia.
Qed.

(** Deleting one id of a dense store leaves a store with a hole. *)
Lemma delete_makes_hole (s : t) (j : nat) :
  dense s -> (j < size (records_of s))%nat ->
  exists s',
    delete_documents ["doc_" +:+ Py.str_nat j] s = (Return true, s')
    /\ holed (size (records_of s)) j s'.
Proof.
  intros [Hb Hkeys] Hj.
  destruct (delete_documents_effect s ["doc_" +:+ Py.str_nat j])
    as (s' & Hrun & Hb' & _ & _ & Hgone & Hkept).
  { split; [done|]. split; [done|]. apply NoDup_singleton. }
  exists s'. split; [done|]. split; [done|].
  intros id. rewrite elem_of_hole_ids by done.
  destruct (decide (id = "doc_" +:+ Py.str_nat j)) as [->|Hne].
  - rewrite Hgone by (by left). split; [by intros [? ?]|].
    intros (i & _ & Hij & Heq). apply doc_id_inj in Heq. congruence.
  - rewrite Hkept by (by intros ->%list_elem_of_singleton).
    rewrite Hkeys, elem_of_default_ids. split.
    + intros (i & Hi & ->). exists i. split; [done|]. split; [|done]. by intros ->.
    + intros (i & Hi & _ & ->). by exists i.
Qed.

(** X14. On a store that holds the ids [doc_0] to [doc_{c-1}] except one
    of them that is not the last (what deleting that id from a dense store
    of [c] records leaves), an ingestion of the pipeline that returns
    [True] has not stored its first text: the id it gave that text,
    [doc_{c-1}], was taken, the old record stays under it, and
    [get_collection_count] has grown by one less than the number of
    texts. *)
Theorem ingestion_after_delete (self : RAGPipeline.t VectorStore.t) collection_query
    texts metadatas s embeddings s1 s2 (c j : nat) :
  RAGPipeline.vectorstore self = as_collaborator collection_query ->
  EmbeddingsGeneratorI.generate_embeddings (RAGPipeline.embeddings_generator self) texts
    (RAGPipeline.spinning "Generating embeddings for documents..." s)
    = (Return (Some embeddings), s1) ->
  holed c j s1 -> (j + 1 < c)%nat ->
  RAGPipeline.add_documents_to_knowledge_base self texts metadatas s = (Return true, s2) ->
  get_collection_count s1 = (Return (c - 1)%nat, s1)
  /\ get_collection_count s2 = (Return (c - 1 + (length texts - 1))%nat, s2)
  /\ is_Some (records_of s1 !! ("doc_" +:+ Py.str_nat (c - 1)))
  /\ records_of s2 !! ("doc_" +:+ Py.str_nat (c - 1))
     = records_of s1 !! ("doc_" +:+ Py.str_nat (c - 1)).
Proof.
  intros Hstore Hemb [Hb Hkeys] Hj Hrun.
  assert (size (records_of s1) = (c - 1)%nat) as Hsize1.
  { rewrite <- (length_hole_ids c j) by lia.
    apply size_keys; [apply NoDup_hole_ids|done]. }
  apply (ingestion_true _ _ _ _ _ _ _ _ Hstore Hemb Hb) in Hrun. rewrite Hsize1 in Hrun.
  destruct (add_documents_records _ _ _ _ _ _ Hrun) as (_ & Hb2 & _).
  destruct (add_documents_effect _ _ _ _ _ _ Hrun) as (_ & Hkeep & _).
  assert (texts <> []) as Ht.
  { apply add_documents_true in Hrun as ((col & _ & ? & _) & _). done. }
  simpl in *.
  assert (is_Some (records_of s1 !! ("doc_" +:+ Py.str_nat (c - 1)))) as [r Hr].
  { apply Hkeys, elem_of_hole_ids; [lia|].
    exists (c - 1)%nat. split; [lia|]. split; [lia|done]. }
  assert (length texts <> 0%nat) as Hn by (by destruct texts).
  assert (forall id,
            is_Some (records_of s2 !! id) <-> id ∈ hole_ids (c - 1 + length texts) j)
    as Hkeys2.
  { intros id. rewrite (add_documents_keys _ _ _ _ _ _ _ Hrun), Hkeys. simpl.
    rewrite !elem_of_hole_ids, elem_of_seeded_ids by lia. split.
    - intros [(i & Hi & Hne & ->)|(i & Hi & ->)];
        [exists i|exists (c - 1 + i)%nat]; (split; [|split; [|done]]); lia.
    - intros (i & Hi & Hne & ->). destruct (decide (i < c)%nat); [left; by exists i|right].
      exists (i - (c - 1))%nat. split; [lia|]. do 2 f_equal. lia. }
  split; [|split; [|split]].
  - by rewrite get_collection_count_bound, Hsize1.
  - rewrite get_collection_count_bound by done. do 2 f_equal.
    transitivity (length (hole_ids (c - 1 + length texts) j)).
    + apply size_keys; [apply NoDup_hole_ids|done].
    + rewrite length_hole_ids by lia. lia.
  - by rewrite Hr.
  - rewrite Hr. by apply Hkeep.
Qed.


End MoreStoreFacts.

(** ** The search of the vector store *)

Section MoreSearchFacts.
Import VectorStore.
Variable collection_query :
  Chroma.Collection -> list Embedding -> Z -> option Metadata -> Outcome Chroma.QueryResponse.

Lemma format_results_cons results docs i rest formatted_results (s : t) :
  format_results results docs (i :: rest) formatted_results s =
    match format_entry results docs i with
    | Return r => format_results results docs rest (formatted_results ++ [r]) s
    | Raise e => (Raise e, s)
    end.
Proof.
  unfold format_entry. simpl. unfold bind, lift.
  destruct (index2 docs i); [|done].
  destruct (index_or (Chroma.distances results) Some None i); [|done].
  destruct (index_or (Chroma.metadatas results) id ∅ i); [|done].
  by destruct (index_or (Chroma.ids results) Some None i).
Qed.

Lemma format_entry_error results docs i e :
  format_entry results docs i = Raise e -> e = Exception "list index out of range".
Proof.
  unfold format_entry, index_or, index2.
  repeat (case_match; simplify_eq); by intros [= <-].
Qed.

(** The loop of [search] when every index can be read under every key. *)
Lemma format_results_all results docs indices entries formatted_results (s : t) :
  Forall2 (fun i r => format_entry results docs i = Return r) indices entries ->
  format_results results docs indices formatted_results s
  = (Return (formatted_results ++ entries), s).
Proof.
  intros Hall. revert formatted_results.
  induction Hall as [|i r indices entries Hi _ IH]; intros acc.
  - simpl. by rewrite app_nil_r.
  - rewrite format_results_cons, Hi, IH, <- app_assoc. done.
Qed.

(** The loop of [search] when some index cannot be read under some key. *)
Lemma format_results_raise results docs indices formatted_results (s : t) i e :
  i ∈ indices -> format_entry results docs i = Raise e ->
  format_results results docs indices formatted_results s
  = (Raise (Exception "list index out of range"), s).
Proof.
  intros Hin Hi. revert formatted_results.
  induction indices as [|k indices IH]; intros acc; [by apply elem_of_nil in Hin|].
  rewrite format_results_cons.
  destruct (format_entry results docs k) as [r|e'] eqn:Hk.
  - apply elem_of_cons in Hin as [->|Hin]; [congruence|]. by apply IH.
  - by rewrite (format_entry_error _ _ _ _ Hk).
Qed.

(** What [search] does once the query of the collection has returned a
    response with a first row of documents. *)
Lemma search_response query_embedding n_results filter_metadata (s : t) col results
    doc first more :
  client s !! collection s = Some col ->
  collection_query col [query_embedding] n_results filter_metadata = Return results ->
  Chroma.documents results = Some ((doc :: first) :: more) ->
  search collection_query query_embedding n_results filter_metadata s =
    match format_results results ((doc :: first) :: more)
            (seq 0 (length (doc :: first))) [] s with
    | (Return rs, s') => (Return rs, s')
    | (Raise e, s') =>
        (Return [], log_add (StError ("Error searching vector store: " +:+ str_exn e)) s')
    end.
Proof.
  intros Hcol Hq Hdocs.
  unfold search, try_except, bind, get_self, lift, st_error, emit, ret.
  rewrite Hcol, Hq, Hdocs. by destruct (format_results _ _ _ _ s) as [[rs|e] s'].
Qed.

(** X15. When the query of the collection returns a row of documents
    together with rows of distances, metadata and ids of the same length,
    [search] returns one dict per document, in the order of the row, and
    the dict of position [i] pairs the document, the distance, the metadata
    and the id of position [i]; it shows nothing and does not change the
    store. *)
Theorem search_pairs_rows query_embedding n_results filter_metadata (s : t) col
    documents distances metadatas ids more_documents more_distances more_metadatas more_ids :
  client s !! collection s = Some col ->
  collection_query col [query_embedding] n_results filter_metadata
    = Return {| Chroma.documents := Some (documents :: more_documents);
                Chroma.distances := Some (distances :: more_distances);
                Chroma.metadatas := Some (metadatas :: more_metadatas);
                Chroma.ids := Some (ids :: more_ids) |} ->
  length distances = length documents ->
  length metadatas = length documents ->
  length ids = length documents ->
  exists rs,
    search collection_query query_embedding n_results filter_metadata s = (Return rs, s)
    /\ length rs = length documents
    /\ forall i document distance metadata id,
         documents !! i = Some document -> distances !! i = Some distance ->
         metadatas !! i = Some metadata -> ids !! i = Some id ->
         rs !! i = Some {| sr_document := Some document;
                           sr_distance := Some (Some distance);
                           sr_metadata := Some metadata;
                           sr_id := Some (Some id) |}.
Proof.
  intros Hcol Hq Hd Hm Hi.
  set (results := {| Chroma.documents := Some (documents :: more_documents);
                     Chroma.distances := Some (distances :: more_distances);
                     Chroma.metadatas := Some (metadatas :: more_metadatas);
                     Chroma.ids := Some (ids :: more_ids) |}) in *.
  set (entry := fun i : nat =>
         {| sr_document := documents !! i;
            sr_distance := Some (distances !! i);
            sr_metadata := metadatas !! i;
            sr_id := Some (ids !! i) |}).
  destruct documents as [|doc first].
  { exists []. split; [|split; [done|by intros i ? ? ? ? ?]].
    unfold search, try_except, bind, get_self, lift, st_error, emit, ret.
    by rewrite Hcol, Hq. }
  assert (Forall2 (fun i r => format_entry results ((doc :: first) :: more_documents) i
                              = Return r)
            (seq 0 (length (doc :: first))) (entry <$> seq 0 (length (doc :: first))))
    as Hall.
  { apply Forall2_fmap_r, Forall_Forall2_diag, Forall_forall.
    intros i Hin%elem_of_seq.
    destruct (lookup_lt_is_Some_2 (doc :: first) i ltac:(lia)) as [x Hx].
    destruct (lookup_lt_is_Some_2 distances i ltac:(lia)) as [d Hdi].
    destruct (lookup_lt_is_Some_2 metadatas i ltac:(lia)) as [m Hmi].
    destruct (lookup_lt_is_Some_2 ids i ltac:(lia)) as [k Hki].
    unfold format_entry, index_or, index2, entry. simpl.
    by rewrite Hx, Hdi, Hmi, Hki. }
  rewrite (search_response _ _ _ _ _ results doc first more_documents Hcol Hq eq_refl).
  rewrite (format_results_all _ _ _ _ _ _ Hall). simpl app.
  eexists. split; [done|]. split.
  - change (length (entry <$> seq 0 (length (doc :: first))) = length (doc :: first)).
    by rewrite length_fmap, length_seq.
  - intros i document distance metadata id Hdoc Hdist Hmeta Hid.
    change (S (length first)) with (length (doc :: first)).
    change ((entry <$> seq 0 (length (doc :: first))) !! i = Some
      {| sr_document := Some document; sr_distance := Some (Some distance);
         sr_metadata := Some metadata; sr_id := Some (Some id) |}).
    rewrite list_lookup_fmap, lookup_seq_lt by (by eapply lookup_lt_Some).
    simpl. unfold entry. by rewrite Hdoc, Hdist, Hmeta, Hid.
Qed.

(** X16. When the row of distances, of metadata or of ids is shorter than
    the row of documents, [search] returns the empty list and shows
    [Error searching vector store: list index out of range]: the dicts
    built for the positions before the missing one are not returned. *)
Theorem search_short_row query_embedding n_results filter_metadata (s : t) col results
    documents more_documents :
  client s !! collection s = Some col ->
  collection_query col [query_embedding] n_results filter_metadata = Return results ->
  Chroma.documents results = Some (documents :: more_documents) ->
  short_row (Chroma.distances results) (length documents)
  \/ short_row (Chroma.metadatas results) (length documents)
  \/ short_row (Chroma.ids results) (length documents) ->
  search collection_query query_embedding n_results filter_metadata s
  = (Return [],
     log_add (StError "Error searching vector store: list index out of range") s).
Proof.
  intros Hcol Hq Hdocs Hshort.
  assert (exists i e, (i < length documents)%nat /\
            format_entry results (documents :: more_documents) i = Raise e)
    as (i & e & Hi & He).
  { unfold format_entry, index_or, index2.
    destruct Hshort as [(row & more & Hrow & Hlen)|[(row & more & Hrow & Hlen)
                                                   |(row & more & Hrow & Hlen)]];
      exists (length row);
      destruct (lookup_lt_is_Some_2 documents (length row) Hlen) as [doc Hdoc];
      rewrite Hdoc, ?Hrow;
      pose proof (lookup_ge_None_2 row (length row) (Nat.le_refl _)) as Hnone.
    - rewrite Hnone. by eexists.
    - destruct (Chroma.distances results) as [[|drow ?]|];
        try destruct (drow !! length row); rewrite ?Hnone; by eexists.
    - destruct (Chroma.distances results) as [[|drow ?]|];
        try destruct (drow !! length row);
        destruct (Chroma.metadatas results) as [[|mrow ?]|];
        try destruct (mrow !! length row); rewrite ?Hnone; by eexists. }
  destruct documents as [|doc first]; [simpl in Hi; lia|].
  rewrite (search_response _ _ _ _ _ results doc first more_documents Hcol Hq Hdocs).
  rewrite (format_results_raise results _ _ [] s i e); [done| |done].
  apply elem_of_seq. lia.
Qed.

(** X17. A failure of the collection during the search is reported by the
    pipeline as an empty knowledge base: when [collection.query] raises,
    [search] shows the message of the exception and returns the empty
    list, and [RAGPipeline.query] over this store answers that no relevant
    documents were found, with no sources; the clause of [query] for
    exceptions is not reached and the answer provider is not invoked. *)
Theorem query_store_failure (self : RAGPipeline.t t) question max_tokens (s : t)
    query_embedding rest s1 col e :
  RAGPipeline.vectorstore self = as_collaborator collection_query ->
  Py.all_space question = false ->
  EmbeddingsGeneratorI.generate_embeddings (RAGPipeline.embeddings_generator self) [question]
    (RAGPipeline.spinning "Generating query embedding..." s)
    = (Return (Some (query_embedding :: rest)), s1) ->
  client s1 !! collection s1 = Some col ->
  collection_query col [query_embedding] (RAGPipeline.top_k self) None = Raise e ->
  RAGPipeline.query self question max_tokens s
  = (Return {| RAGPipeline.answer := RAGPipeline.no_documents_answer;
               RAGPipeline.sources := [];
               RAGPipeline.metadata := ∅ |},
     log_add (StError ("Error searching vector store: " +:+ str_exn e))
       (RAGPipeline.spinning (RAGPipeline.retrieving_message self) s1))
  /\ forall llm,
       RAGPipeline.query (RAGPipeline.with_llm_handler self llm) question max_tokens s
       = RAGPipeline.query self question max_tokens s.
Proof.
  intros Hstore Hq He Hcol Hraise.
  assert (forall p : RAGPipeline.t t,
            RAGPipeline.embeddings_generator p = RAGPipeline.embeddings_generator self ->
            RAGPipeline.vectorstore p = RAGPipeline.vectorstore self ->
            RAGPipeline.top_k p = RAGPipeline.top_k self ->
            RAGPipeline.query p question max_tokens s
            = (Return {| RAGPipeline.answer := RAGPipeline.no_documents_answer;
                         RAGPipeline.sources := [];
                         RAGPipeline.metadata := ∅ |},
               log_add (StError ("Error searching vector store: " +:+ str_exn e))
                 (RAGPipeline.spinning (RAGPipeline.retrieving_message self) s1)))
    as Hrun.
  { intros p Hpe Hpv Hpk. unfold RAGPipeline.query. rewrite blank_test, Hq.
    unfold RAGPipeline.query_body, try_except, with_spinner, bind, emit, st_error, ret,
      RAGPipeline.spinning, RAGPipeline.retrieving_message.
    rewrite Hpe, Hpv, Hpk, Hstore.
    unfold RAGPipeline.spinning in He. rewrite He. simpl.
    unfold search, try_except, bind, get_self, lift, st_error, emit, ret. simpl.
    by rewrite Hcol, Hraise. }
  split; [by apply Hrun|].
  intros llm. by rewrite !Hrun.
Qed.

(** The loop of [search] leaves the store as it is. *)
Lemma format_results_state results docs indices formatted_results (s : t) :
  (format_results results docs indices formatted_results s).2 = s.
Proof.
  revert formatted_results.
  induction indices as [|i indices IH]; intros acc; [done|].
  rewrite format_results_cons. by destruct (format_entry results docs i).
Qed.

(** X18. [search] only reads: whatever the collection answers, it returns
    a list, leaves the client and the handle of the store as they were, and
    shows either nothing or, with an empty result, one error that starts
    with [Error searching vector store: ]. *)
Theorem search_read_only query_embedding n_results filter_metadata (s : t) :
  exists rs s',
    search collection_query query_embedding n_results filter_metadata s = (Return rs, s')
    /\ client s' = client s
    /\ collection s' = collection s
    /\ (ui s' = ui s
        \/ rs = []
           /\ exists msg, ui s' = ui s ++ [StError ("Error searching vector store: " +:+ msg)]).
Proof.
  unfold search, try_except, bind, get_self, lift, st_error, emit, ret.
  destruct (client s !! collection s) as [col|];
    [|eexists _, _; repeat split; right; split; [done|by eexists]].
  destruct (collection_query col _ _ _) as [results|e];
    [|eexists _, _; repeat split; right; split; [done|by eexists]].
  destruct (Chroma.documents results) as [[|[|doc first] docs]|];
    try (eexists _, _; repeat split; by left).
  pose proof (format_results_state results ((doc :: first) :: docs)
                (seq 0 (length (doc :: first))) [] s) as Hstate.
  destruct (format_results _ _ _ _ s) as [[rs|e] s'] eqn:Hf; simpl in Hstate; subst s'.
  - eexists _, _. repeat split. by left.
  - eexists _, _. repeat split. right. split; [done|by eexists].
Qed.

End MoreSearchFacts.

(** ** The answer provider and the embedding provider *)

Section HandlerFacts.
Context {W : Type} `{Logged W}.
Import LLMHandler.

Ltac run_handler :=
  unfold generate_answer, _generate_local_answer, _generate_openai_answer,
    call_local_llm, chat_completions_create, is_available,
    try_except, bind, st_error, st_info, st_warning, st_success, emit, ret, raise in *.

(** X19. When the local backend is the one selected and its call raises,
    [generate_answer] does not return [None] and does not raise: it shows
    the error under the label of the backend and returns the fixed string
    [Error generating answer with local LLM.] as the answer. *)
Theorem generate_answer_local_failure (self : t W) question context max_tokens
    llm kind e w w1 :
  Py.truthy question = true ->
  Py.truthy context = true ->
  use_openai self && bool_decide (is_Some (openai_client self)) = false ->
  local_llm self = Some llm ->
  llm_type self = Some kind ->
  kind <> openai ->
  llm (local_prompt question context)
    (local_max_length kind (local_prompt question context) max_tokens) w = (Raise e, w1) ->
  generate_answer self question context max_tokens w
  = (Return (Some local_error_answer),
     log_add (StError (local_error_label kind +:+ str_exn e)) w1).
Proof.
  intros Hq Hc Hremote Hllm Hkind Hlocal Hcall. run_handler.
  rewrite Hq, Hc, Hremote, Hllm, Hkind. simpl.
  destruct kind; [done| |]; simpl in *; by rewrite Hcall.
Qed.

(** X20. [LLMHandler.__init__] always leaves a handler, and its fields
    agree: it holds at most one backend, [llm_type] is [openai] exactly
    when it holds the remote client (and then [use_openai] is still set),
    [ollama] or [transformers] only when it holds a local model (and then
    [use_openai] is off), and [None] when it holds nothing; [is_available]
    is [False] on it exactly when [llm_type] is [None]. *)
Theorem init_consistent (env : Env W) (b : bool) (w : W) :
  exists self w',
    __init__ env b w = (Return self, w')
    /\ handler_consistent self
    /\ (is_available self = false <-> llm_type self = None).
Proof.
  unfold __init__, try_except, bind, st_success, st_warning, st_info, st_error, emit, ret,
    handler_consistent, is_available.
  repeat (case_match; simpl in *; simplify_eq); eexists _, _;
    (split; [reflexivity|]); simpl;
    repeat match goal with
           | H : _ && _ = true |- _ => apply andb_true_iff in H as [? ?]
           | H : negb _ = true |- _ => apply negb_true_iff in H
           | H : negb _ = false |- _ => apply negb_false_iff in H
           end; subst; simpl in *; simplify_eq;
    rewrite ?andb_false_r; naive_solver.
Qed.

(** X21. Asked for the remote backend where the OpenAI library is not
    installed, [LLMHandler.__init__] shows nothing and leaves a handler
    with no backend at all, whether Ollama or transformers are installed
    or not: no local backend is tried. That handler is not available, and
    [generate_answer] on it shows [No LLM available for answer generation.]
    and returns [None]. *)
Theorem init_without_openai_library (env : Env W) (w : W) :
  OPENAI_AVAILABLE env = false ->
  exists self,
    __init__ env true w = (Return self, w)
    /\ openai_client self = None /\ local_llm self = None
    /\ is_available self = false
    /\ forall question context max_tokens w0,
         Py.truthy question = true -> Py.truthy context = true ->
         generate_answer self question context max_tokens w0
         = (Return None, log_add (StError "No LLM available for answer generation.") w0).
Proof.
  intros Hlib. eexists. split.
  - unfold __init__, bind, ret. rewrite Hlib. reflexivity.
  - repeat split. intros question context max_tokens w0 Hq Hc.
    run_handler. by rewrite Hq, Hc.
Qed.

End HandlerFacts.

Section GeneratorFacts.
Context {W : Type} `{Logged W}.
Import EmbeddingsGenerator.

Ltac run_generator :=
  unfold generate_embeddings, _generate_openai_embeddings, _generate_local_embeddings,
    get_embedding_dimension,
    try_except, bind, st_error, st_info, st_warning, st_success, emit, ret, raise in *.

(** [EmbeddingsGenerator.__init__] sets a local model only when it has
    given up the remote client. *)
Lemma generator_init_exclusive (env : Env W) b w self w' :
  __init__ env b w = (Return self, w') ->
  is_Some (openai_client self) ->
  use_openai self = true /\ local_model self = None.
Proof.
  unfold __init__, try_except, bind, st_success, st_warning, st_info, st_error, emit, ret.
  intros Hinit [client Hclient].
  repeat (case_match; simpl in *; simplify_eq); simpl in *; simplify_eq;
    by repeat match goal with H : _ && _ = true |- _ => apply andb_true_iff in H as [-> ?] end.
Qed.

(** X22. The fallback of [_generate_openai_embeddings] to the local model
    is never taken on a generator built by [__init__]: such a generator
    that holds the remote client holds no local model, so when the remote
    call raises, [generate_embeddings] shows the error twice and returns
    [None]. *)
Theorem constructed_generator_no_fallback (env : Env W) b w self w' client texts e w0 w1 :
  __init__ env b w = (Return self, w') ->
  openai_client self = Some client ->
  texts <> [] ->
  client texts w0 = (Raise e, w1) ->
  local_model self = None
  /\ generate_embeddings self texts w0
     = (Return None,
        log_add (StError ("Error generating embeddings: " +:+ str_exn e))
          (log_add (StError ("OpenAI embedding error: " +:+ str_exn e)) w1)).
Proof.
  intros Hinit Hclient Htexts Hcall.
  destruct (generator_init_exclusive env b w self w' Hinit) as [Hu Hm]; [by eexists|].
  split; [done|]. run_generator.
  destruct texts as [|x xs]; [done|].
  rewrite Hu, Hclient, Hm. simpl. by rewrite Hcall.
Qed.

(** X23. Asked for the remote backend where the OpenAI library is not
    installed, [EmbeddingsGenerator.__init__] shows nothing and leaves a
    generator with no model, whether sentence-transformers is installed or
    not. Its dimension is [0], and [generate_embeddings] on a list that is
    not empty shows [No embedding model available.] and returns [None]. *)
Theorem generator_init_without_openai_library (env : Env W) (w : W) :
  OPENAI_AVAILABLE env = false ->
  exists self,
    __init__ env true w = (Return self, w)
    /\ openai_client self = None /\ local_model self = None
    /\ get_embedding_dimension self = 0%Z
    /\ forall texts w0,
         texts <> [] ->
         generate_embeddings self texts w0
         = (Return None, log_add (StError "No embedding model available.") w0).
Proof.
  intros Hlib. eexists. split.
  - unfold __init__, bind, ret. rewrite Hlib. reflexivity.
  - repeat split. intros texts w0 Htexts.
    run_generator. by destruct texts.
Qed.

End GeneratorFacts.

(** ** The pipeline on the three components of the repository *)

Section AssembledFacts.
Variable collection_query :
  Chroma.Collection -> list Embedding -> Z -> option Metadata -> Outcome Chroma.QueryResponse.

(** X24. In the pipeline made of an [EmbeddingsGenerator], a [VectorStore]
    and an [LLMHandler], no step of [query] raises, since each of the three
    methods catches what its backend raises: the body of [query] returns,
    [query] is its body on a question that is not blank, and the answer
    [An error occurred: ...] of the clause for exceptions is never built. *)
Theorem assembled_query_no_exception generator handler top_k question max_tokens
    (s : VectorStore.t) :
  (forall e s', ~ RAGPipeline.step_raises
                    (assembled_pipeline collection_query generator handler top_k)
                    question max_tokens s e s')
  /\ (exists r s',
        RAGPipeline.query_body (assembled_pipeline collection_query generator handler top_k)
          question max_tokens s = (Return r, s'))
  /\ (Py.all_space question = false ->
      RAGPipeline.query (assembled_pipeline collection_query generator handler top_k)
        question max_tokens s
      = RAGPipeline.query_body (assembled_pipeline collection_query generator handler top_k)
          question max_tokens s).
Proof.
  set (self := assembled_pipeline collection_query generator handler top_k).
  assert (forall e s', ~ RAGPipeline.step_raises self question max_tokens s e s') as Hno.
  { intros e s' [He | qes qe rest s1 He -> Hs | qes qe rest s1 rs s2 He -> Hs Hne Ha].
    - destruct (generate_embeddings_returns generator [question]
                  (RAGPipeline.spinning "Generating query embedding..." s))
        as (r & s0 & Hr). simpl in *. congruence.
    - destruct (search_returns_keys collection_query qe top_k None
                  (RAGPipeline.spinning (RAGPipeline.retrieving_message self) s1))
        as (r & s0 & Hr & _). simpl in *. congruence.
    - destruct (generate_answer_returns handler question (RAGPipeline.context_of rs)
                  max_tokens (RAGPipeline.spinning "Generating answer..." s2))
        as (r & s0 & Hr). simpl in *. congruence. }
  assert (exists r s', RAGPipeline.query_body self question max_tokens s = (Return r, s'))
    as (r & s' & Hbody).
  { destruct (RAGPipeline.query_body self question max_tokens s) as [[r|e] s'] eqn:Hb;
      [by eexists _, _|].
    apply query_body_raises in Hb. by destruct (Hno e s'). }
  split; [done|]. split; [by eexists _, _|].
  intros Hq. unfold RAGPipeline.query. rewrite blank_test, Hq. simpl.
  unfold try_except. by rewrite Hbody.
Qed.

End AssembledFacts.

(** ** The properties above on concrete objects *)

(** *** Text extraction *)

Lemma extract_text_from_pdf_pages_witness :
  PDFProcessor.extract_text_from_pdf MoreExamples.book []
  = (Return (Some (PDFProcessor.page_block 0 "Paris is the capital of France."
                   +:+ Py.nl +:+ Py.nl
                   +:+ PDFProcessor.page_block 3 "Tokyo is the capital of Japan.")),
     [StWarning "Error extracting text from page 3: could not decode the page"]).
Proof.
  exact (extract_text_from_pdf_pages MoreExamples.book _ [] eq_refl).
Defined.

Lemma extracted_text_not_blank_witness :
  let text := PDFProcessor.page_block 0 "Paris is the capital of France."
              +:+ Py.nl +:+ Py.nl
              +:+ PDFProcessor.page_block 3 "Tokyo is the capital of Japan." in
  PDFProcessor.validate_pdf MoreExamples.book = true
  /\ Py.truthy text = true
  /\ Py.all_space text = false
  /\ forall chunker : TextChunker.t,
       TextChunker.chunk_text chunker text = TextChunker.text_splitter chunker text.
Proof.
  intros text.
  exact (extracted_text_not_blank MoreExamples.book []
           [StWarning "Error extracting text from page 3: could not decode the page"]
           text eq_refl).
Defined.

(** *** The pipeline on collaborators that fail *)

Lemma query_embedding_failure_witness :
  let self := Examples.pipeline (Return None) (Return []) (Return (Some "unused")) in
  RAGPipeline.query self "What is RAG?" 500 []
  = (Return {| RAGPipeline.answer := RAGPipeline.embedding_error_answer;
               RAGPipeline.sources := [];
               RAGPipeline.metadata := ∅ |},
     [StSpinner "Generating query embedding..."; CallEmbeddings ["What is RAG?"]]).
Proof.
  intros self.
  exact (proj1 (query_embedding_failure self "What is RAG?" 500 [] None _
                  eq_refl eq_refl (or_introl eq_refl))).
Defined.

Lemma query_generation_failure_witness :
  let results := [Examples.hit "Paris is the capital of France." (Some (Py.flt 0.25))] in
  let self := Examples.pipeline Examples.one_embedding (Return results) (Return None) in
  (RAGPipeline.query self "What is the capital of France?" 500 []).1
  = Return {| RAGPipeline.answer := RAGPipeline.generation_error_answer;
              RAGPipeline.sources := map RAGPipeline.source_of results;
              RAGPipeline.metadata := ∅ |}.
Proof.
  intros results self.
  assert (results <> []) as Hne by discriminate.
  exact (f_equal fst
           (query_generation_failure self "What is the capital of France?" 500 []
              _ _ _ results _ None _ eq_refl eq_refl eq_refl Hne eq_refl
              (or_introl eq_refl))).
Defined.

(** *** The vector store *)

Lemma fresh_store_bound :
  is_Some (VectorStore.client Examples.fresh_store
             !! VectorStore.collection Examples.fresh_store).
Proof. by eexists. Qed.

Lemma records_of_fresh_store : records_of Examples.fresh_store = ∅.
Proof. reflexivity. Qed.

(** A store is dense, or has a hole, when its ids are the expected ones. *)
Lemma keys_by_dom (s : VectorStore.t) (ids : list string) :
  dom (records_of s) = list_to_set ids ->
  forall id, is_Some (records_of s !! id) <-> id ∈ ids.
Proof.
  intros Hdom id. by rewrite <- elem_of_dom, Hdom, elem_of_list_to_set.
Qed.

Lemma add_documents_stores_witness :
  let s' := MoreExamples.store_of_three in
  VectorStore.add_documents MoreExamples.three_texts (Examples.vectors 3) None None
    Examples.fresh_store = (Return true, s')
  /\ records_of s' !! "doc_1"
     = Some {| Chroma.embedding := [1 # 2; 1 # 4]%Q;
               Chroma.document := "Tokyo";
               Chroma.metadata := {[ "text" := SStr "Tokyo" ]} |}
  /\ VectorStore.get_collection_count s' = (Return 3%nat, s').
Proof.
  intros s'.
  assert (VectorStore.add_documents MoreExamples.three_texts (Examples.vectors 3) None None
            Examples.fresh_store = (Return true, s')) as Hrun by (by vm_compute).
  destruct (add_documents_stores _ _ _ _ _ _ Hrun) as (_ & Hnew & _ & Hcount).
  split; [exact Hrun|]. split.
  - destruct (Hnew 1%nat "doc_1" eq_refl eq_refl)
      as (text & embedding & metadata & Ht & He & _ & Hm & ->).
    injection Ht as <-. injection He as <-. by rewrite (Hm eq_refl).
  - apply Hcount. intros id _. by rewrite records_of_fresh_store.
Defined.

Lemma add_then_delete_witness :
  let ids := ["a"; "b"; "c"] in
  let s1 := (VectorStore.add_documents MoreExamples.three_texts (Examples.vectors 3) None
               (Some ids) Examples.fresh_store).2 in
  exists s2,
    VectorStore.delete_documents ids s1 = (Return true, s2)
    /\ records_of s2 = records_of Examples.fresh_store
    /\ VectorStore.ui s2 = VectorStore.ui Examples.fresh_store
    /\ is_Some (dimension_of s2)
    /\ (is_Some (dimension_of Examples.fresh_store) -> s2 = Examples.fresh_store).
Proof.
  intros ids s1.
  assert (VectorStore.add_documents MoreExamples.three_texts (Examples.vectors 3) None
            (Some ids) Examples.fresh_store = (Return true, s1)) as Hrun by (by vm_compute).
  assert (forall id, id ∈ ids -> records_of Examples.fresh_store !! id = None) as Hfree
    by (intros id _; by rewrite records_of_fresh_store).
  exact (add_then_delete Examples.fresh_store MoreExamples.three_texts (Examples.vectors 3)
           None ids s1 Hrun Hfree).
Defined.

Lemma add_documents_twice_without_ids_witness :
  let s := Examples.fresh_store in
  let texts1 := MoreExamples.three_texts in
  let texts2 := ["Lima"] in
  let s1 := MoreExamples.store_of_three in
  let s2 := (VectorStore.add_documents texts2 (Examples.vectors 1) None None s1).2 in
  VectorStore.get_collection_count s2 = (Return 3%nat, s2)
  /\ (forall i text,
        texts1 !! i = Some text ->
        Chroma.document <$> records_of s2 !! ("doc_" +:+ Py.str_nat i) = Some text)
  /\ (forall i text,
        texts2 !! i = Some text -> (3 <= i)%nat ->
        Chroma.document <$> records_of s2 !! ("doc_" +:+ Py.str_nat i) = Some text).
Proof.
  intros s texts1 texts2 s1 s2.
  assert (VectorStore.add_documents texts1 (Examples.vectors 3) None None s
          = (Return true, s1)) as H1 by (by vm_compute).
  assert (VectorStore.add_documents texts2 (Examples.vectors 1) None None s1
          = (Return true, s2)) as H2 by (by vm_compute).
  exact (add_documents_twice_without_ids s texts1 (Examples.vectors 3) None texts2
           (Examples.vectors 1) None s1 s2 records_of_fresh_store H1 H2).
Defined.


(** *** Ingestion through the pipeline *)

Lemma ingestion_grows_witness :
  let texts := ["Lima"; "Oslo"] in
  let s1 := RAGPipeline.spinning "Generating embeddings for documents..."
              MoreExamples.store_of_three in
  let s2 := (RAGPipeline.add_documents_to_knowledge_base Examples.store_pipeline texts None
               MoreExamples.store_of_three).2 in
  dense s2
  /\ VectorStore.get_collection_count s2
     = (Return (size (records_of s1) + length texts)%nat, s2)
  /\ VectorStore.ui s2 = VectorStore.ui s1
  /\ forall i text,
       texts !! i = Some text ->
       Chroma.document <$> records_of s2
                           !! ("doc_" +:+ Py.str_nat (size (records_of s1) + i))
       = Some text.
Proof.
  intros texts s1 s2.
  assert (dense s1) as Hdense.
  { split; [by eexists|]. apply keys_by_dom. by vm_compute. }
  assert (RAGPipeline.add_documents_to_knowledge_base Examples.store_pipeline texts None
            MoreExamples.store_of_three = (Return true, s2)) as Hrun by (by vm_compute).
  exact (ingestion_grows Examples.store_pipeline Examples.no_hits texts None
           MoreExamples.store_of_three _ s1 s2 eq_refl eq_refl Hdense Hrun).
Defined.

Lemma ingestion_after_delete_witness :
  let texts := ["Lima"; "Oslo"] in
  let s1 := RAGPipeline.spinning "Generating embeddings for documents..."
              MoreExamples.store_with_hole in
  let s2 := (RAGPipeline.add_documents_to_knowledge_base Examples.store_pipeline texts None
               MoreExamples.store_with_hole).2 in
  VectorStore.get_collection_count s1 = (Return 2%nat, s1)
  /\ VectorStore.get_collection_count s2 = (Return 3%nat, s2)
  /\ is_Some (records_of s1 !! "doc_2")
  /\ records_of s2 !! "doc_2" = records_of s1 !! "doc_2".
Proof.
  intros texts s1 s2.
  assert (holed 3 0 s1) as Hholed.
  { split; [by eexists|]. apply keys_by_dom. by vm_compute. }
  assert (RAGPipeline.add_documents_to_knowledge_base Examples.store_pipeline texts None
            MoreExamples.store_with_hole = (Return true, s2)) as Hrun by (by vm_compute).
  exact (ingestion_after_delete Examples.store_pipeline Examples.no_hits texts None
           MoreExamples.store_with_hole _ s1 s2 3 0 eq_refl eq_refl Hholed
           ltac:(simpl; lia) Hrun).
Defined.

(** *** The search *)

Lemma search_pairs_rows_witness :
  let s := MoreExamples.store_of_three in
  exists rs,
    VectorStore.search MoreExamples.two_hits [1 # 2; 1 # 4]%Q 5 None s = (Return rs, s)
    /\ length rs = 2%nat
    /\ forall i document distance metadata id,
         ["Paris"; "Tokyo"] !! i = Some document ->
         [Py.flt 0.25; Py.flt 0.5] !! i = Some distance ->
         [(∅ : Metadata); ∅] !! i = Some metadata ->
         ["doc_0"; "doc_1"] !! i = Some id ->
         rs !! i = Some {| sr_document := Some document;
                           sr_distance := Some (Some distance);
                           sr_metadata := Some metadata;
                           sr_id := Some (Some id) |}.
Proof.
  intros s.
  exact (search_pairs_rows MoreExamples.two_hits [1 # 2; 1 # 4]%Q 5 None s _
           ["Paris"; "Tokyo"] [Py.flt 0.25; Py.flt 0.5] [∅; ∅] ["doc_0"; "doc_1"] [] [] [] []
           eq_refl eq_refl eq_refl eq_refl eq_refl).
Defined.

Lemma search_short_row_witness :
  let s := MoreExamples.store_of_three in
  VectorStore.search MoreExamples.short_distances [1 # 2; 1 # 4]%Q 5 None s
  = (Return [],
     log_add (StError "Error searching vector store: list index out of range") s).
Proof.
  intros s.
  assert (short_row (Some [[Py.flt 0.25]]) (length ["Paris"; "Tokyo"])) as Hshort.
  { exists [Py.flt 0.25], []. split; [reflexivity|simpl; lia]. }
  exact (search_short_row MoreExamples.short_distances [1 # 2; 1 # 4]%Q 5 None s _ _
           ["Paris"; "Tokyo"] [] eq_refl eq_refl eq_refl (or_introl Hshort)).
Defined.

Lemma query_store_failure_witness :
  let self := MoreExamples.pipeline_on MoreExamples.broken_index in
  let s := MoreExamples.store_of_three in
  RAGPipeline.query self "What is the capital of France?" 500 s
  = (Return {| RAGPipeline.answer := RAGPipeline.no_documents_answer;
               RAGPipeline.sources := [];
               RAGPipeline.metadata := ∅ |},
     log_add (StError "Error searching vector store: index is corrupted")
       (RAGPipeline.spinning "Retrieving top 5 relevant passages..."
          (RAGPipeline.spinning "Generating query embedding..." s))).
Proof.
  intros self s.
  exact (proj1 (query_store_failure MoreExamples.broken_index self
                  "What is the capital of France?" 500 s _ _ _ _
                  (Exception "index is corrupted")
                  eq_refl eq_refl eq_refl eq_refl eq_refl)).
Defined.

(** *** The answer provider and the embedding provider *)

Lemma generate_answer_local_failure_witness :
  let question := "What is the capital of France?" in
  let context := "[Source 1] Paris is the capital of France." in
  LLMHandler.generate_answer MoreExamples.local_handler question context 500 []
  = (Return (Some LLMHandler.local_error_answer),
     [CallOllama (LLMHandler.local_prompt question context);
      StError "Ollama error: Connection refused"]).
Proof.
  intros question context.
  assert (LLMHandler.ollama <> LLMHandler.openai) as Hkind by discriminate.
  exact (generate_answer_local_failure MoreExamples.local_handler question context 500
           MoreExamples.unreachable_ollama LLMHandler.ollama
           (Exception "Connection refused") [] _
           eq_refl eq_refl eq_refl eq_refl eq_refl Hkind eq_refl).
Defined.

Lemma init_without_openai_library_witness :
  exists self,
    LLMHandler.__init__ MoreExamples.env_without_openai true [] = (Return self, [])
    /\ LLMHandler.openai_client self = None /\ LLMHandler.local_llm self = None
    /\ LLMHandler.is_available self = false
    /\ forall question context max_tokens w0,
         Py.truthy question = true -> Py.truthy context = true ->
         LLMHandler.generate_answer self question context max_tokens w0
         = (Return None, log_add (StError "No LLM available for answer generation.") w0).
Proof.
  exact (init_without_openai_library MoreExamples.env_without_openai [] eq_refl).
Defined.

Lemma constructed_generator_no_fallback_witness :
  let texts := ["What is the capital of France?"] in
  EmbeddingsGenerator.__init__ MoreExamples.embeddings_env_with_both true []
  = (Return MoreExamples.remote_generator,
     [StSuccess (Py.check_mark +:+ " Using OpenAI embeddings")])
  /\ EmbeddingsGenerator.local_model MoreExamples.remote_generator = None
  /\ EmbeddingsGenerator.generate_embeddings MoreExamples.remote_generator texts []
     = (Return None,
        [CallOpenAIEmbed texts;
         StError "OpenAI embedding error: Connection error.";
         StError "Error generating embeddings: Connection error."]).
Proof.
  intros texts. split; [reflexivity|].
  assert (texts <> []) as Hne by discriminate.
  exact (constructed_generator_no_fallback MoreExamples.embeddings_env_with_both true []
           MoreExamples.remote_generator _ Examples.failing_embeddings texts
           (Exception "Connection error.") [] _ eq_refl eq_refl Hne eq_refl).
Defined.

Lemma generator_init_without_openai_library_witness :
  exists self,
    EmbeddingsGenerator.__init__ MoreExamples.embeddings_env_without_openai true []
    = (Return self, [])
    /\ EmbeddingsGenerator.openai_client self = None
    /\ EmbeddingsGenerator.local_model self = None
    /\ EmbeddingsGenerator.get_embedding_dimension self = 0%Z
    /\ forall texts w0,
         texts <> [] ->
         EmbeddingsGenerator.generate_embeddings self texts w0
         = (Return None, log_add (StError "No embedding model available.") w0).
Proof.
  exact (generator_init_without_openai_library MoreExamples.embeddings_env_without_openai []
           eq_refl).
Defined.
